(** * ShivyC front end: diagnostics, lexer and statement dispatch

    A shallow embedding of [errors.py], [lexer.py] and
    [parser/statement.py], and the properties of the specification that
    are stated about them.

    Conventions of the embedding:
    - a Python [str] is a Rocq [string]; its characters are read as the
      code points below 256;
    - a Python [int] holding an index that may be negative is a [Z]; the
      positions inside a line, which the lexer only ever increases from
      zero, are [nat];
    - an attribute that may be [None] is an [option];
    - a call that may raise returns a [result]: [OK v], [Raise e] for a
      Python exception, or [Diverge] when the loop it runs never ends. *)

From Stdlib Require Import String Ascii List ZArith NArith Bool Lia Arith.
From Stdlib Require Import DecimalString Permutation Sorted.
Import ListNotations.

Open Scope string_scope.
Open Scope Z_scope.

Set Implicit Arguments.

(** ** Python-level plumbing *)

Module Py.

(** How a call ends: it returns [v], raises [e], or never returns. *)
Inductive result (E A : Type) : Type :=
| OK (v : A)
| Raise (e : E)
| Diverge.

Arguments OK {E A} v.
Arguments Raise {E A} e.
Arguments Diverge {E A}.

Definition bind {E A B} (m : result E A) (k : A -> result E B) : result E B :=
  match m with
  | OK v => k v
  | Raise e => Raise e
  | Diverge => Diverge
  end.

(** [l[i]] for a Python list: a negative index counts from the end,
    an index outside [-len, len) raises IndexError ([None]). *)
Definition index {A} (l : list A) (i : Z) : option A :=
  let n := Z.of_nat (length l) in
  if (0 <=? i) && (i <? n) then nth_error l (Z.to_nat i)
  else if (- n <=? i) && (i <? 0) then nth_error l (Z.to_nat (n + i))
  else None.

(** ["{}".format(n)] for an [int]. *)
Definition str_of_int (n : Z) : string :=
  NilZero.string_of_int (Z.to_int n).

(** ["{}".format(x)] for an attribute that holds a string or an [int],
    or [None]. *)
Definition format_str (o : option string) : string :=
  match o with
  | Some s => s
  | None => "None"
  end.

Definition format_int (o : option Z) : string :=
  match o with
  | Some n => str_of_int n
  | None => "None"
  end.

(** Truth value of an optional string: [None] and the empty string are
    false. *)
Definition truthy_str (o : option string) : bool :=
  match o with
  | Some (String _ _) => true
  | _ => false
  end.

(** Truth value of an optional integer: [None] and [0] are false. *)
Definition truthy_int (o : option Z) : bool :=
  match o with
  | Some n => negb (n =? 0)
  | None => false
  end.

End Py.

Import Py.

Notation "x <- m ;; k" := (Py.bind m (fun x => k))
  (at level 61, m at next level, right associativity).

(** ** Tokens ([tokens.py] and [token_kinds.py]) *)

Module Tokens.

(** Modelled from the spec: [tokens.py] and [token_kinds.py] are not
    among the source files. A token kind is an immutable value with a
    canonical spelling [text_repr]; two kinds, [identifier] and
    [number], stand outside the symbol and keyword groups and carry
    dynamic content instead of a fixed spelling. The registered
    symbol and keyword kinds are handed to the lexer's constructor. *)
Class TokenKinds (TokenKind : Type) : Type := {
  text_repr : TokenKind -> string;
  number : TokenKind;
  identifier : TokenKind
}.

Section Token.
Context {TokenKind : Type} `{TokenKinds TokenKind}.

(** Modelled from the spec: a token is its kind, an optional literal
    content (identifiers and numbers only) and the source position,
    which the lexer's caller assigns after the line is tokenized. *)
Record Token : Type := mkToken {
  kind : TokenKind;
  content : option string;
  file_name : option string;
  line_num : option Z
}.

(** [Token(kind)] and [Token(kind, content)]. *)
Definition Token_init (k : TokenKind) (c : option string) : Token :=
  {| kind := k; content := c; file_name := None; line_num := None |}.

(** Modelled from the spec: [str(token)] is the kind's canonical
    spelling for a fixed-spelling kind and the stored content for an
    identifier or a number. *)
Definition Token_str (t : Token) : string :=
  match content t with
  | Some c => c
  | None => text_repr (kind t)
  end.

(** [token.file_name = f; token.line_num = n]. *)
Definition set_position (f : string) (n : Z) (t : Token) : Token :=
  {| kind := kind t; content := content t;
     file_name := Some f; line_num := Some n |}.

End Token.

Arguments Token TokenKind : clear implicits.

End Tokens.

(** ** Diagnostics ([errors.py]) *)

Module Errors.
Import Tokens.

Record CompilerError : Type := mkCompilerError {
  descrip : string;
  file_name : option string;
  line_num : option Z
}.

(** [CompilerError.__init__(descrip, file_name=None, line_num=None)]. *)
Definition CompilerError_init (d : string) (f : option string)
    (l : option Z) : CompilerError :=
  {| descrip := d; file_name := f; line_num := l |}.

(** [CompilerError.__str__]: the two tests are Python truth tests, so
    an empty file name and a line number 0 count like [None]. *)
Definition CompilerError_str (self : CompilerError) : string :=
  if truthy_str (file_name self) && truthy_int (line_num self) then
    format_str (file_name self) ++ ":" ++ format_int (line_num self)
    ++ ": error: " ++ descrip self
  else if truthy_str (file_name self) then
    format_str (file_name self) ++ ": error: " ++ descrip self
  else "shivyc: error: " ++ descrip self.

Record ParserError : Type := mkParserError {
  base : CompilerError;
  amount_parsed : Z
}.

(** The exceptions of the embedded code: the two error classes of this
    module, which carry the error object, and the built-in ones. *)
Inductive exn : Type :=
| CompilerErr (e : CompilerError)
| ParserErr (e : ParserError)
| IndexError
| ValueError (msg : string)
| KeyError.

Definition AT : Z := 1.
Definition GOT : Z := 2.
Definition AFTER : Z := 3.

(** The boundary block of [ParserError.__init__] (the [if]/[elif] on
    [index]): the index and the message type it leaves behind. *)
Definition clamp (index len message_type : Z) : Z * Z :=
  if index >=? len then (len, AFTER)
  else if index <=? 0 then
    (0, if message_type =? AFTER then GOT else message_type)
  else (index, message_type).

Section WithKinds.
Context {TokenKind : Type} `{TokenKinds TokenKind}.

(** [token_error(descrip, token)]. [format1 d s] is [d.format(s)],
    Python's built-in template substitution with one positional
    argument, which raises on a malformed template. *)
Definition token_error (format1 : string -> string -> result exn string)
    (d : string) (token : Token TokenKind) : result exn CompilerError :=
  s <- format1 d (Token_str token) ;;
  OK (CompilerError_init s (Tokens.file_name token) (Tokens.line_num token)).

(** [ParserError.__init__(message, index, tokens, message_type)].
    Each [super().__init__(...)] sets the three inherited attributes
    of [self]; the one of the empty-list branch is followed by the
    rest of the body, which sets them again or raises. *)
Definition ParserError_init (message : string) (index : Z)
    (tokens : list (Token TokenKind)) (message_type : Z)
    : result exn ParserError :=
  let amount := index in
  let len := Z.of_nat (length tokens) in
  let self : option CompilerError :=
    if len =? 0 then
      Some (CompilerError_init (message ++ " at beginning of source")
              None None)
    else None in
  let '(index, message_type) := clamp index len message_type in
  self <-
    (if message_type =? AT then
       match Py.index tokens index with
       | Some t =>
           OK (CompilerError_init (message ++ " at '" ++ Token_str t ++ "'")
                 (Tokens.file_name t) (Tokens.line_num t))
       | None => Raise IndexError
       end
     else if message_type =? GOT then
       match Py.index tokens index with
       | Some t =>
           OK (CompilerError_init (message ++ ", got '" ++ Token_str t ++ "'")
                 (Tokens.file_name t) (Tokens.line_num t))
       | None => Raise IndexError
       end
     else if message_type =? AFTER then
       match Py.index tokens (index - 1) with
       | Some t =>
           OK (CompilerError_init (message ++ " after '" ++ Token_str t ++ "'")
                 (Tokens.file_name t) (Tokens.line_num t))
       | None => Raise IndexError
       end
     else Raise (ValueError "Unknown error message type")) ;;
  OK {| base := self; amount_parsed := amount |}.

End WithKinds.

End Errors.

(** ** Lexer ([lexer.py]) *)

Module Lexer.
Import Tokens Errors.

(** *** Strings the way the lexer uses them *)

Definition code (c : ascii) : N := N_of_ascii c.

Definition between (lo hi : N) (c : ascii) : bool :=
  ((lo <=? code c) && (code c <=? hi))%N.

(** [c.isspace()] on the code points below 256: tab to carriage
    return, the four separators 28-31, space, NEL and no-break space. *)
Definition isspace (c : ascii) : bool :=
  between 9 13 c || between 28 32 c
  || (code c =? 133)%N || (code c =? 160)%N.

(** A digit in the sense of [str.isdigit] on the code points below
    256: [0]-[9] and the superscripts two, three and one. *)
Definition isdigit_char (c : ascii) : bool :=
  between 48 57 c
  || (code c =? 178)%N || (code c =? 179)%N || (code c =? 185)%N.

Fixpoint all_chars (p : ascii -> bool) (s : string) : bool :=
  match s with
  | EmptyString => true
  | String c s' => p c && all_chars p s'
  end.

(** [s.isdigit()]: every character is a digit and there is one. *)
Definition isdigit (s : string) : bool :=
  match s with
  | EmptyString => false
  | String _ _ => all_chars isdigit_char s
  end.

(** The character classes of the identifier pattern. *)
Definition is_ident_start (c : ascii) : bool :=
  (code c =? 95)%N || between 97 122 c || between 65 90 c.

Definition is_ident_char (c : ascii) : bool :=
  is_ident_start c || between 48 57 c.

(** What may follow the first character for
    [re.match(r"[_a-zA-Z][_a-zA-Z0-9]*$", s)] to succeed: identifier
    characters up to the end, where [$] also accepts one final
    newline. *)
Fixpoint ident_tail (s : string) : bool :=
  match s with
  | EmptyString => true
  | String c EmptyString => is_ident_char c || (code c =? 10)%N
  | String c s' => is_ident_char c && ident_tail s'
  end.

Definition re_match_identifier (s : string) : bool :=
  match s with
  | EmptyString => false
  | String c s' => is_ident_start c && ident_tail s'
  end.

(** [s[n:]]. *)
Fixpoint skip (n : nat) (s : string) : string :=
  match n, s with
  | O, _ => s
  | S n', String _ s' => skip n' s'
  | S _, EmptyString => EmptyString
  end.

(** [content.startswith(p, start)] for [start >= 0]. *)
Definition startswith (content p : string) (start : nat) : bool :=
  (start <=? String.length content)%nat && String.prefix p (skip start content).

(** [line[a:b]] for [0 <= a]. *)
Definition slice (line : string) (a b : nat) : string :=
  substring a (b - a) line.

(** [sorted(l, key=key)]: stable, ascending in [key]. *)
Section Sorted.
Variable A : Type.
Variable key : A -> Z.

Fixpoint insert (x : A) (l : list A) : list A :=
  match l with
  | [] => [x]
  | y :: l' => if key y <? key x then y :: insert x l' else x :: l
  end.

Definition sorted (l : list A) : list A := fold_right insert [] l.

(** Every element is followed only by elements whose key is not
    smaller. *)
Fixpoint ascending (l : list A) : Prop :=
  match l with
  | [] => True
  | x :: l' => (forall y, In y l' -> key x <= key y) /\ ascending l'
  end.
End Sorted.

Section WithKinds.
Context {TokenKind : Type} `{TokenKinds TokenKind}.

Local Abbreviation Token := (Token TokenKind).

Record Lexer : Type := mkLexer {
  symbol_kinds : list TokenKind;
  keyword_kinds : list TokenKind
}.

(** [lambda kind: -len(kind.text_repr)]. *)
Definition neg_len (k : TokenKind) : Z :=
  - Z.of_nat (String.length (text_repr k)).

(** [Lexer.__init__]. *)
Definition Lexer_init (symbols keywords : list TokenKind) : Lexer :=
  {| symbol_kinds := sorted neg_len symbols;
     keyword_kinds := sorted neg_len keywords |}.

(** [match_symbol_kind_at]: the first kind of the stored list whose
    spelling starts at [start]. *)
Definition match_symbol_kind_at (self : Lexer) (content : string)
    (start : nat) : option TokenKind :=
  find (fun k => startswith content (text_repr k) start)
       (symbol_kinds self).

(** [match_keyword_kind]. *)
Definition match_keyword_kind (self : Lexer) (token_repr : string)
    : option TokenKind :=
  find (fun k => String.eqb (text_repr k) token_repr) (keyword_kinds self).

(** [match_number_string]. *)
Definition match_number_string (token_repr : string) : option string :=
  if isdigit token_repr then Some token_repr else None.

(** [match_identifier_name]. *)
Definition match_identifier_name (token_repr : string) : option string :=
  if re_match_identifier token_repr then Some token_repr else None.

(** [add_chunk(chunk, tokens)]; the list it appends to is returned. *)
Definition add_chunk (self : Lexer) (chunk : string) (tokens : list Token)
    : result exn (list Token) :=
  match chunk with
  | EmptyString => OK tokens
  | String _ _ =>
      match match_keyword_kind self chunk with
      | Some keyword_kind => OK (tokens ++ [Token_init keyword_kind None])%list
      | None =>
          let number_string := match_number_string chunk in
          if truthy_str number_string then
            OK (tokens ++ [Token_init number number_string])%list
          else
            let identifier_name := match_identifier_name chunk in
            if truthy_str identifier_name then
              OK (tokens ++ [Token_init identifier identifier_name])%list
            else
              Raise (CompilerErr
                (CompilerError_init
                   ("unrecognized token at '" ++ chunk ++ "'") None None))
      end
  end.

(** The [while] loop of [tokenize_line] and the flush after it. Each
    unit of [fuel] pays for one iteration. *)
Fixpoint tokenize_loop (self : Lexer) (fuel : nat) (line : string)
    (chunk_start chunk_end : nat) (tokens : list Token)
    : result exn (list Token) :=
  if (chunk_end <? String.length line)%nat then
    match fuel with
    | O => Diverge
    | S fuel' =>
        match match_symbol_kind_at self line chunk_end with
        | Some symbol_kind =>
            let symbol_token := Token_init symbol_kind None in
            tokens <- add_chunk self (slice line chunk_start chunk_end) tokens ;;
            let tokens := (tokens ++ [symbol_token])%list in
            let chunk_start :=
              (chunk_end + String.length (text_repr symbol_kind))%nat in
            tokenize_loop self fuel' line chunk_start chunk_start tokens
        | None =>
            match String.get chunk_end line with
            | None => Raise IndexError
            | Some c =>
                if isspace c then
                  tokens <- add_chunk self (slice line chunk_start chunk_end) tokens ;;
                  let chunk_start := (chunk_end + 1)%nat in
                  tokenize_loop self fuel' line chunk_start chunk_start tokens
                else
                  tokenize_loop self fuel' line chunk_start (chunk_end + 1)%nat tokens
            end
        end
    end
  else add_chunk self (slice line chunk_start chunk_end) tokens.

(** [tokenize_line]. An iteration that advances [chunk_end] can
    happen at most [len(line)] times; one that does not (an empty
    spelling matched) repeats for ever. *)
Definition tokenize_line (self : Lexer) (line : string)
    : result exn (list Token) :=
  tokenize_loop self (S (String.length line)) line 0%nat 0%nat [].

(** [e.file_name = ...; e.line_num = ...] in the handler of
    [tokenize]. *)
Definition set_context (f : string) (n : Z) (e : CompilerError)
    : CompilerError :=
  {| descrip := descrip e; Errors.file_name := Some f;
     Errors.line_num := Some n |}.

(** The [for] loop of [tokenize] over the remaining lines. The
    handler catches [CompilerError] and its subclass. *)
Fixpoint tokenize_from (self : Lexer)
    (code_lines : list (string * string * Z)) (all_tokens : list Token)
    : result exn (list Token) :=
  match code_lines with
  | [] => OK all_tokens
  | (line, f, n) :: rest =>
      match tokenize_line self line with
      | OK tokens =>
          tokenize_from self rest
            (all_tokens ++ map (set_position f n) tokens)%list
      | Raise (CompilerErr e) => Raise (CompilerErr (set_context f n e))
      | Raise (ParserErr e) =>
          Raise (ParserErr {| base := set_context f n (base e);
                              amount_parsed := amount_parsed e |})
      | Raise e => Raise e
      | Diverge => Diverge
      end
  end.

(** [tokenize]. *)
Definition tokenize (self : Lexer) (code_lines : list (string * string * Z))
    : result exn (list Token) :=
  tokenize_from self code_lines [].

End WithKinds.

End Lexer.

(** ** Statement parser ([parser/statement.py]) *)

Module Statement.
Import Tokens Errors.

Section Parser.
Context {TokenKind : Type} `{TokenKinds TokenKind}.

(** The state of [parser.utils] that the parsing functions share:
    the token list they read and the error log [log_error] writes. *)
Variable State : Type.

(** A parsing step: it may change the state, and returns, raises or
    runs for ever. What was logged before a raise stays logged. *)
Definition M (A : Type) : Type := State -> result exn A * State.

Definition ret {A} (a : A) : M A := fun st => (OK a, st).

Definition bindM {A B} (m : M A) (k : A -> M B) : M B :=
  fun st =>
    match m st with
    | (OK a, st') => k a st'
    | (Raise e, st') => (Raise e, st')
    | (Diverge, st') => (Diverge, st')
    end.

Definition diverge {A} : M A := fun st => (Diverge, st).

(** Expression nodes are built by [parser.expression], declaration
    nodes by [parser.declaration]. *)
Variables ExprNode DeclNode : Type.

(** Modelled from the spec: [tree.nodes] is not among the source
    files. A node is one of the statement forms, or a declaration,
    together with the source range [r] that range annotation sets
    (first and last token index). *)
Inductive Node : Type :=
| mkNode (shape : Shape) (r : option (Z * Z))
with Shape : Type :=
| Compound (nodes : list Node)
| Return (e : ExprNode)
| IfStatement (c : ExprNode) (s : Node) (else_s : option Node)
| WhileStatement (c : ExprNode) (s : Node)
| ExprStatement (e : ExprNode)
| Declaration (d : DeclNode).

Definition new (sh : Shape) : Node := mkNode sh None.

Definition parser : Type := Z -> M (Node * Z).

(** The helpers of [parser.utils] and the two parsers this module
    imports; none is among the source files, the properties below
    hold whatever they do. *)
Variable log_error : ParserError -> State -> State.
Variable match_token : Z -> TokenKind -> Z -> M Z.
Variable token_is : Z -> TokenKind -> State -> bool.
Variable parse_expression : Z -> M (ExprNode * Z).
Variable parse_declaration : parser.

(** The kinds of [token_kinds] this module names. *)
Variables open_brack close_brack return_kw semicolon : TokenKind.
Variables if_kw else_kw while_kw open_paren close_paren : TokenKind.

(** Modelled from the spec: the decorator [add_range] of
    [parser.utils]. It runs the wrapped function, on success sets
    the node's range to the span from the starting index to the
    index just before the returned one, and passes a failure on. *)
Definition add_range (parse_func : parser) : parser :=
  fun index st =>
    match parse_func index st with
    | (OK (mkNode sh _, end_index), st') =>
        (OK (mkNode sh (Some (index, end_index - 1)), end_index), st')
    | other => other
    end.

(** [try: return p  except ParserError as e: log_error(e)], followed
    by [next]. Only a [ParserError] is caught. *)
Definition or_else {A} (p next : M A) : M A :=
  fun st =>
    match p st with
    | (Raise (ParserErr e), st') => next (log_error e st')
    | other => other
    end.

(** An outcome the handlers of this module catch. *)
Definition caught {A} (r : result exn A) : Prop :=
  exists e, r = Raise (ParserErr e).

(** A step whose node, when it returns one, carries the span from
    [index] to the token before the returned index, as every
    decorated function called at [index] does. *)
Definition ranged_at (index : Z) (m : M (Node * Z)) : Prop :=
  forall st,
    match m st with
    | (OK (mkNode _ r, end_index), _) => r = Some (index, end_index - 1)
    | _ => True
    end.

(** [parse_return]. *)
Definition parse_return : parser :=
  add_range (fun index =>
    bindM (match_token index return_kw GOT) (fun index =>
    bindM (parse_expression index) (fun '(node, index) =>
    bindM (match_token index semicolon AFTER) (fun index =>
    ret (new (Return node), index))))).

(** [parse_expr_statement]. *)
Definition parse_expr_statement : parser :=
  add_range (fun index =>
    bindM (parse_expression index) (fun '(node, index) =>
    bindM (match_token index semicolon AFTER) (fun index =>
    ret (new (ExprStatement node), index)))).

(** The functions below call [parse_statement]; they take it as
    [parse_stmt] and the knot is tied in [parse_statement]. *)
Section Open.
Variable parse_stmt : parser.

(** The [while True] loop of [parse_compound_statement]; each unit
    of [fuel] pays for one iteration. *)
Fixpoint block_items (fuel : nat) (index : Z) (nodes : list Node)
    : M (list Node * Z) :=
  match fuel with
  | O => diverge
  | S fuel' =>
      fun st =>
        match parse_stmt index st with
        | (OK (node, index'), st1) =>
            block_items fuel' index' (nodes ++ [node])%list st1
        | (Raise (ParserErr e), st1) =>
            match parse_declaration index (log_error e st1) with
            | (OK (node, index'), st2) =>
                block_items fuel' index' (nodes ++ [node])%list st2
            | (Raise (ParserErr e'), st2) =>
                (OK (nodes, index), log_error e' st2)
            | (Raise x, st2) => (Raise x, st2)
            | (Diverge, st2) => (Diverge, st2)
            end
        | (Raise x, st1) => (Raise x, st1)
        | (Diverge, st1) => (Diverge, st1)
        end
  end.

(** [parse_compound_statement]. *)
Definition parse_compound_statement_with (fuel : nat) : parser :=
  add_range (fun index =>
    bindM (match_token index open_brack GOT) (fun index =>
    bindM (block_items fuel index []) (fun '(nodes, index) =>
    bindM (match_token index close_brack GOT) (fun index =>
    ret (new (Compound nodes), index))))).

(** [parse_if_statement]. *)
Definition parse_if_statement_with : parser :=
  add_range (fun index =>
    bindM (match_token index if_kw GOT) (fun index =>
    bindM (match_token index open_paren AFTER) (fun index =>
    bindM (parse_expression index) (fun '(conditional, index) =>
    bindM (match_token index close_paren AFTER) (fun index =>
    bindM (parse_stmt index) (fun '(statement, index) =>
    fun st =>
      let is_else := token_is index else_kw st in
      if negb is_else then
        ret (new (IfStatement conditional statement None), index) st
      else
        bindM (match_token index else_kw GOT) (fun index =>
        bindM (parse_stmt index) (fun '(else_statement, index) =>
        ret (new (IfStatement conditional statement
                    (Some else_statement)), index))) st)))))).

(** [parse_while_statement]. *)
Definition parse_while_statement_with : parser :=
  add_range (fun index =>
    bindM (match_token index while_kw GOT) (fun index =>
    bindM (match_token index open_paren AFTER) (fun index =>
    bindM (parse_expression index) (fun '(conditional, index) =>
    bindM (match_token index close_paren AFTER) (fun index =>
    bindM (parse_stmt index) (fun '(statement, index) =>
    ret (new (WhileStatement conditional statement), index))))))).

End Open.

(** [parse_statement]. [fuel] bounds the depth of the recursion
    through the statement forms and the length of each block. *)
Fixpoint parse_statement (fuel : nat) : parser :=
  match fuel with
  | O => fun _ => diverge
  | S fuel' =>
      add_range (fun index =>
        or_else (parse_compound_statement_with (parse_statement fuel') fuel' index)
       (or_else (parse_return index)
       (or_else (parse_if_statement_with (parse_statement fuel') index)
       (or_else (parse_while_statement_with (parse_statement fuel') index)
                (parse_expr_statement index)))))
  end.

Definition parse_compound_statement (fuel : nat) : parser :=
  parse_compound_statement_with (parse_statement fuel) fuel.

Definition parse_if_statement (fuel : nat) : parser :=
  parse_if_statement_with (parse_statement fuel).

Definition parse_while_statement (fuel : nat) : parser :=
  parse_while_statement_with (parse_statement fuel).

End Parser.

End Statement.

(** ** A sample of the C token kinds

    The registry of token kinds is not among the source files. The
    properties of the lexer are proved for every registry; this sample
    is the one they are run on. *)

Module Sample.
Import Tokens Errors.

Inductive CKind : Type :=
| plus | minus | star | slash | equals | twoequals | notequal
| lt | shl | shl_assign
| open_paren | close_paren | open_brack | close_brack
| semicolon | comma
| int_kw | char_kw | return_kw | if_kw | else_kw | while_kw
| identifier_kind | number_kind.

Definition spelling (k : CKind) : string :=
  match k with
  | plus => "+" | minus => "-" | star => "*" | slash => "/"
  | equals => "=" | twoequals => "==" | notequal => "!="
  | lt => "<" | shl => "<<" | shl_assign => "<<="
  | open_paren => "(" | close_paren => ")"
  | open_brack => "{" | close_brack => "}"
  | semicolon => ";" | comma => ","
  | int_kw => "int" | char_kw => "char" | return_kw => "return"
  | if_kw => "if" | else_kw => "else" | while_kw => "while"
  | identifier_kind => "" | number_kind => ""
  end.

#[export] Instance c_kinds : TokenKinds CKind :=
  {| text_repr := spelling;
     number := number_kind;
     identifier := identifier_kind |}.

Definition symbol_kinds : list CKind :=
  [plus; minus; star; slash; equals; twoequals; notequal;
   lt; shl; shl_assign; open_paren; close_paren; open_brack; close_brack;
   semicolon; comma].

Definition keyword_kinds : list CKind :=
  [int_kw; char_kw; return_kw; if_kw; else_kw; while_kw].

Definition lexer : Lexer.Lexer := Lexer.Lexer_init symbol_kinds keyword_kinds.

(** A token the lexer stamped with [main.c], line [n]. *)
Definition tok_at (k : CKind) (c : option string) (n : Z) : Token CKind :=
  set_position "main.c" n (Token_init k c).

Definition CKind_eq_dec (a b : CKind) : {a = b} + {a <> b}.
Proof. decide equality. Defined.

(** *** A small parser to run the statement dispatch on

    Modelled from the spec: [parser.utils], [parser.expression] and
    [parser.declaration] are not among the source files. The state is
    the token list and the errors logged so far, oldest first; an
    expression is one identifier or number; a declaration is [int],
    an identifier and a semicolon. *)
Definition State : Type := list (Token CKind) * list ParserError.

Definition log_error (e : ParserError) (st : State) : State :=
  (fst st, (snd st ++ [e])%list).

Definition token_is (index : Z) (k : CKind) (st : State) : bool :=
  if (0 <=? index) && (index <? Z.of_nat (length (fst st))) then
    match Py.index (fst st) index with
    | Some t => if CKind_eq_dec (kind t) k then true else false
    | None => false
    end
  else false.

Definition raise_parser_error (message : string) (index : Z) (style : Z)
    {A} : Statement.M State A :=
  fun st =>
    match ParserError_init message index (fst st) style with
    | OK e => (Raise (ParserErr e), st)
    | Raise x => (Raise x, st)
    | Diverge => (Diverge, st)
    end.

Definition match_token (index : Z) (k : CKind) (style : Z)
    : Statement.M State Z :=
  fun st =>
    if token_is index k st then (OK (index + 1), st)
    else raise_parser_error ("expected '" ++ spelling k ++ "'") index style st.

Definition parse_expression (index : Z) : Statement.M State (string * Z) :=
  fun st =>
    if token_is index identifier_kind st || token_is index number_kind st then
      match Py.index (fst st) index with
      | Some t => (OK (Token_str t, index + 1), st)
      | None => (Raise IndexError, st)
      end
    else raise_parser_error "expected expression" index GOT st.

Definition parse_declaration (index : Z)
    : Statement.M State (Statement.Node string string * Z) :=
  Statement.bindM (match_token index int_kw GOT) (fun index1 =>
  fun st =>
    if token_is index1 identifier_kind st then
      match Py.index (fst st) index1 with
      | Some t =>
          Statement.bindM (match_token (index1 + 1) semicolon AFTER)
            (fun index2 =>
               Statement.ret
                 (Statement.mkNode (Statement.Declaration string (Token_str t))
                    (Some (index, index2 - 1)), index2)) st
      | None => (Raise IndexError, st)
      end
    else raise_parser_error "expected identifier" index1 AFTER st).

Definition parse_statement (fuel : nat)
    : Statement.parser State string string :=
  Statement.parse_statement log_error match_token token_is parse_expression
    parse_declaration open_brack close_brack return_kw semicolon
    if_kw else_kw while_kw open_paren close_paren fuel.

Definition run_statement (fuel : nat) (tokens : list (Token CKind)) :=
  parse_statement fuel 0 (tokens, []).

(** *** Inputs *)

(** The tokens of [return 15] on line 3 of [main.c]. *)
Definition return_15 : list (Token CKind) :=
  [tok_at return_kw None 3; tok_at number_kind (Some "15") 3].

(** The one token of the line [;]. *)
Definition lone_semicolon : list (Token CKind) :=
  [tok_at semicolon None 1].

(** The error a failed match at the first token of line 1 gives. *)
Definition mismatch (d : string) : ParserError :=
  {| base := CompilerError_init d (Some "main.c") (Some 1);
     amount_parsed := 0 |}.

(** A stand-in for [str.format] with one argument on templates that
    hold the placeholder once at their end. *)
Definition format_at_end (d s : string) : result exn string :=
  OK (substring 0 (String.length d - 2) d ++ s).

End Sample.

(** ** What is assumed of the standard kind sets *)

Module Standard.
Import Tokens Lexer.

(** Modelled from the spec: the registry [token_kinds.py] is not among
    the source files. Symbol kinds are operators and punctuation: a
    spelling is not empty and holds no identifier character. *)
Definition symbol_like (s : string) : bool :=
  match s with
  | EmptyString => false
  | String _ _ => all_chars (fun c => negb (is_ident_char c)) s
  end.

(** Modelled from the spec: keyword kinds are reserved words, spelled
    like identifiers. *)
Definition keyword_like (s : string) : bool :=
  match s with
  | EmptyString => false
  | String c s' => is_ident_start c && all_chars is_ident_char s'
  end.

Section WithKinds.
Context {TokenKind : Type} `{TokenKinds TokenKind}.

(** Modelled from the spec: the standard symbol and keyword sets, as
    far as the lexer depends on them; no spelling is registered
    twice in a set. *)
Record standard_kinds (symbols keywords : list TokenKind) : Prop := {
  symbols_like : Forall (fun k => symbol_like (text_repr k) = true) symbols;
  keywords_like : Forall (fun k => keyword_like (text_repr k) = true) keywords;
  symbols_nodup : NoDup (map text_repr symbols);
  keywords_nodup : NoDup (map text_repr keywords)
}.
End WithKinds.

(** A decimal digit, [0] to [9]. *)
Definition is_decimal_digit (c : ascii) : bool := between 48 57 c.

End Standard.

(** ** File and line of a diagnostic *)

Module Provenance.
Import Tokens Errors.

(** An error has both a file name and a line number, or neither. *)
Definition context_ok (e : CompilerError) : Prop :=
  (exists f n, Errors.file_name e = Some f /\ Errors.line_num e = Some n)
  \/ (Errors.file_name e = None /\ Errors.line_num e = None).

(** The same of a token. *)
Definition position_ok {TokenKind : Type} (t : Token TokenKind) : Prop :=
  (exists f n, Tokens.file_name t = Some f /\ Tokens.line_num t = Some n)
  \/ (Tokens.file_name t = None /\ Tokens.line_num t = None).

(** A token carries the file and line the lexer's caller stamped. *)
Definition stamped {TokenKind : Type} (t : Token TokenKind) : Prop :=
  exists f n, Tokens.file_name t = Some f /\ Tokens.line_num t = Some n.

End Provenance.

(** ** What a line of tokens spells *)

Module Rendering.
Import Tokens Errors Lexer.

(** The line without its white space. *)
Fixpoint strip_space (s : string) : string :=
  match s with
  | EmptyString => EmptyString
  | String c s' =>
      if isspace c then strip_space s' else String c (strip_space s')
  end.

Section WithKinds.
Context {TokenKind : Type} `{TokenKinds TokenKind}.

(** [str(token)] of every token, one after the other. *)
Definition render (tokens : list (Token TokenKind)) : string :=
  fold_right (fun t acc => Token_str t ++ acc) "" tokens.

(** What a token of [tokenize_line] looks like: no file and no line
    yet, and either a registered symbol or keyword kind without
    content, or a number whose content is made of digits, or an
    identifier whose content matches the identifier pattern and is no
    keyword. *)
Definition lexed (self : Lexer) (t : Token TokenKind) : Prop :=
  Tokens.file_name t = None /\ Tokens.line_num t = None
  /\ ((content t = None
       /\ (In (kind t) (symbol_kinds self) \/ In (kind t) (keyword_kinds self)))
      \/ (kind t = number
          /\ exists s, content t = Some s /\ isdigit s = true
                       /\ match_keyword_kind self s = None)
      \/ (kind t = identifier
          /\ exists s, content t = Some s /\ re_match_identifier s = true
                       /\ match_keyword_kind self s = None)).

End WithKinds.

End Rendering.

(** * Properties *)

Unset Implicit Arguments.

Import Tokens Errors.

Example str_of_int_5 : str_of_int 5 = "5".
Proof. reflexivity. Qed.

Example str_of_int_0 : str_of_int 0 = "0".
Proof. reflexivity. Qed.

Example str_of_int_neg : str_of_int (-12) = "-12".
Proof. reflexivity. Qed.

Example index_last_elt : Py.index [10; 20; 30] (-1) = Some 30.
Proof. reflexivity. Qed.

Example index_of_empty : Py.index (@nil Z) (-1) = None.
Proof. reflexivity. Qed.

(** ** List indexing *)

Lemma index_in_range {A} (l : list A) (i : Z) :
  0 <= i < Z.of_nat (length l) ->
  Py.index l i = nth_error l (Z.to_nat i).
Proof.
  intros Hi. unfold Py.index.
  destruct (0 <=? i) eqn:E1; [| apply Z.leb_gt in E1; lia ].
  destruct (i <? Z.of_nat (length l)) eqn:E2; [| apply Z.ltb_ge in E2; lia ].
  reflexivity.
Qed.

Lemma index_head {A} (t : A) (rest : list A) : Py.index (t :: rest) 0 = Some t.
Proof.
  rewrite index_in_range; [ reflexivity | cbn [length]; lia ].
Qed.

Lemma index_final {A} (front : list A) (t : A) :
  Py.index (front ++ [t]) (Z.of_nat (length (front ++ [t])) - 1) = Some t.
Proof.
  rewrite index_in_range.
  - rewrite length_app; cbn [length].
    replace (Z.to_nat (Z.of_nat (length front + 1) - 1)) with (length front) by lia.
    rewrite nth_error_app2 by lia.
    rewrite Nat.sub_diag. reflexivity.
  - rewrite length_app; cbn [length]. lia.
Qed.

Lemma index_of_nil {A} (i : Z) : Py.index (@nil A) i = None.
Proof.
  unfold Py.index; cbn [length Z.of_nat Z.opp].
  destruct (Z.leb_spec 0 i), (Z.ltb_spec i 0); cbn [andb];
    try reflexivity; try lia;
    destruct (Z.to_nat _); reflexivity.
Qed.

Lemma index_some_in {A} (l : list A) (i : Z) (t : A) :
  Py.index l i = Some t -> In t l.
Proof.
  unfold Py.index.
  destruct ((0 <=? i) && (i <? Z.of_nat (length l))).
  - apply nth_error_In.
  - destruct ((- Z.of_nat (length l) <=? i) && (i <? 0)).
    + apply nth_error_In.
    + discriminate.
Qed.

(** ** The boundary block *)

Lemma clamp_past_end (index len message_type : Z) :
  len <= index -> clamp index len message_type = (len, AFTER).
Proof.
  intros Hle. unfold clamp.
  destruct (index >=? len) eqn:E; [ reflexivity | ].
  rewrite Z.geb_leb in E. apply Z.leb_gt in E. lia.
Qed.

Lemma clamp_before_start (index len message_type : Z) :
  index <= 0 -> 0 < len ->
  clamp index len message_type =
    (0, if message_type =? AFTER then GOT else message_type).
Proof.
  intros Hle Hlen. unfold clamp.
  destruct (index >=? len) eqn:E.
  - rewrite Z.geb_leb in E. apply Z.leb_le in E. lia.
  - destruct (index <=? 0) eqn:E'; [ reflexivity | ].
    apply Z.leb_gt in E'. lia.
Qed.

Lemma clamp_inside (index len message_type : Z) :
  0 < index < len -> clamp index len message_type = (index, message_type).
Proof.
  intros Hi. unfold clamp.
  destruct (index >=? len) eqn:E.
  - rewrite Z.geb_leb in E. apply Z.leb_le in E. lia.
  - destruct (index <=? 0) eqn:E'; [ | reflexivity ].
    apply Z.leb_le in E'. lia.
Qed.

Lemma clamp_idempotent (index len message_type : Z) :
  0 < len ->
  clamp (fst (clamp index len message_type)) len message_type =
  clamp index len message_type.
Proof.
  intros Hlen.
  destruct (Z_le_gt_dec len index) as [Hbig | Hsmall].
  - rewrite (clamp_past_end index len message_type Hbig). cbn [fst].
    apply clamp_past_end. lia.
  - destruct (Z_le_gt_dec index 0) as [Hneg | Hpos].
    + rewrite (clamp_before_start index len message_type Hneg Hlen).
      cbn [fst]. rewrite clamp_before_start by lia. reflexivity.
    + rewrite (clamp_inside index len message_type) by lia.
      cbn [fst]. apply clamp_inside. lia.
Qed.

Lemma index_defined {A} (l : list A) (i : Z) :
  0 <= i < Z.of_nat (length l) -> exists t, Py.index l i = Some t.
Proof.
  intros Hi. rewrite index_in_range by exact Hi.
  destruct (nth_error l (Z.to_nat i)) as [t |] eqn:E.
  - exists t. reflexivity.
  - apply nth_error_None in E. lia.
Qed.

Lemma nonempty_length {A} (l : list A) : l <> [] -> 0 < Z.of_nat (length l).
Proof.
  destruct l as [| a l]; [ congruence | cbn [length]; lia ].
Qed.

(** ** Rendering a [CompilerError] *)

(** C3, as amended. The rendered string has one of three forms, chosen
    by Python truth tests: [<file>:<line>: error: <descrip>] when the
    file name is present and not empty and the line number is present
    and not zero; [<file>: error: <descrip>] when the file name is
    present and not empty and the line number is absent or zero;
    [shivyc: error: <descrip>] when the file name is absent or empty.
    Description [bad], file [main.c], line 5 renders as
    [main.c:5: error: bad]; description [bad] alone renders as
    [shivyc: error: bad]. *)
Theorem compiler_error_str_forms (e : CompilerError) :
  (forall f l,
      file_name e = Some f -> f <> "" -> line_num e = Some l -> l <> 0 ->
      CompilerError_str e = f ++ ":" ++ str_of_int l ++ ": error: " ++ descrip e)
  /\ (forall f,
      file_name e = Some f -> f <> "" ->
      line_num e = None \/ line_num e = Some 0 ->
      CompilerError_str e = f ++ ": error: " ++ descrip e)
  /\ (file_name e = None \/ file_name e = Some "" ->
      CompilerError_str e = "shivyc: error: " ++ descrip e)
  /\ CompilerError_str (CompilerError_init "bad" (Some "main.c") (Some 5))
     = "main.c:5: error: bad"
  /\ CompilerError_str (CompilerError_init "bad" None None)
     = "shivyc: error: bad".
Proof.
  destruct e as [d fo lo]; cbn [file_name line_num descrip].
  repeat split.
  - intros f l -> Hf -> Hl. unfold CompilerError_str; cbn.
    destruct f as [| c f]; [ congruence | ].
    destruct (Z.eqb_spec l 0); [ congruence | reflexivity ].
  - intros f -> Hf Hl. unfold CompilerError_str; cbn.
    destruct f as [| c f]; [ congruence | ].
    destruct Hl as [-> | ->]; reflexivity.
  - intros [-> | ->]; reflexivity.
Qed.

Lemma compiler_error_str_forms_witness :
  CompilerError_str (CompilerError_init "bad" (Some "main.c") (Some 7))
  = "main.c" ++ ":" ++ str_of_int 7 ++ ": error: " ++ "bad"
  /\ CompilerError_str (CompilerError_init "bad" (Some "main.c") None)
     = "main.c" ++ ": error: " ++ "bad"
  /\ CompilerError_str (CompilerError_init "bad" (Some "") (Some 7))
     = "shivyc: error: " ++ "bad".
Proof.
  split; [| split ].
  - apply (proj1 (compiler_error_str_forms
                    (CompilerError_init "bad" (Some "main.c") (Some 7)))
             "main.c" 7);
      [ reflexivity | discriminate | reflexivity | discriminate ].
  - apply (proj1 (proj2 (compiler_error_str_forms
                    (CompilerError_init "bad" (Some "main.c") None)))
             "main.c");
      [ reflexivity | discriminate | left; reflexivity ].
  - apply (proj1 (proj2 (proj2 (compiler_error_str_forms
                    (CompilerError_init "bad" (Some "") (Some 7)))))).
    right; reflexivity.
Defined.

(** C3, as stated, fails: an error with file name [main.c] and line
    number 0 has both fields present and renders as [main.c: error: bad],
    without the line. *)
Lemma compiler_error_str_line_zero :
  ~ (forall e f l,
        file_name e = Some f -> line_num e = Some l ->
        CompilerError_str e
        = f ++ ":" ++ str_of_int l ++ ": error: " ++ descrip e).
Proof.
  intros Hall.
  specialize (Hall (CompilerError_init "bad" (Some "main.c") (Some 0))
                "main.c" 0 eq_refl eq_refl).
  vm_compute in Hall. discriminate Hall.
Qed.

Example line_zero_renders_without_line :
  CompilerError_str (CompilerError_init "bad" (Some "main.c") (Some 0))
  = "main.c: error: bad".
Proof. reflexivity. Qed.

(** ** Constructing a [ParserError] *)

Section ParserErrorFacts.
Context {TokenKind : Type} `{TokenKinds TokenKind}.

Implicit Types (tokens : list (Token TokenKind)) (t : Token TokenKind).

(** The error built for token [t] in each style. *)
Lemma init_at_inside message index tokens message_type t :
  snd (clamp index (Z.of_nat (length tokens)) message_type) = AT ->
  Py.index tokens (fst (clamp index (Z.of_nat (length tokens)) message_type))
    = Some t ->
  ParserError_init message index tokens message_type
  = OK {| base := CompilerError_init (message ++ " at '" ++ Token_str t ++ "'")
                    (Tokens.file_name t) (Tokens.line_num t);
          amount_parsed := index |}.
Proof.
  intros Hmt Hix. unfold ParserError_init.
  destruct (clamp index (Z.of_nat (length tokens)) message_type) as [i mt].
  cbn [fst snd] in *. subst mt. cbn [Z.eqb AT Pos.eqb].
  rewrite Hix. reflexivity.
Qed.

Lemma init_got_inside message index tokens message_type t :
  snd (clamp index (Z.of_nat (length tokens)) message_type) = GOT ->
  Py.index tokens (fst (clamp index (Z.of_nat (length tokens)) message_type))
    = Some t ->
  ParserError_init message index tokens message_type
  = OK {| base := CompilerError_init (message ++ ", got '" ++ Token_str t ++ "'")
                    (Tokens.file_name t) (Tokens.line_num t);
          amount_parsed := index |}.
Proof.
  intros Hmt Hix. unfold ParserError_init.
  destruct (clamp index (Z.of_nat (length tokens)) message_type) as [i mt].
  cbn [fst snd] in *. subst mt. cbn [Z.eqb AT GOT Pos.eqb].
  rewrite Hix. reflexivity.
Qed.

Lemma init_after_inside message index tokens message_type t :
  snd (clamp index (Z.of_nat (length tokens)) message_type) = AFTER ->
  Py.index tokens
    (fst (clamp index (Z.of_nat (length tokens)) message_type) - 1) = Some t ->
  ParserError_init message index tokens message_type
  = OK {| base := CompilerError_init (message ++ " after '" ++ Token_str t ++ "'")
                    (Tokens.file_name t) (Tokens.line_num t);
          amount_parsed := index |}.
Proof.
  intros Hmt Hix. unfold ParserError_init.
  destruct (clamp index (Z.of_nat (length tokens)) message_type) as [i mt].
  cbn [fst snd] in *. subst mt. cbn [Z.eqb AT GOT AFTER Pos.eqb].
  rewrite Hix. reflexivity.
Qed.

(** Two constructions that leave the boundary block with the same
    index and style read the same token. *)
Lemma init_same_base message index index' tokens message_type message_type' e e' :
  clamp index (Z.of_nat (length tokens)) message_type
  = clamp index' (Z.of_nat (length tokens)) message_type' ->
  ParserError_init message index tokens message_type = OK e ->
  ParserError_init message index' tokens message_type' = OK e' ->
  base e = base e' /\ amount_parsed e = index /\ amount_parsed e' = index'.
Proof.
  unfold ParserError_init. intros <-.
  destruct (clamp index (Z.of_nat (length tokens)) message_type) as [i mt].
  match goal with
  | |- Py.bind ?m _ = _ -> _ => destruct m as [b | x |]
  end; cbn [Py.bind]; try discriminate.
  intros [= <-] [= <-]. cbn. auto.
Qed.

(** C1: the code does not do what the claim says. With an empty token
    list the constructor sets the description
    [<message> at beginning of source] and goes on to the code below
    it, which indexes the empty list: for every message, every index
    and each of the three styles the construction raises IndexError
    and no error object results. *)
Theorem parser_error_empty_tokens_raises (message : string) (index : Z) :
  ParserError_init message index (@nil (Token TokenKind)) AT = Raise IndexError
  /\ ParserError_init message index (@nil (Token TokenKind)) GOT = Raise IndexError
  /\ ParserError_init message index (@nil (Token TokenKind)) AFTER = Raise IndexError.
Proof.
  unfold ParserError_init; cbn [length Z.of_nat].
  destruct (Z_le_gt_dec 0 index) as [Hnonneg | Hneg].
  - rewrite !(clamp_past_end index 0 _ Hnonneg).
    cbn [Z.eqb AT GOT AFTER Pos.eqb]. rewrite index_of_nil.
    repeat split; reflexivity.
  - unfold clamp.
    destruct (index >=? 0) eqn:E1;
      [ rewrite Z.geb_leb in E1; apply Z.leb_le in E1; lia | ].
    destruct (index <=? 0) eqn:E2; [ | apply Z.leb_gt in E2; lia ].
    cbn [Z.eqb AT GOT AFTER Pos.eqb]. rewrite !index_of_nil.
    repeat split; reflexivity.
Qed.

(** C2. For a token list that is not empty: an index at or past the
    end leaves the boundary block as the length with style AFTER, and
    the error is [<message> after '<last token>'] with the last
    token's file and line, whatever style was asked for; an index at
    or below zero leaves it as 0, with style GOT if AFTER was asked
    for, and the error is anchored on the first token. *)
Theorem parser_error_boundaries (message : string) (index : Z)
    (tokens : list (Token TokenKind)) (message_type : Z) :
  tokens <> [] ->
  (Z.of_nat (length tokens) <= index ->
     clamp index (Z.of_nat (length tokens)) message_type
     = (Z.of_nat (length tokens), AFTER)
     /\ exists front t,
          tokens = (front ++ [t])%list
          /\ ParserError_init message index tokens message_type
             = OK {| base := CompilerError_init
                               (message ++ " after '" ++ Token_str t ++ "'")
                               (Tokens.file_name t) (Tokens.line_num t);
                     amount_parsed := index |})
  /\ (index <= 0 ->
      fst (clamp index (Z.of_nat (length tokens)) message_type) = 0
      /\ exists t rest,
           tokens = t :: rest
           /\ (message_type = AFTER ->
               snd (clamp index (Z.of_nat (length tokens)) message_type) = GOT
               /\ ParserError_init message index tokens message_type
                  = OK {| base := CompilerError_init
                                    (message ++ ", got '" ++ Token_str t ++ "'")
                                    (Tokens.file_name t) (Tokens.line_num t);
                          amount_parsed := index |})
           /\ (message_type = GOT ->
               ParserError_init message index tokens message_type
               = OK {| base := CompilerError_init
                                 (message ++ ", got '" ++ Token_str t ++ "'")
                                 (Tokens.file_name t) (Tokens.line_num t);
                       amount_parsed := index |})
           /\ (message_type = AT ->
               ParserError_init message index tokens message_type
               = OK {| base := CompilerError_init
                                 (message ++ " at '" ++ Token_str t ++ "'")
                                 (Tokens.file_name t) (Tokens.line_num t);
                       amount_parsed := index |})).
Proof.
  intros Hne. pose proof (nonempty_length tokens Hne) as Hlen. split.
  - intros Hbig.
    pose proof (clamp_past_end index _ message_type Hbig) as Hc.
    split; [ exact Hc | ].
    destruct (exists_last Hne) as [front [t Heq]].
    exists front, t. split; [ exact Heq | ].
    apply init_after_inside; rewrite Hc; cbn [fst snd]; [ reflexivity | ].
    rewrite Heq. apply index_final.
  - intros Hsmall.
    pose proof (clamp_before_start index _ message_type Hsmall Hlen) as Hc.
    split; [ rewrite Hc; reflexivity | ].
    destruct tokens as [| t rest]; [ congruence | ].
    exists t, rest. split; [ reflexivity | ].
    split; [| split ]; intros ->.
    + split; [ rewrite Hc; reflexivity | ].
      apply init_got_inside; rewrite Hc; cbn [fst snd];
        [ reflexivity | apply index_head ].
    + apply init_got_inside; rewrite Hc; cbn [fst snd];
        [ reflexivity | apply index_head ].
    + apply init_at_inside; rewrite Hc; cbn [fst snd];
        [ reflexivity | apply index_head ].
Qed.

(** With a token list that is not empty and one of the three styles,
    the construction returns an error. *)
Lemma parser_error_init_total message index tokens message_type :
  tokens <> [] ->
  message_type = AT \/ message_type = GOT \/ message_type = AFTER ->
  exists e, ParserError_init message index tokens message_type = OK e.
Proof.
  intros Hne Hmt. pose proof (nonempty_length tokens Hne) as Hlen.
  destruct (Z_le_gt_dec (Z.of_nat (length tokens)) index) as [Hbig | Hin].
  - destruct (index_defined tokens (Z.of_nat (length tokens) - 1)) as [t Ht];
      [ lia | ].
    eexists. apply (init_after_inside message index tokens message_type t);
      rewrite (clamp_past_end index _ message_type Hbig); cbn [fst snd];
      [ reflexivity | exact Ht ].
  - destruct (Z_le_gt_dec index 0) as [Hsmall | Hpos].
    + pose proof (clamp_before_start index _ message_type Hsmall Hlen) as Hc.
      destruct (index_defined tokens 0) as [t Ht]; [ lia | ].
      destruct Hmt as [-> | [-> | ->]]; eexists.
      * apply (init_at_inside message index tokens AT t); rewrite Hc;
          cbn [fst snd]; [ reflexivity | exact Ht ].
      * apply (init_got_inside message index tokens GOT t); rewrite Hc;
          cbn [fst snd]; [ reflexivity | exact Ht ].
      * apply (init_got_inside message index tokens AFTER t); rewrite Hc;
          cbn [fst snd]; [ reflexivity | exact Ht ].
    + pose proof (clamp_inside index (Z.of_nat (length tokens)) message_type
                    (conj (Z.gt_lt _ _ Hpos) (Z.gt_lt _ _ Hin))) as Hc.
      destruct (index_defined tokens index) as [t Ht]; [ lia | ].
      destruct (index_defined tokens (index - 1)) as [t' Ht']; [ lia | ].
      destruct Hmt as [-> | [-> | ->]]; eexists.
      * apply (init_at_inside message index tokens AT t); rewrite Hc;
          cbn [fst snd]; [ reflexivity | exact Ht ].
      * apply (init_got_inside message index tokens GOT t); rewrite Hc;
          cbn [fst snd]; [ reflexivity | exact Ht ].
      * apply (init_after_inside message index tokens AFTER t'); rewrite Hc;
          cbn [fst snd]; [ reflexivity | exact Ht' ].
Qed.

(** C10. A [ParserError] built from a token list that is not empty
    keeps in [amount_parsed] the index as the caller passed it, while
    its description, file and line are those of the error built at the
    index the boundary block leaves (between 0 and the length). With
    one of the three styles the construction does return an error,
    for every index, negative or past the end. *)
Theorem amount_parsed_is_raw_index (message : string) (index : Z)
    (tokens : list (Token TokenKind)) (message_type : Z) :
  tokens <> [] ->
  (forall e,
      ParserError_init message index tokens message_type = OK e ->
      amount_parsed e = index
      /\ exists e',
           ParserError_init message
             (fst (clamp index (Z.of_nat (length tokens)) message_type))
             tokens message_type = OK e'
           /\ base e' = base e
           /\ amount_parsed e'
              = fst (clamp index (Z.of_nat (length tokens)) message_type)
           /\ 0 <= amount_parsed e' <= Z.of_nat (length tokens))
  /\ (message_type = AT \/ message_type = GOT \/ message_type = AFTER ->
      exists e, ParserError_init message index tokens message_type = OK e
                /\ amount_parsed e = index).
Proof.
  intros Hne. pose proof (nonempty_length tokens Hne) as Hlen.
  assert (Hraw : forall e,
             ParserError_init message index tokens message_type = OK e ->
             amount_parsed e = index).
  { intros e He.
    exact (proj1 (proj2 (init_same_base message index index tokens
                           message_type message_type e e eq_refl He He))). }
  split.
  - intros e He. split; [ exact (Hraw e He) | ].
    set (i' := fst (clamp index (Z.of_nat (length tokens)) message_type)).
    assert (Hclamp : clamp index (Z.of_nat (length tokens)) message_type
                     = clamp i' (Z.of_nat (length tokens)) message_type).
    { symmetry. apply clamp_idempotent. exact Hlen. }
    assert (Hrange : 0 <= i' <= Z.of_nat (length tokens)).
    { subst i'. unfold clamp.
      destruct (index >=? Z.of_nat (length tokens)) eqn:E1; cbn [fst];
        [ lia | ].
      destruct (index <=? 0) eqn:E2; cbn [fst]; [ lia | ].
      rewrite Z.geb_leb in E1. apply Z.leb_gt in E1. apply Z.leb_gt in E2.
      lia. }
    assert (Hsame : exists e',
               ParserError_init message i' tokens message_type = OK e').
    { revert He. unfold ParserError_init. rewrite <- Hclamp.
      destruct (clamp index (Z.of_nat (length tokens)) message_type) as [i mt].
      match goal with
      | |- Py.bind ?m _ = _ -> _ => destruct m as [b | x |]
      end; cbn [Py.bind]; try discriminate.
      intros _. eexists. reflexivity. }
    destruct Hsame as [e' He']. exists e'.
    destruct (init_same_base message index i' tokens message_type
                message_type e e' Hclamp He He') as (Hb & _ & Ha).
    repeat split; try congruence; rewrite Ha; apply Hrange.
  - intros Hmt.
    destruct (parser_error_init_total message index tokens message_type
                Hne Hmt) as [e He].
    exists e. split; [ exact He | exact (Hraw e He) ].
Qed.

End ParserErrorFacts.

(** ** Strings *)

Import Lexer Standard.

Lemma prefix_length (p s : string) :
  String.prefix p s = true -> (String.length p <= String.length s)%nat.
Proof.
  revert s. induction p as [| c p IH]; intros s Hp; cbn [String.length].
  - lia.
  - destruct s as [| c' s]; cbn in Hp; [ discriminate | ].
    destruct (ascii_dec c c'); [ | discriminate ].
    cbn [String.length]. apply IH in Hp. lia.
Qed.

Lemma prefix_same_length (p s : string) :
  String.prefix p s = true -> String.length p = String.length s -> p = s.
Proof.
  revert s. induction p as [| c p IH]; intros s Hp Hlen.
  - destruct s; [ reflexivity | discriminate ].
  - destruct s as [| c' s]; cbn in Hp; [ discriminate | ].
    destruct (ascii_dec c c') as [-> |]; [ | discriminate ].
    cbn [String.length] in Hlen. f_equal. apply IH; [ exact Hp | lia ].
Qed.

Lemma prefix_refl (s : string) : String.prefix s s = true.
Proof.
  induction s as [| c s IH]; cbn; [ reflexivity | ].
  destruct (ascii_dec c c); [ exact IH | congruence ].
Qed.

Lemma prefix_first_char (c c' : ascii) (p s : string) :
  String.prefix (String c p) (String c' s) = true -> c = c'.
Proof.
  cbn. destruct (ascii_dec c c'); [ auto | discriminate ].
Qed.

Lemma substring_none (s : string) (n : nat) : substring n 0 s = "".
Proof.
  revert n. induction s as [| c s IH]; intros [| n]; cbn; auto.
Qed.

Lemma substring_whole (s : string) : substring 0 (String.length s) s = s.
Proof.
  induction s as [| c s IH]; cbn; [ reflexivity | ]. now rewrite IH.
Qed.

Lemma slice_empty (line : string) (a : nat) : slice line a a = "".
Proof.
  unfold slice. rewrite Nat.sub_diag. apply substring_none.
Qed.

Lemma slice_whole (line : string) : slice line 0 (String.length line) = line.
Proof.
  unfold slice. rewrite Nat.sub_0_r. apply substring_whole.
Qed.

Lemma skip_get (line : string) (i : nat) (c : ascii) :
  String.get i line = Some c -> exists rest, skip i line = String c rest.
Proof.
  revert i. induction line as [| c' line IH]; intros i Hget.
  - destruct i; discriminate.
  - destruct i as [| i]; cbn in *.
    + injection Hget as ->. eauto.
    + apply IH. exact Hget.
Qed.

Lemma get_defined (line : string) (i : nat) :
  (i < String.length line)%nat -> exists c, String.get i line = Some c.
Proof.
  revert i. induction line as [| c' line IH]; intros i Hi; cbn in *.
  - lia.
  - destruct i as [| i]; [ eauto | ]. apply IH. lia.
Qed.

Lemma all_chars_get (p : ascii -> bool) (line : string) (i : nat) (c : ascii) :
  all_chars p line = true -> String.get i line = Some c -> p c = true.
Proof.
  revert i. induction line as [| c' line IH]; intros i Hall Hget.
  - destruct i; discriminate.
  - cbn in Hall. apply andb_true_iff in Hall as [Hc Hall].
    destruct i as [| i]; cbn in Hget.
    + injection Hget as <-. exact Hc.
    + exact (IH i Hall Hget).
Qed.

(** An identifier character is not white space, and the decimal digits
    are digits for [isdigit]. *)
Lemma ident_char_not_space (c : ascii) :
  is_ident_char c = true -> isspace c = false.
Proof.
  destruct c as [[] [] [] [] [] [] [] []]; vm_compute; congruence.
Qed.

Lemma ident_start_is_ident_char (c : ascii) :
  is_ident_start c = true -> is_ident_char c = true.
Proof.
  unfold is_ident_char. intros ->. reflexivity.
Qed.

Lemma ident_start_not_digit (c : ascii) :
  is_ident_start c = true -> isdigit_char c = false.
Proof.
  destruct c as [[] [] [] [] [] [] [] []]; vm_compute; congruence.
Qed.

(** ** Stable sorting *)

Section SortedFacts.
Variable A : Type.
Variable key : A -> Z.

Lemma insert_in (x y : A) (l : list A) :
  In y (insert key x l) <-> y = x \/ In y l.
Proof.
  induction l as [| z l IH]; cbn.
  - intuition.
  - destruct (key z <? key x); cbn; rewrite ?IH; intuition.
Qed.

Lemma sorted_cons (x : A) (l : list A) :
  sorted key (x :: l) = insert key x (sorted key l).
Proof. reflexivity. Qed.

Lemma sorted_in (y : A) (l : list A) : In y (sorted key l) <-> In y l.
Proof.
  induction l as [| x l IH]; [ cbn; tauto | ].
  rewrite sorted_cons, insert_in, IH. cbn. intuition.
Qed.

Lemma insert_ascending (x : A) (l : list A) :
  ascending key l -> ascending key (insert key x l).
Proof.
  induction l as [| z l IH]; cbn; [ intuition | ].
  intros [Hz Hl].
  destruct (Z.ltb_spec (key z) (key x)); cbn.
  - split; [ | auto ]. intros y Hy. apply insert_in in Hy as [-> | Hy];
      [ lia | auto ].
  - split; [ | auto ]. intros y [<- | Hy]; [ lia | ].
    specialize (Hz y Hy). lia.
Qed.

Lemma sorted_ascending (l : list A) : ascending key (sorted key l).
Proof.
  induction l as [| x l IH]; [ exact I | ].
  rewrite sorted_cons. apply insert_ascending. exact IH.
Qed.

(** The first element of an ascending list that satisfies [p] has the
    least key among those that do. *)
Lemma find_ascending_least (p : A -> bool) (l : list A) (x : A) :
  ascending key l -> find p l = Some x ->
  In x l /\ p x = true /\ forall y, In y l -> p y = true -> key x <= key y.
Proof.
  induction l as [| z l IH]; cbn; [ discriminate | ].
  intros [Hz Hl]. destruct (p z) eqn:Epz.
  - intros [= <-]. repeat split; auto.
    intros y [<- | Hy] _; [ lia | auto ].
  - intros Hfind. destruct (IH Hl Hfind) as (Hin & Hp & Hleast).
    repeat split; auto.
    intros y [<- | Hy] Hpy; [ congruence | auto ].
Qed.

(** Stability, as [find] sees it: when the elements that satisfy [p]
    all have one key, sorting does not change which comes first. *)
Lemma find_insert (p : A -> bool) (x : A) (l : list A) :
  (forall a b, p a = true -> p b = true -> key a = key b) ->
  find p (insert key x l) = if p x then Some x else find p l.
Proof.
  intros Hkey. induction l as [| z l IH]; cbn.
  - destruct (p x); reflexivity.
  - destruct (Z.ltb_spec (key z) (key x)); cbn.
    + rewrite IH. destruct (p z) eqn:Epz, (p x) eqn:Epx; try reflexivity.
      specialize (Hkey z x Epz Epx). lia.
    + reflexivity.
Qed.

Lemma find_sorted_stable (p : A -> bool) (l : list A) :
  (forall a b, p a = true -> p b = true -> key a = key b) ->
  find p (sorted key l) = find p l.
Proof.
  intros Hkey. induction l as [| x l IH]; [ reflexivity | ].
  rewrite sorted_cons, (find_insert p x (sorted key l) Hkey), IH.
  reflexivity.
Qed.
End SortedFacts.

Lemma find_none_iff {A} (p : A -> bool) (l : list A) :
  find p l = None <-> forall x, In x l -> p x = false.
Proof.
  induction l as [| z l IH]; cbn.
  - split; [ intros _ x [] | reflexivity ].
  - destruct (p z) eqn:Epz.
    + split; [ discriminate | ]. intros Hall.
      specialize (Hall z (or_introl eq_refl)). congruence.
    + rewrite IH. split.
      * intros Hall x [<- | Hx]; auto.
      * intros Hall x Hx. auto.
Qed.

Lemma find_some_in {A} (p : A -> bool) (l : list A) (x : A) :
  find p l = Some x -> In x l /\ p x = true.
Proof.
  induction l as [| z l IH]; cbn; [ discriminate | ].
  destruct (p z) eqn:Epz.
  - intros [= <-]. auto.
  - intros Hf. destruct (IH Hf). auto.
Qed.

Lemma nodup_map_injective {A B} (f : A -> B) (l : list A) (x y : A) :
  NoDup (map f l) -> In x l -> In y l -> f x = f y -> x = y.
Proof.
  induction l as [| z l IH]; cbn; [ intros _ [] | ].
  intros Hnd. inversion Hnd as [| ? ? Hnotin Hnd']; subst.
  intros [<- | Hx] [<- | Hy] Heq; auto.
  - exfalso. apply Hnotin. rewrite Heq. apply in_map. exact Hy.
  - exfalso. apply Hnotin. rewrite <- Heq. apply in_map. exact Hx.
Qed.

(** ** The lexer *)

Section LexerFacts.
Context {TokenKind : Type} `{TokenKinds TokenKind}.
Variables symbols keywords : list TokenKind.

Local Abbreviation lexer := (Lexer_init symbols keywords).

Lemma tokenize_loop_unfold (self : Lexer) fuel line chunk_start chunk_end tokens :
  tokenize_loop self fuel line chunk_start chunk_end tokens =
  if (chunk_end <? String.length line)%nat then
    match fuel with
    | O => Diverge
    | S fuel' =>
        match match_symbol_kind_at self line chunk_end with
        | Some symbol_kind =>
            tokens <- add_chunk self (slice line chunk_start chunk_end) tokens ;;
            tokenize_loop self fuel' line
              (chunk_end + String.length (text_repr symbol_kind))%nat
              (chunk_end + String.length (text_repr symbol_kind))%nat
              (tokens ++ [Token_init symbol_kind None])%list
        | None =>
            match String.get chunk_end line with
            | None => Raise IndexError
            | Some c =>
                if isspace c then
                  tokens <- add_chunk self (slice line chunk_start chunk_end) tokens ;;
                  tokenize_loop self fuel' line (chunk_end + 1)%nat
                    (chunk_end + 1)%nat tokens
                else
                  tokenize_loop self fuel' line chunk_start
                    (chunk_end + 1)%nat tokens
            end
        end
    end
  else add_chunk self (slice line chunk_start chunk_end) tokens.
Proof.
  destruct fuel; reflexivity.
Qed.

(** The kind [match_symbol_kind_at] returns is registered, its
    spelling starts at the position, and no registered kind whose
    spelling starts there is spelled longer. *)
Lemma match_symbol_longest (content : string) (start : nat) (k' : TokenKind) :
  match_symbol_kind_at lexer content start = Some k' ->
  In k' symbols
  /\ startswith content (text_repr k') start = true
  /\ forall k, In k symbols ->
       startswith content (text_repr k) start = true ->
       (String.length (text_repr k) <= String.length (text_repr k'))%nat.
Proof.
  unfold match_symbol_kind_at; cbn [symbol_kinds Lexer_init].
  intros Hfind.
  destruct (find_ascending_least _ neg_len _ (sorted neg_len symbols) k'
              (sorted_ascending _ neg_len symbols) Hfind)
    as (Hin & Hp & Hleast).
  split; [ apply (sorted_in _ neg_len), Hin | ].
  split; [ exact Hp | ].
  intros k Hk Hpk.
  specialize (Hleast k (proj2 (sorted_in _ neg_len k symbols) Hk) Hpk).
  unfold neg_len in Hleast. lia.
Qed.

Lemma match_symbol_found (content : string) (start : nat) (k : TokenKind) :
  In k symbols -> startswith content (text_repr k) start = true ->
  exists k', match_symbol_kind_at lexer content start = Some k'.
Proof.
  intros Hk Hp.
  destruct (match_symbol_kind_at lexer content start) as [k' |] eqn:E;
    [ eauto | ].
  unfold match_symbol_kind_at in E; cbn [symbol_kinds Lexer_init] in E.
  rewrite find_none_iff in E.
  specialize (E k (proj2 (sorted_in _ neg_len k symbols) Hk)). congruence.
Qed.

Lemma match_symbol_none (content : string) (start : nat) :
  (forall k, In k symbols -> startswith content (text_repr k) start = false) ->
  match_symbol_kind_at lexer content start = None.
Proof.
  intros Hall. unfold match_symbol_kind_at; cbn [symbol_kinds Lexer_init].
  apply find_none_iff. intros k Hk. apply Hall.
  apply (sorted_in _ neg_len). exact Hk.
Qed.

(** Among kinds spelled alike the sort keeps the registration order:
    looking a spelling up in the stored list finds the kind that was
    registered first. *)
Lemma find_spelling_stable (s : string) (l : list TokenKind) :
  find (fun k => String.eqb (text_repr k) s) (sorted neg_len l)
  = find (fun k => String.eqb (text_repr k) s) l.
Proof.
  apply find_sorted_stable. intros a b Ha Hb.
  apply String.eqb_eq in Ha, Hb. unfold neg_len. congruence.
Qed.

Lemma match_keyword_registered (s : string) :
  match_keyword_kind lexer s
  = find (fun k => String.eqb (text_repr k) s) keywords.
Proof.
  unfold match_keyword_kind; cbn [keyword_kinds Lexer_init].
  apply find_spelling_stable.
Qed.

(** When the spelling [s] itself starts at the position, the match is
    the first registered kind spelled [s] if nothing longer matches. *)
Lemma match_symbol_exact (content : string) (start : nat) (s : string)
    (k : TokenKind) :
  In k symbols -> text_repr k = s ->
  startswith content s start = true ->
  (forall k', In k' symbols ->
     startswith content (text_repr k') start = true ->
     (String.length (text_repr k') <= String.length s)%nat) ->
  (forall k', In k' symbols ->
     startswith content (text_repr k') start = true ->
     String.length (text_repr k') = String.length s -> text_repr k' = s) ->
  exists k0,
    find (fun k => String.eqb (text_repr k) s) symbols = Some k0
    /\ text_repr k0 = s
    /\ match_symbol_kind_at lexer content start = Some k0.
Proof.
  intros Hk Hs Hstart Hlongest Hsame.
  assert (Hpk : startswith content (text_repr k) start = true)
    by (rewrite Hs; exact Hstart).
  destruct (match_symbol_found content start k Hk Hpk) as [k' Hk'].
  destruct (match_symbol_longest content start k' Hk') as (Hin' & Hp' & Hmax).
  assert (Hs' : text_repr k' = s).
  { apply Hsame; auto. specialize (Hmax k Hk Hpk).
    specialize (Hlongest k' Hin' Hp'). rewrite Hs in Hmax. lia. }
  exists k'. split; [ | split; [ exact Hs' | exact Hk' ] ].
  (* [k'] is first in the stored list among the kinds that match, hence
     among the kinds spelled [s]. *)
  rewrite <- find_spelling_stable.
  unfold match_symbol_kind_at in Hk'; cbn [symbol_kinds Lexer_init] in Hk'.
  revert Hk'. generalize (sorted neg_len symbols) as l.
  induction l as [| z l IH]; cbn; [ discriminate | ].
  destruct (startswith content (text_repr z) start) eqn:Ez.
  - intros [= ->]. rewrite (proj2 (String.eqb_eq _ _) Hs'). reflexivity.
  - destruct (String.eqb_spec (text_repr z) s) as [Hzs |]; [ | exact IH ].
    rewrite Hzs in Ez. congruence.
Qed.

End LexerFacts.

Section LexerLines.
Context {TokenKind : Type} `{TokenKinds TokenKind}.
Variables symbols keywords : list TokenKind.

Local Abbreviation lexer := (Lexer_init symbols keywords).

Lemma add_chunk_empty (self : Lexer) (tokens : list (Token TokenKind)) :
  add_chunk self "" tokens = OK tokens.
Proof. reflexivity. Qed.

Lemma startswith_whole (s : string) : startswith s s 0 = true.
Proof.
  unfold startswith. cbn [Nat.leb andb skip]. apply prefix_refl.
Qed.

Lemma startswith_at_zero (content p : string) :
  startswith content p 0 = String.prefix p content.
Proof. reflexivity. Qed.

(** A line that is exactly the spelling of a registered symbol kind
    gives one token, of the first registered kind spelled so. *)
Lemma tokenize_symbol_line (k : TokenKind) :
  In k symbols -> text_repr k <> "" ->
  exists k0,
    find (fun k' => String.eqb (text_repr k') (text_repr k)) symbols = Some k0
    /\ text_repr k0 = text_repr k
    /\ tokenize_line lexer (text_repr k) = OK [Token_init k0 None].
Proof.
  intros Hk Hne.
  destruct (match_symbol_exact symbols keywords (text_repr k) 0
              (text_repr k) k Hk eq_refl (startswith_whole _))
    as (k0 & Hfind & Hk0 & Hmatch).
  - intros k' _ Hp. rewrite startswith_at_zero in Hp.
    apply prefix_length. exact Hp.
  - intros k' _ Hp Hlen. rewrite startswith_at_zero in Hp.
    apply prefix_same_length; assumption.
  - exists k0. split; [ exact Hfind | split; [ exact Hk0 | ] ].
    unfold tokenize_line. rewrite tokenize_loop_unfold.
    destruct (text_repr k) as [| c s] eqn:Es; [ congruence | ].
    cbn [String.length Nat.ltb Nat.leb].
    rewrite Hmatch, slice_empty, add_chunk_empty. cbn [Py.bind app].
    rewrite tokenize_loop_unfold, Hk0. cbn [Nat.add String.length].
    rewrite Nat.ltb_irrefl, slice_empty. reflexivity.
Qed.

(** C4. Whatever kinds are registered: the kind matched at a position
    is a registered kind whose spelling starts there, and none that
    starts there is spelled longer; a match is found whenever some
    registered spelling starts there; and when a kind spelled [<<=] is
    registered (next to [<], [<<] or any others), the line [<<=]
    gives exactly one token, of the kind spelled [<<=] (the one
    registered first, should several be spelled so). *)
Theorem longest_symbol_match :
  (forall content start k',
      match_symbol_kind_at lexer content start = Some k' ->
      In k' symbols
      /\ startswith content (text_repr k') start = true
      /\ forall k, In k symbols ->
           startswith content (text_repr k) start = true ->
           (String.length (text_repr k) <= String.length (text_repr k'))%nat)
  /\ (forall content start k,
      In k symbols -> startswith content (text_repr k) start = true ->
      exists k', match_symbol_kind_at lexer content start = Some k')
  /\ (forall k, In k symbols -> text_repr k = "<<=" ->
      exists k0,
        find (fun k' => String.eqb (text_repr k') "<<=") symbols = Some k0
        /\ text_repr k0 = "<<="
        /\ tokenize_line lexer "<<=" = OK [Token_init k0 None]).
Proof.
  split; [ | split ].
  - apply match_symbol_longest.
  - apply match_symbol_found.
  - intros k Hk Hs.
    destruct (tokenize_symbol_line k Hk) as (k0 & Hfind & Hk0 & Htok).
    + rewrite Hs. discriminate.
    + rewrite Hs in *. eauto.
Qed.

End LexerLines.

(** ** The fuel of [tokenize_line] is enough *)

Section LexerTotal.
Context {TokenKind : Type} `{TokenKinds TokenKind}.

Lemma add_chunk_returns_or_raises (self : Lexer) chunk
    (tokens : list (Token TokenKind)) :
  add_chunk self chunk tokens <> Diverge.
Proof.
  unfold add_chunk. destruct chunk as [| c s]; [ discriminate | ].
  destruct (match_keyword_kind self (String c s)); [ discriminate | ].
  destruct (truthy_str (match_number_string (String c s))); [ discriminate | ].
  destruct (truthy_str (match_identifier_name (String c s))); discriminate.
Qed.

(** When no stored symbol spelling is empty every iteration moves
    [chunk_end] forward, and the loop ends within the fuel. *)
Lemma tokenize_loop_ends (self : Lexer) (line : string) :
  (forall k, In k (symbol_kinds self) -> text_repr k <> "") ->
  forall fuel chunk_start chunk_end (tokens : list (Token TokenKind)),
    (String.length line - chunk_end < fuel)%nat ->
    tokenize_loop self fuel line chunk_start chunk_end tokens <> Diverge.
Proof.
  intros Hspell fuel. induction fuel as [| fuel IH];
    intros chunk_start chunk_end tokens Hfuel; [ lia | ].
  rewrite tokenize_loop_unfold.
  destruct (Nat.ltb_spec chunk_end (String.length line)) as [Hlt | Hge];
    [ | apply add_chunk_returns_or_raises ].
  destruct (match_symbol_kind_at self line chunk_end) as [k |] eqn:Ematch.
  - apply find_some_in in Ematch as [Hin _].
    pose proof (Hspell k Hin) as Hk.
    destruct (add_chunk self (slice line chunk_start chunk_end) tokens)
      as [tokens' | x |] eqn:Eadd; cbn [Py.bind]; [ | discriminate | ].
    + apply IH. destruct (text_repr k); [ congruence | cbn [String.length]; lia ].
    + exfalso. exact (add_chunk_returns_or_raises _ _ _ Eadd).
  - destruct (String.get chunk_end line) as [c |]; [ | discriminate ].
    destruct (isspace c).
    + destruct (add_chunk self (slice line chunk_start chunk_end) tokens)
        as [tokens' | x |] eqn:Eadd; cbn [Py.bind]; [ | discriminate | ].
      * apply IH. lia.
      * exfalso. exact (add_chunk_returns_or_raises _ _ _ Eadd).
    + apply IH. lia.
Qed.

Lemma tokenize_line_ends (symbols keywords : list TokenKind) (line : string) :
  (forall k, In k symbols -> text_repr k <> "") ->
  tokenize_line (Lexer_init symbols keywords) line <> Diverge.
Proof.
  intros Hspell. unfold tokenize_line. apply tokenize_loop_ends; [ | lia ].
  cbn [symbol_kinds Lexer_init]. intros k Hk. apply Hspell.
  apply (sorted_in _ neg_len). exact Hk.
Qed.

End LexerTotal.

(** ** Lines over the standard kind sets *)

Section StandardLines.
Context {TokenKind : Type} `{TokenKinds TokenKind}.
Variables symbols keywords : list TokenKind.
Hypothesis Hstd : standard_kinds symbols keywords.

Local Abbreviation lexer := (Lexer_init symbols keywords).

Lemma symbol_starts_off_identifier (k : TokenKind) :
  In k symbols ->
  exists c s, text_repr k = String c s /\ is_ident_char c = false.
Proof.
  intros Hk.
  pose proof (proj1 (Forall_forall _ _) (symbols_like Hstd) k Hk) as Hlike.
  cbn beta in Hlike. destruct (text_repr k) as [| c s]; [ discriminate | ].
  exists c, s. split; [ reflexivity | ].
  cbn in Hlike. apply andb_true_iff in Hlike as [Hc _].
  now apply negb_true_iff in Hc.
Qed.

(** No symbol spelling starts on an identifier character. *)
Lemma no_symbol_at_ident (line : string) (i : nat) (c : ascii) :
  String.get i line = Some c -> is_ident_char c = true ->
  match_symbol_kind_at lexer line i = None.
Proof.
  intros Hget Hc. apply match_symbol_none. intros k Hk.
  destruct (symbol_starts_off_identifier k Hk) as (c0 & s0 & -> & Hc0).
  destruct (skip_get line i c Hget) as [rest Hskip].
  unfold startswith. rewrite Hskip.
  destruct (String.prefix (String c0 s0) (String c rest)) eqn:Ep;
    [ | apply andb_false_r ].
  apply prefix_first_char in Ep. congruence.
Qed.

(** A line of identifier characters is scanned to its end as one
    chunk. *)
Lemma scan_word (line : string) :
  all_chars is_ident_char line = true ->
  forall fuel chunk_start chunk_end tokens,
    (chunk_end <= String.length line)%nat ->
    (String.length line - chunk_end < fuel)%nat ->
    tokenize_loop lexer fuel line chunk_start chunk_end tokens
    = add_chunk lexer (slice line chunk_start (String.length line)) tokens.
Proof.
  intros Hall fuel. induction fuel as [| fuel IH];
    intros chunk_start chunk_end tokens Hle Hfuel; [ lia | ].
  rewrite tokenize_loop_unfold.
  destruct (Nat.ltb_spec chunk_end (String.length line)) as [Hlt | Hge].
  - destruct (get_defined line chunk_end Hlt) as [c Hget].
    pose proof (all_chars_get _ line chunk_end c Hall Hget) as Hc.
    rewrite (no_symbol_at_ident line chunk_end c Hget Hc), Hget.
    rewrite (ident_char_not_space c Hc).
    apply IH; lia.
  - replace chunk_end with (String.length line) by lia. reflexivity.
Qed.

Lemma keyword_is_word (k : TokenKind) :
  In k keywords ->
  keyword_like (text_repr k) = true
  /\ all_chars is_ident_char (text_repr k) = true.
Proof.
  intros Hk.
  pose proof (proj1 (Forall_forall _ _) (keywords_like Hstd) k Hk) as Hlike.
  cbn beta in Hlike. split; [ exact Hlike | ].
  destruct (text_repr k) as [| c s]; [ reflexivity | ].
  cbn in Hlike |- *. apply andb_true_iff in Hlike as [Hc Hs].
  rewrite (ident_start_is_ident_char c Hc), Hs. reflexivity.
Qed.

Lemma find_registered (l : list TokenKind) (k : TokenKind) :
  NoDup (map text_repr l) -> In k l ->
  find (fun k' => String.eqb (text_repr k') (text_repr k)) l = Some k.
Proof.
  intros Hnd Hk.
  destruct (find (fun k' => String.eqb (text_repr k') (text_repr k)) l)
    as [k0 |] eqn:E.
  - apply find_some_in in E as [Hin Heq]. apply String.eqb_eq in Heq.
    f_equal. exact (nodup_map_injective text_repr l k0 k Hnd Hin Hk Heq).
  - rewrite find_none_iff in E. specialize (E k Hk).
    rewrite String.eqb_refl in E. discriminate.
Qed.

Lemma not_a_keyword (s : string) :
  ~ In s (map text_repr keywords) -> match_keyword_kind lexer s = None.
Proof.
  intros Hnot. rewrite match_keyword_registered.
  apply find_none_iff. intros k Hk.
  destruct (String.eqb_spec (text_repr k) s) as [Heq |]; [ | reflexivity ].
  exfalso. apply Hnot. rewrite <- Heq. apply in_map. exact Hk.
Qed.

Lemma not_keyword_like (s : string) :
  keyword_like s = false -> match_keyword_kind lexer s = None.
Proof.
  intros Hs. apply not_a_keyword. intros Hin.
  apply in_map_iff in Hin as (k & Heq & Hk).
  destruct (keyword_is_word k Hk) as [Hlike _]. congruence.
Qed.

(** C8. Over kind sets that are standard (symbols spelled with
    punctuation, keywords spelled like identifiers, no spelling
    registered twice in a set), the line that is exactly the spelling
    of a registered symbol or keyword kind gives exactly one token, of
    that kind and without content. *)
Theorem fixed_spelling_round_trip (k : TokenKind) :
  In k symbols \/ In k keywords ->
  tokenize_line lexer (text_repr k) = OK [Token_init k None]
  /\ map Token_str [Token_init k None] = [text_repr k].
Proof.
  intros Hk. split; [ | reflexivity ].
  destruct Hk as [Hsym | Hkw].
  - destruct (symbol_starts_off_identifier k Hsym) as (c & s & Hck & _).
    destruct (tokenize_symbol_line symbols keywords k Hsym)
      as (k0 & Hfind & _ & Htok).
    + rewrite Hck. discriminate.
    + rewrite (find_registered symbols k (symbols_nodup Hstd) Hsym) in Hfind.
      injection Hfind as <-. exact Htok.
  - destruct (keyword_is_word k Hkw) as [Hlike Hword].
    unfold tokenize_line.
    rewrite (scan_word _ Hword) by lia.
    rewrite slice_whole.
    destruct (text_repr k) as [| c s] eqn:Es; [ discriminate | ].
    cbn [add_chunk]. rewrite match_keyword_registered, <- Es.
    rewrite (find_registered keywords k (keywords_nodup Hstd) Hkw).
    reflexivity.
Qed.

End StandardLines.

Section StandardExamples.
Context {TokenKind : Type} `{TokenKinds TokenKind}.
Variables symbols keywords : list TokenKind.
Hypothesis Hstd : standard_kinds symbols keywords.

Local Abbreviation lexer := (Lexer_init symbols keywords).

(** The only symbol spelling that starts at the [+] of [a+b] is [+]:
    anything longer would hold the identifier character [b]. *)
Lemma only_plus_at_plus (k : TokenKind) :
  In k symbols -> startswith "a+b" (text_repr k) 1 = true ->
  text_repr k = "+".
Proof.
  intros Hk Hp.
  pose proof (proj1 (Forall_forall _ _) (symbols_like Hstd) k Hk) as Hlike.
  cbn beta in Hlike. unfold startswith in Hp. cbn [skip Nat.leb String.length andb] in Hp.
  destruct (text_repr k) as [| c1 [| c2 s]]; [ discriminate | | ].
  - apply prefix_first_char in Hp. congruence.
  - exfalso. cbn [String.prefix] in Hp.
    destruct (ascii_dec c1 "+"); [ | discriminate ].
    destruct (ascii_dec c2 "b") as [-> |]; [ | discriminate ].
    cbn in Hlike. apply andb_true_iff in Hlike as [_ Hlike].
    discriminate Hlike.
Qed.

(** C5. Over standard kind sets in which [+] is a symbol and neither
    [a] nor [b] is a keyword, the line [a+b] gives exactly three
    tokens: the identifier [a], the symbol [+], the identifier [b]. *)
Theorem tokenize_a_plus_b (plus_kind : TokenKind) :
  In plus_kind symbols -> text_repr plus_kind = "+" ->
  ~ In "a" (map text_repr keywords) ->
  ~ In "b" (map text_repr keywords) ->
  tokenize_line lexer "a+b"
  = OK [Token_init identifier (Some "a");
        Token_init plus_kind None;
        Token_init identifier (Some "b")].
Proof.
  intros Hplus Hspell Ha Hb.
  assert (Hmatch : match_symbol_kind_at lexer "a+b" 1 = Some plus_kind).
  { destruct (match_symbol_exact symbols keywords "a+b" 1 "+" plus_kind
                Hplus Hspell eq_refl) as (k0 & Hfind & Hk0 & Hm).
    - intros k' Hk' Hp. rewrite (only_plus_at_plus k' Hk' Hp). cbn. lia.
    - intros k' Hk' Hp _. exact (only_plus_at_plus k' Hk' Hp).
    - rewrite Hm. f_equal.
      apply find_some_in in Hfind as [Hin _].
      apply (nodup_map_injective text_repr symbols k0 plus_kind
               (symbols_nodup Hstd) Hin Hplus).
      congruence. }
  unfold tokenize_line. cbn [String.length].
  (* position 0: [a] joins the chunk *)
  rewrite tokenize_loop_unfold.
  rewrite (no_symbol_at_ident symbols keywords Hstd "a+b" 0 "a" eq_refl eq_refl).
  cbn [String.length Nat.ltb Nat.leb String.get Nat.add].
  change (isspace "a") with false. cbn iota.
  (* position 1: [+] matches, the chunk [a] is flushed *)
  rewrite tokenize_loop_unfold, Hmatch.
  cbn [String.length Nat.ltb Nat.leb Nat.add].
  change (slice "a+b" 0 1) with "a".
  cbn [add_chunk]. rewrite (not_a_keyword symbols keywords "a" Ha).
  change (truthy_str (match_number_string "a")) with false.
  change (truthy_str (match_identifier_name "a")) with true.
  change (match_identifier_name "a") with (Some "a").
  cbn iota. cbn [Py.bind app]. rewrite Hspell. cbn [String.length Nat.add].
  (* position 2: [b] joins the chunk *)
  rewrite tokenize_loop_unfold.
  rewrite (no_symbol_at_ident symbols keywords Hstd "a+b" 2 "b" eq_refl eq_refl).
  cbn [String.length Nat.ltb Nat.leb Nat.add].
  change (String.get 2 "a+b") with (Some "b"%char).
  change (isspace "b") with false. cbn iota.
  (* the end of the line: the chunk [b] is flushed *)
  rewrite tokenize_loop_unfold.
  cbn [String.length Nat.ltb Nat.leb Nat.add].
  change (slice "a+b" 2 3) with "b".
  cbn [add_chunk]. rewrite (not_a_keyword symbols keywords "b" Hb).
  reflexivity.
Qed.

End StandardExamples.

(** ** Unrecognized chunks *)

Section Unrecognized.
Context {TokenKind : Type} `{TokenKinds TokenKind}.

Lemma handler_attaches_context (self : Lexer) (line f : string) (n : Z)
    (e : CompilerError) rest (all_tokens : list (Token TokenKind)) :
  tokenize_line self line = Raise (CompilerErr e) ->
  tokenize_from self ((line, f, n) :: rest) all_tokens
  = Raise (CompilerErr
             (CompilerError_init (descrip e) (Some f) (Some n))).
Proof.
  intros Hline. cbn [tokenize_from]. rewrite Hline. reflexivity.
Qed.

(** C6, as amended. A chunk that is no registered keyword, is not made
    of digits only in the sense of [str.isdigit] (which counts the
    superscripts one, two and three next to [0]-[9]) and does not
    match the identifier pattern makes [add_chunk] raise a
    [CompilerError] whose description is
    [unrecognized token at '<chunk>'], with no file and no line. Over
    standard kind sets the line [123abc] is such a chunk, and
    [tokenize] re-raises the error with the file and line of the
    line. *)
Theorem unrecognized_chunk_raises :
  (forall (self : Lexer) chunk (tokens : list (Token TokenKind)),
      match_keyword_kind self chunk = None ->
      all_chars isdigit_char chunk = false ->
      re_match_identifier chunk = false ->
      add_chunk self chunk tokens
      = Raise (CompilerErr
                 (CompilerError_init
                    ("unrecognized token at '" ++ chunk ++ "'") None None)))
  /\ (forall symbols keywords,
      standard_kinds symbols keywords ->
      tokenize_line (Lexer_init symbols keywords) "123abc"
      = Raise (CompilerErr
                 (CompilerError_init
                    "unrecognized token at '123abc'" None None))
      /\ forall f n rest,
           tokenize (Lexer_init symbols keywords) (("123abc", f, n) :: rest)
           = Raise (CompilerErr
                      (CompilerError_init
                         "unrecognized token at '123abc'" (Some f) (Some n)))).
Proof.
  assert (Hchunk : forall (self : Lexer) chunk (tokens : list (Token TokenKind)),
             match_keyword_kind self chunk = None ->
             all_chars isdigit_char chunk = false ->
             re_match_identifier chunk = false ->
             add_chunk self chunk tokens
             = Raise (CompilerErr
                        (CompilerError_init
                           ("unrecognized token at '" ++ chunk ++ "'")
                           None None))).
  { intros self chunk tokens Hkw Hdigit Hident.
    destruct chunk as [| c s]; [ discriminate Hdigit | ].
    cbn [add_chunk]. rewrite Hkw.
    unfold match_number_string, match_identifier_name, isdigit.
    rewrite Hdigit, Hident. reflexivity. }
  split; [ exact Hchunk | ].
  intros symbols keywords Hstd.
  assert (Hline : tokenize_line (Lexer_init symbols keywords) "123abc"
                  = Raise (CompilerErr
                             (CompilerError_init
                                "unrecognized token at '123abc'" None None))).
  { unfold tokenize_line.
    rewrite (scan_word symbols keywords Hstd "123abc" eq_refl)
      by (cbn [String.length]; lia).
    rewrite slice_whole.
    apply (Hchunk _ "123abc");
      [ apply (not_keyword_like symbols keywords Hstd) | | ]; reflexivity. }
  split; [ exact Hline | ].
  intros f n rest. unfold tokenize.
  rewrite (handler_attaches_context _ "123abc" f n _ rest [] Hline).
  reflexivity.
Qed.

End Unrecognized.

#[local] Existing Instance Sample.c_kinds.

(** C6, as stated, fails: the chunk made of the one character
    superscript two (code point 178) is no keyword of the sample sets,
    is not made of decimal digits and is not shaped like an identifier,
    and [add_chunk] turns it into a number token instead of raising. *)
Lemma superscript_two_is_a_number :
  ~ (forall (self : @Lexer Sample.CKind) chunk tokens,
        chunk <> "" ->
        match_keyword_kind self chunk = None ->
        all_chars is_decimal_digit chunk = false ->
        re_match_identifier chunk = false ->
        add_chunk self chunk tokens
        = Raise (CompilerErr
                   (CompilerError_init
                      ("unrecognized token at '" ++ chunk ++ "'") None None))).
Proof.
  intros Hall.
  specialize (Hall Sample.lexer (String (ascii_of_N 178) "") []).
  vm_compute in Hall.
  specialize (Hall ltac:(discriminate) eq_refl eq_refl eq_refl).
  discriminate Hall.
Qed.

Example superscript_two_line :
  tokenize_line Sample.lexer (String (ascii_of_N 178) "")
  = OK [Token_init Sample.number_kind (Some (String (ascii_of_N 178) ""))].
Proof. reflexivity. Qed.

(** ** File and line travel together *)

Import Provenance.

Section ContextFacts.
Context {TokenKind : Type} `{TokenKinds TokenKind}.

Implicit Types (tokens : list (Token TokenKind)) (t : Token TokenKind).

Lemma add_chunk_raises (self : Lexer) chunk tokens x :
  add_chunk self chunk tokens = Raise x ->
  exists d, x = CompilerErr (CompilerError_init d None None).
Proof.
  unfold add_chunk. destruct chunk as [| c s]; [ discriminate | ].
  destruct (match_keyword_kind self (String c s)); [ discriminate | ].
  destruct (truthy_str (match_number_string (String c s))); [ discriminate | ].
  destruct (truthy_str (match_identifier_name (String c s))); [ discriminate | ].
  intros [= <-]. eauto.
Qed.

(** Whatever [tokenize_line] raises is a [CompilerError] without file
    and line. *)
Lemma tokenize_loop_raises (self : Lexer) line fuel :
  forall chunk_start chunk_end tokens x,
    tokenize_loop self fuel line chunk_start chunk_end tokens = Raise x ->
    exists d, x = CompilerErr (CompilerError_init d None None).
Proof.
  induction fuel as [| fuel IH]; intros chunk_start chunk_end tokens x;
    rewrite tokenize_loop_unfold;
    destruct (Nat.ltb_spec chunk_end (String.length line)) as [Hlt | Hge];
    try discriminate; try apply add_chunk_raises.
  destruct (match_symbol_kind_at self line chunk_end) as [k |].
  - destruct (add_chunk self (slice line chunk_start chunk_end) tokens)
      as [tokens' | y |] eqn:Eadd; cbn [Py.bind]; try discriminate.
    + apply IH.
    + intros [= <-]. exact (add_chunk_raises _ _ _ _ Eadd).
  - destruct (get_defined line chunk_end Hlt) as [c ->].
    destruct (isspace c); [ | apply IH ].
    destruct (add_chunk self (slice line chunk_start chunk_end) tokens)
      as [tokens' | y |] eqn:Eadd; cbn [Py.bind]; try discriminate.
    + apply IH.
    + intros [= <-]. exact (add_chunk_raises _ _ _ _ Eadd).
Qed.

(** Whatever [tokenize] raises is a [CompilerError] with the file and
    the line of the line that failed. *)
Lemma tokenize_from_raises (self : Lexer) code_lines :
  forall all_tokens x,
    tokenize_from self code_lines all_tokens = Raise x ->
    exists d f n, x = CompilerErr (CompilerError_init d (Some f) (Some n)).
Proof.
  induction code_lines as [| [[line f] n] rest IH]; intros all_tokens x;
    cbn [tokenize_from]; [ discriminate | ].
  destruct (tokenize_line self line) as [tokens | y |] eqn:Eline;
    [ apply IH | | discriminate ].
  destruct (tokenize_loop_raises _ _ _ _ _ _ _ Eline) as [d ->].
  intros [= <-]. exists d, f, n. reflexivity.
Qed.

(** Every token [tokenize] returns is stamped. *)
Lemma tokenize_from_stamped (self : Lexer) code_lines :
  forall all_tokens tokens,
    Forall stamped all_tokens ->
    tokenize_from self code_lines all_tokens = OK tokens ->
    Forall stamped tokens.
Proof.
  induction code_lines as [| [[line f] n] rest IH]; intros all_tokens tokens Hacc;
    cbn [tokenize_from].
  - intros [= <-]. exact Hacc.
  - destruct (tokenize_line self line) as [line_tokens | y |];
      [ | destruct y; discriminate | discriminate ].
    apply IH. apply Forall_app. split; [ exact Hacc | ].
    apply Forall_forall. intros t Ht.
    apply in_map_iff in Ht as (t0 & <- & _).
    exists f, n. split; reflexivity.
Qed.

Lemma token_error_context format1 d t e :
  token_error format1 d t = OK e ->
  Errors.file_name e = Tokens.file_name t
  /\ Errors.line_num e = Tokens.line_num t.
Proof.
  unfold token_error. destruct (format1 d (Token_str t)); cbn [Py.bind];
    try discriminate.
  intros [= <-]. split; reflexivity.
Qed.

(** A [ParserError] has the file and line of one of the tokens. *)
Lemma parser_error_context message index tokens message_type e :
  ParserError_init message index tokens message_type = OK e ->
  exists t, In t tokens
            /\ Errors.file_name (base e) = Tokens.file_name t
            /\ Errors.line_num (base e) = Tokens.line_num t.
Proof.
  unfold ParserError_init.
  destruct (clamp index (Z.of_nat (length tokens)) message_type) as [i mt].
  destruct (mt =? AT).
  { destruct (Py.index tokens i) as [t |] eqn:Ei; cbn [Py.bind];
      [ | discriminate ].
    intros [= <-]. exists t. split; [ exact (index_some_in _ _ _ Ei) | ].
    split; reflexivity. }
  destruct (mt =? GOT).
  { destruct (Py.index tokens i) as [t |] eqn:Ei; cbn [Py.bind];
      [ | discriminate ].
    intros [= <-]. exists t. split; [ exact (index_some_in _ _ _ Ei) | ].
    split; reflexivity. }
  destruct (mt =? AFTER); [ | discriminate ].
  destruct (Py.index tokens (i - 1)) as [t |] eqn:Ei; cbn [Py.bind];
    [ | discriminate ].
  intros [= <-]. exists t. split; [ exact (index_some_in _ _ _ Ei) | ].
  split; reflexivity.
Qed.

Lemma context_of_position (e : CompilerError) t :
  position_ok t ->
  Errors.file_name e = Tokens.file_name t ->
  Errors.line_num e = Tokens.line_num t ->
  context_ok e.
Proof.
  unfold position_ok, context_ok. intros Hpos -> ->. exact Hpos.
Qed.

Lemma stamped_position_ok t : stamped t -> position_ok t.
Proof. intros Hs. left. exact Hs. Qed.

(** C9. An error raised by [tokenize_line] has neither file nor line;
    once [tokenize] has attached the context it has both. The tokens
    [tokenize] returns all carry both, so an error that [token_error]
    builds from one of them, and a [ParserError] constructed over
    them, has both as well: no error on these paths has a file name
    without a line number. *)
Theorem context_both_or_neither (self : Lexer)
    (code_lines : list (string * string * Z)) :
  (forall line x,
      tokenize_line self line = Raise x ->
      exists e, x = CompilerErr e
                /\ Errors.file_name e = None /\ Errors.line_num e = None)
  /\ (forall x,
      tokenize self code_lines = Raise x ->
      exists e f n, x = CompilerErr e
                    /\ Errors.file_name e = Some f
                    /\ Errors.line_num e = Some n)
  /\ (forall tokens,
      tokenize self code_lines = OK tokens ->
      Forall stamped tokens
      /\ (forall format1 d t e,
             In t tokens -> token_error format1 d t = OK e ->
             context_ok e /\ Errors.file_name e <> None)
      /\ (forall message index message_type e,
             ParserError_init message index tokens message_type = OK e ->
             context_ok (base e) /\ Errors.file_name (base e) <> None)).
Proof.
  split; [ | split ].
  - intros line x Hx.
    destruct (tokenize_loop_raises _ _ _ _ _ _ _ Hx) as [d ->].
    eexists. split; [ reflexivity | split; reflexivity ].
  - intros x Hx.
    destruct (tokenize_from_raises _ _ _ _ Hx) as (d & f & n & ->).
    eexists _, f, n. split; [ reflexivity | split; reflexivity ].
  - intros tokens Htok.
    pose proof (tokenize_from_stamped self code_lines [] tokens
                  (Forall_nil _) Htok) as Hst.
    split; [ exact Hst | ].
    rewrite Forall_forall in Hst. split.
    + intros format1 d t e Ht He.
      destruct (token_error_context _ _ _ _ He) as [Hf Hl].
      split.
      * exact (context_of_position e t (stamped_position_ok t (Hst t Ht)) Hf Hl).
      * destruct (Hst t Ht) as (f & n & Hft & _). congruence.
    + intros message index message_type e He.
      destruct (parser_error_context _ _ _ _ _ He) as (t & Ht & Hf & Hl).
      split.
      * exact (context_of_position (base e) t
                 (stamped_position_ok t (Hst t Ht)) Hf Hl).
      * destruct (Hst t Ht) as (f & n & Hft & _). congruence.
Qed.

End ContextFacts.

(** ** Statement dispatch *)

Section Dispatch.
Import Statement.
Context {TokenKind : Type}.
Variables State ExprNode DeclNode : Type.
Variable log_error : ParserError -> State -> State.
Variable match_token : Z -> TokenKind -> Z -> M State Z.
Variable token_is : Z -> TokenKind -> State -> bool.
Variable parse_expression : Z -> M State (ExprNode * Z).
Variable parse_declaration : parser State ExprNode DeclNode.
Variables open_brack close_brack return_kw semicolon : TokenKind.
Variables if_kw else_kw while_kw open_paren close_paren : TokenKind.

Local Abbreviation statement :=
  (parse_statement log_error match_token token_is parse_expression
     parse_declaration open_brack close_brack return_kw semicolon
     if_kw else_kw while_kw open_paren close_paren).
Local Abbreviation compound :=
  (parse_compound_statement log_error match_token token_is parse_expression
     parse_declaration open_brack close_brack return_kw semicolon
     if_kw else_kw while_kw open_paren close_paren).
Local Abbreviation if_statement :=
  (parse_if_statement log_error match_token token_is parse_expression
     parse_declaration open_brack close_brack return_kw semicolon
     if_kw else_kw while_kw open_paren close_paren).
Local Abbreviation while_statement :=
  (parse_while_statement log_error match_token token_is parse_expression
     parse_declaration open_brack close_brack return_kw semicolon
     if_kw else_kw while_kw open_paren close_paren).
Local Abbreviation return_statement :=
  (parse_return DeclNode match_token parse_expression return_kw semicolon).
Local Abbreviation expr_statement :=
  (parse_expr_statement DeclNode match_token parse_expression semicolon).

Lemma add_range_ranged (f : parser State ExprNode DeclNode) (index : Z) :
  ranged_at index (add_range f index).
Proof.
  intros st. unfold add_range.
  destruct (f index st) as [[[[sh r] end_index] | x |] st']; auto.
Qed.

Lemma or_else_ranged (index : Z) (p q : M State (Node ExprNode DeclNode * Z)) :
  ranged_at index p -> ranged_at index q ->
  ranged_at index (or_else log_error p q).
Proof.
  intros Hp Hq st. unfold or_else. specialize (Hp st).
  destruct (p st) as [[[[sh r] end_index] | x |] st']; auto.
  destruct x; auto. apply Hq.
Qed.

(** Decorating again a step that is already ranged at the same index
    changes nothing. *)
Lemma add_range_absorbed (f : parser State ExprNode DeclNode) (index : Z)
    (st : State) :
  ranged_at index (f index) -> add_range f index st = f index st.
Proof.
  intros Hf. specialize (Hf st). unfold add_range.
  destruct (f index st) as [[[[sh r] end_index] | x |] st']; auto.
  rewrite Hf. reflexivity.
Qed.

(** [parse_statement] is the chain of its five alternatives. *)
Lemma parse_statement_chain (fuel : nat) (index : Z) (st : State) :
  statement (S fuel) index st
  = or_else log_error (compound fuel index)
      (or_else log_error (return_statement index)
         (or_else log_error (if_statement fuel index)
            (or_else log_error (while_statement fuel index)
               (expr_statement index)))) st.
Proof.
  cbn [parse_statement].
  apply (add_range_absorbed
           (fun index =>
              or_else log_error (compound fuel index)
                (or_else log_error (return_statement index)
                   (or_else log_error (if_statement fuel index)
                      (or_else log_error (while_statement fuel index)
                         (expr_statement index)))))).
  repeat apply or_else_ranged; apply add_range_ranged.
Qed.

Lemma or_else_passes {A} (p q : M State A) (st : State) :
  ~ caught (fst (p st)) -> or_else log_error p q st = p st.
Proof.
  intros Hnot. unfold or_else.
  destruct (p st) as [[a | x |] st']; auto.
  destruct x; auto. exfalso. apply Hnot. cbn. red. eauto.
Qed.

Lemma or_else_catches {A} (p q : M State A) (st st' : State) (e : ParserError) :
  p st = (Raise (ParserErr e), st') ->
  or_else log_error p q st = q (log_error e st').
Proof.
  intros Hp. unfold or_else. rewrite Hp. reflexivity.
Qed.

(** C7. From every index and state [parse_statement] runs the compound
    alternative first. An alternative that returns a node, or fails
    with anything but a [ParserError], decides the outcome. When one
    of the first four raises a [ParserError], the error is logged and
    the next one, in the order compound, return, if, while, expression
    statement, runs from the same index in the state after logging.
    When all four have failed so, the outcome is that of the
    expression statement, whatever it is: its own [ParserError] comes
    out as raised, and is not logged. *)
Theorem parse_statement_dispatch (fuel : nat) (index : Z) (st : State) :
  (~ caught (fst (compound fuel index st)) ->
   statement (S fuel) index st = compound fuel index st)
  /\ (forall e1 st1,
      compound fuel index st = (Raise (ParserErr e1), st1) ->
      (~ caught (fst (return_statement index (log_error e1 st1))) ->
       statement (S fuel) index st
       = return_statement index (log_error e1 st1))
      /\ (forall e2 st2,
          return_statement index (log_error e1 st1)
          = (Raise (ParserErr e2), st2) ->
          (~ caught (fst (if_statement fuel index (log_error e2 st2))) ->
           statement (S fuel) index st
           = if_statement fuel index (log_error e2 st2))
          /\ (forall e3 st3,
              if_statement fuel index (log_error e2 st2)
              = (Raise (ParserErr e3), st3) ->
              (~ caught (fst (while_statement fuel index (log_error e3 st3))) ->
               statement (S fuel) index st
               = while_statement fuel index (log_error e3 st3))
              /\ (forall e4 st4,
                  while_statement fuel index (log_error e3 st3)
                  = (Raise (ParserErr e4), st4) ->
                  statement (S fuel) index st
                  = expr_statement index (log_error e4 st4)
                  /\ forall e5 st5,
                       expr_statement index (log_error e4 st4)
                       = (Raise (ParserErr e5), st5) ->
                       statement (S fuel) index st
                       = (Raise (ParserErr e5), st5))))).
Proof.
  rewrite parse_statement_chain. split.
  - apply or_else_passes.
  - intros e1 st1 H1. rewrite (or_else_catches _ _ st st1 e1 H1). split.
    + apply or_else_passes.
    + intros e2 st2 H2. rewrite (or_else_catches _ _ _ st2 e2 H2). split.
      * apply or_else_passes.
      * intros e3 st3 H3. rewrite (or_else_catches _ _ _ st3 e3 H3). split.
        -- apply or_else_passes.
        -- intros e4 st4 H4. rewrite (or_else_catches _ _ _ st4 e4 H4).
           split; [ reflexivity | ]. intros e5 st5 H5. exact H5.
Qed.

End Dispatch.

(** ** The properties on the sample kinds *)

Lemma sample_is_standard :
  standard_kinds Sample.symbol_kinds Sample.keyword_kinds.
Proof.
  split.
  - repeat (apply Forall_cons; [ reflexivity | ]). apply Forall_nil.
  - repeat (apply Forall_cons; [ reflexivity | ]). apply Forall_nil.
  - repeat (apply NoDup_cons; [ cbn; intuition discriminate | ]).
    apply NoDup_nil.
  - repeat (apply NoDup_cons; [ cbn; intuition discriminate | ]).
    apply NoDup_nil.
Qed.

Lemma parser_error_boundaries_witness :
  (clamp 7 (Z.of_nat (length Sample.return_15)) AT
   = (Z.of_nat (length Sample.return_15), AFTER)
   /\ exists front t,
        Sample.return_15 = (front ++ [t])%list
        /\ ParserError_init "expected semicolon" 7 Sample.return_15 AT
           = OK {| base := CompilerError_init
                             ("expected semicolon" ++ " after '" ++ Token_str t ++ "'")
                             (Tokens.file_name t) (Tokens.line_num t);
                   amount_parsed := 7 |})
  /\ ParserError_init "expected semicolon" (-2) Sample.return_15 AFTER
     = OK {| base := CompilerError_init "expected semicolon, got 'return'"
                       (Some "main.c") (Some 3);
             amount_parsed := -2 |}.
Proof.
  split.
  - apply (proj1 (parser_error_boundaries "expected semicolon" 7
                    Sample.return_15 AT ltac:(discriminate))).
    vm_compute. discriminate.
  - destruct (proj2 (parser_error_boundaries "expected semicolon" (-2)
                       Sample.return_15 AFTER ltac:(discriminate))
                ltac:(vm_compute; discriminate))
      as (_ & t & rest & Heq & Hafter & _).
    injection Heq as <- <-.
    exact (proj2 (Hafter eq_refl)).
Defined.

Lemma amount_parsed_is_raw_index_witness :
  (exists e, ParserError_init "expected semicolon" (-4) Sample.return_15 GOT = OK e
             /\ amount_parsed e = -4)
  /\ (amount_parsed
        {| base := CompilerError_init "expected semicolon after '15'"
                     (Some "main.c") (Some 3);
           amount_parsed := 9 |} = 9
      /\ exists e',
           ParserError_init "expected semicolon"
             (fst (clamp 9 (Z.of_nat (length Sample.return_15)) AT))
             Sample.return_15 AT = OK e'
           /\ base e' = CompilerError_init "expected semicolon after '15'"
                          (Some "main.c") (Some 3)
           /\ amount_parsed e'
              = fst (clamp 9 (Z.of_nat (length Sample.return_15)) AT)
           /\ 0 <= amount_parsed e' <= Z.of_nat (length Sample.return_15)).
Proof.
  split.
  - apply (proj2 (amount_parsed_is_raw_index "expected semicolon" (-4)
                    Sample.return_15 GOT ltac:(discriminate))).
    right; left; reflexivity.
  - apply (proj1 (amount_parsed_is_raw_index "expected semicolon" 9
                    Sample.return_15 AT ltac:(discriminate))
             {| base := CompilerError_init "expected semicolon after '15'"
                          (Some "main.c") (Some 3);
                amount_parsed := 9 |}).
    reflexivity.
Defined.

Lemma longest_symbol_match_witness :
  (exists k0,
      find (fun k' => String.eqb (text_repr k') "<<=") Sample.symbol_kinds = Some k0
      /\ text_repr k0 = "<<="
      /\ tokenize_line Sample.lexer "<<=" = OK [Token_init k0 None])
  /\ (In Sample.shl Sample.symbol_kinds
      /\ startswith "x<<2" (text_repr Sample.shl) 1 = true
      /\ forall k, In k Sample.symbol_kinds ->
           startswith "x<<2" (text_repr k) 1 = true ->
           (String.length (text_repr k) <= String.length (text_repr Sample.shl))%nat).
Proof.
  split.
  - apply (proj2 (proj2 (longest_symbol_match Sample.symbol_kinds
                           Sample.keyword_kinds)) Sample.shl_assign).
    + vm_compute. tauto.
    + reflexivity.
  - apply (proj1 (longest_symbol_match Sample.symbol_kinds Sample.keyword_kinds)
             "x<<2" 1%nat Sample.shl).
    reflexivity.
Defined.

Lemma tokenize_a_plus_b_witness :
  tokenize_line Sample.lexer "a+b"
  = OK [Token_init Sample.identifier_kind (Some "a");
        Token_init Sample.plus None;
        Token_init Sample.identifier_kind (Some "b")].
Proof.
  apply (tokenize_a_plus_b Sample.symbol_kinds Sample.keyword_kinds
           sample_is_standard Sample.plus).
  - vm_compute. tauto.
  - reflexivity.
  - vm_compute. intuition discriminate.
  - vm_compute. intuition discriminate.
Defined.

Lemma fixed_spelling_round_trip_witness :
  (tokenize_line Sample.lexer "while" = OK [Token_init Sample.while_kw None]
   /\ map Token_str [Token_init Sample.while_kw None] = ["while"])
  /\ (tokenize_line Sample.lexer "!=" = OK [Token_init Sample.notequal None]
      /\ map Token_str [Token_init Sample.notequal None] = ["!="]).
Proof.
  split.
  - apply (fixed_spelling_round_trip Sample.symbol_kinds Sample.keyword_kinds
             sample_is_standard Sample.while_kw).
    right. vm_compute. tauto.
  - apply (fixed_spelling_round_trip Sample.symbol_kinds Sample.keyword_kinds
             sample_is_standard Sample.notequal).
    left. vm_compute. tauto.
Defined.

Lemma unrecognized_chunk_raises_witness :
  add_chunk Sample.lexer "1a" [Token_init Sample.int_kw None]
  = Raise (CompilerErr
             (CompilerError_init ("unrecognized token at '" ++ "1a" ++ "'")
                None None))
  /\ (tokenize_line Sample.lexer "123abc"
      = Raise (CompilerErr
                 (CompilerError_init "unrecognized token at '123abc'" None None))
      /\ forall f n rest,
           tokenize Sample.lexer (("123abc", f, n) :: rest)
           = Raise (CompilerErr
                      (CompilerError_init "unrecognized token at '123abc'"
                         (Some f) (Some n)))).
Proof.
  split.
  - apply (proj1 unrecognized_chunk_raises Sample.lexer "1a"); reflexivity.
  - apply (proj2 unrecognized_chunk_raises Sample.symbol_kinds
             Sample.keyword_kinds sample_is_standard).
Defined.

Lemma parse_statement_dispatch_witness :
  Sample.run_statement 1 Sample.lone_semicolon
  = (Raise (ParserErr (Sample.mismatch "expected expression, got ';'")),
     (Sample.lone_semicolon,
      [Sample.mismatch "expected '{', got ';'";
       Sample.mismatch "expected 'return', got ';'";
       Sample.mismatch "expected 'if', got ';'";
       Sample.mismatch "expected 'while', got ';'"])).
Proof.
  pose (st0 := (Sample.lone_semicolon, @nil ParserError)).
  pose (e1 := Sample.mismatch "expected '{', got ';'").
  pose (e2 := Sample.mismatch "expected 'return', got ';'").
  pose (e3 := Sample.mismatch "expected 'if', got ';'").
  pose (e4 := Sample.mismatch "expected 'while', got ';'").
  pose (e5 := Sample.mismatch "expected expression, got ';'").
  pose (st1 := st0).
  pose (st2 := Sample.log_error e1 st1).
  pose (st3 := Sample.log_error e2 st2).
  pose (st4 := Sample.log_error e3 st3).
  pose (st5 := Sample.log_error e4 st4).
  exact (proj2
           (proj2
              (proj2
                 (proj2
                    (proj2
                       (parse_statement_dispatch Sample.State string string
                          Sample.log_error Sample.match_token Sample.token_is
                          Sample.parse_expression Sample.parse_declaration
                          Sample.open_brack Sample.close_brack Sample.return_kw
                          Sample.semicolon Sample.if_kw Sample.else_kw
                          Sample.while_kw Sample.open_paren Sample.close_paren
                          0%nat 0 st0)
                       e1 st1 eq_refl)
                    e2 st2 eq_refl)
                 e3 st3 eq_refl)
              e4 st4 eq_refl)
           e5 st5 eq_refl).
Defined.

Example return_statement_wins :
  fst (Sample.run_statement 1
         [Sample.tok_at Sample.return_kw None 1;
          Sample.tok_at Sample.number_kind (Some "5") 1;
          Sample.tok_at Sample.semicolon None 1])
  = OK (Statement.mkNode (Statement.Return string "5") (Some (0, 2)), 3).
Proof. reflexivity. Qed.

Lemma context_both_or_neither_witness :
  (exists e f n,
      CompilerErr (CompilerError_init "unrecognized token at '1a'"
                     (Some "main.c") (Some 4)) = CompilerErr e
      /\ Errors.file_name e = Some f /\ Errors.line_num e = Some n)
  /\ (Forall stamped Sample.return_15
      /\ (forall format1 d t e,
             In t Sample.return_15 -> token_error format1 d t = OK e ->
             context_ok e /\ Errors.file_name e <> None)
      /\ (forall message index message_type e,
             ParserError_init message index Sample.return_15 message_type = OK e ->
             context_ok (base e) /\ Errors.file_name (base e) <> None))
  /\ (context_ok (CompilerError_init "unexpected 15" (Some "main.c") (Some 3))
      /\ Errors.file_name
           (CompilerError_init "unexpected 15" (Some "main.c") (Some 3)) <> None).
Proof.
  assert (Hfail : tokenize Sample.lexer
                    [("int x;", "main.c", 3); ("1a", "main.c", 4)]
                  = Raise (CompilerErr
                             (CompilerError_init "unrecognized token at '1a'"
                                (Some "main.c") (Some 4))))
    by (vm_compute; reflexivity).
  assert (Htokens : tokenize Sample.lexer [("return 15", "main.c", 3)]
                    = OK Sample.return_15)
    by (vm_compute; reflexivity).
  split; [ | split ].
  - exact (proj1 (proj2 (context_both_or_neither Sample.lexer
                           [("int x;", "main.c", 3); ("1a", "main.c", 4)]))
             _ Hfail).
  - exact (proj2 (proj2 (context_both_or_neither Sample.lexer
                           [("return 15", "main.c", 3)]))
             Sample.return_15 Htokens).
  - apply (proj1 (proj2 (proj2 (proj2 (context_both_or_neither Sample.lexer
                                         [("return 15", "main.c", 3)]))
                                  Sample.return_15 Htokens))
             Sample.format_at_end "unexpected {}"
             (Sample.tok_at Sample.number_kind (Some "15") 3)).
    + right; left; reflexivity.
    + reflexivity.
Defined.

(** * Further properties of the code *)

(** ** [ParserError.__init__] away from the boundaries *)

Section ParserErrorInside.
Context {TokenKind : Type} `{TokenKinds TokenKind}.

Lemma index_middle {A} (before : list A) (x : A) (rest : list A) :
  Py.index (before ++ x :: rest) (Z.of_nat (length before)) = Some x.
Proof.
  rewrite index_in_range.
  - rewrite Nat2Z.id, nth_error_app2 by lia. rewrite Nat.sub_diag. reflexivity.
  - rewrite length_app; cbn [length]. lia.
Qed.

(** X1. For an index strictly inside the token list the styles are kept
    as asked: AT and GOT name the token at the index, AFTER names the
    token before it, each with that token's file and line. *)
Theorem parser_error_inside (message : string)
    (before : list (Token TokenKind)) (prev t : Token TokenKind)
    (rest : list (Token TokenKind)) :
  let tokens := (before ++ prev :: t :: rest)%list in
  let index := Z.of_nat (length before) + 1 in
  ParserError_init message index tokens AT
  = OK {| base := CompilerError_init (message ++ " at '" ++ Token_str t ++ "'")
                    (Tokens.file_name t) (Tokens.line_num t);
          amount_parsed := index |}
  /\ ParserError_init message index tokens GOT
     = OK {| base := CompilerError_init (message ++ ", got '" ++ Token_str t ++ "'")
                       (Tokens.file_name t) (Tokens.line_num t);
             amount_parsed := index |}
  /\ ParserError_init message index tokens AFTER
     = OK {| base := CompilerError_init
                       (message ++ " after '" ++ Token_str prev ++ "'")
                       (Tokens.file_name prev) (Tokens.line_num prev);
             amount_parsed := index |}.
Proof.
  intros tokens index.
  assert (Hlen : Z.of_nat (length tokens) = Z.of_nat (length before) + 2
                                            + Z.of_nat (length rest)).
  { subst tokens. rewrite length_app. cbn [length]. lia. }
  assert (Hc : forall mt, clamp index (Z.of_nat (length tokens)) mt = (index, mt)).
  { intros mt. apply clamp_inside. subst index. lia. }
  assert (Ht : Py.index tokens index = Some t).
  { subst tokens index.
    replace (before ++ prev :: t :: rest)%list
      with ((before ++ [prev]) ++ t :: rest)%list
      by (rewrite <- app_assoc; reflexivity).
    replace (Z.of_nat (length before) + 1)
      with (Z.of_nat (length (before ++ [prev])%list))
      by (rewrite length_app; cbn [length]; lia).
    apply index_middle. }
  assert (Hp : Py.index tokens (index - 1) = Some prev).
  { subst tokens index.
    replace (Z.of_nat (length before) + 1 - 1) with (Z.of_nat (length before))
      by lia.
    apply index_middle. }
  split; [ | split ].
  - apply init_at_inside; rewrite Hc; cbn [fst snd]; [ reflexivity | exact Ht ].
  - apply init_got_inside; rewrite Hc; cbn [fst snd]; [ reflexivity | exact Ht ].
  - apply init_after_inside; rewrite Hc; cbn [fst snd]; [ reflexivity | exact Hp ].
Qed.

Lemma empty_list_negative_index_raises (message : string) (index : Z) :
  0 > index ->
  ParserError_init message index (@nil (Token TokenKind)) AT = Raise IndexError
  /\ ParserError_init message index (@nil (Token TokenKind)) GOT = Raise IndexError
  /\ ParserError_init message index (@nil (Token TokenKind)) AFTER = Raise IndexError.
Proof.
  intros Hneg. unfold ParserError_init; cbn [length Z.of_nat]. unfold clamp.
  destruct (index >=? 0) eqn:E1;
    [ rewrite Z.geb_leb in E1; apply Z.leb_le in E1; lia | ].
  destruct (index <=? 0) eqn:E2; [ | apply Z.leb_gt in E2; lia ].
  cbn [Z.eqb AT GOT AFTER Pos.eqb]. rewrite !index_of_nil.
  repeat split; reflexivity.
Qed.

(** X2. How the construction ends, for every input. An unknown style is
    reported by ValueError only when the index is below the length of the
    list; at or past the end the style is replaced by AFTER before it is
    looked at. An empty list otherwise gives IndexError, a list that is
    not empty otherwise gives an error object. *)
Theorem parser_error_outcome (message : string) (index : Z)
    (tokens : list (Token TokenKind)) (message_type : Z) :
  let known :=
    message_type = AT \/ message_type = GOT \/ message_type = AFTER in
  (index < Z.of_nat (length tokens) -> ~ known ->
   ParserError_init message index tokens message_type
   = Raise (ValueError "Unknown error message type"))
  /\ (tokens = [] -> 0 <= index \/ known ->
      ParserError_init message index tokens message_type = Raise IndexError)
  /\ (tokens <> [] -> Z.of_nat (length tokens) <= index \/ known ->
      exists e, ParserError_init message index tokens message_type = OK e).
Proof.
  intros known. split; [ | split ].
  - intros Hlt Hunknown. unfold ParserError_init.
    assert (Hmt : snd (clamp index (Z.of_nat (length tokens)) message_type)
                  = message_type).
    { unfold clamp.
      destruct (index >=? Z.of_nat (length tokens)) eqn:E1;
        [ rewrite Z.geb_leb in E1; apply Z.leb_le in E1; lia | ].
      destruct (index <=? 0); [ | reflexivity ]. cbn [snd].
      destruct (Z.eqb_spec message_type AFTER) as [Heq |]; [ | reflexivity ].
      exfalso. apply Hunknown. right; right. exact Heq. }
    destruct (clamp index (Z.of_nat (length tokens)) message_type) as [i mt].
    cbn [snd] in Hmt. subst mt.
    destruct (Z.eqb_spec message_type AT) as [Heq |];
      [ exfalso; apply Hunknown; left; exact Heq | ].
    destruct (Z.eqb_spec message_type GOT) as [Heq |];
      [ exfalso; apply Hunknown; right; left; exact Heq | ].
    destruct (Z.eqb_spec message_type AFTER) as [Heq |];
      [ exfalso; apply Hunknown; right; right; exact Heq | ].
    reflexivity.
  - intros -> Hcase.
    destruct (Z_le_gt_dec 0 index) as [Hnonneg | Hneg].
    + unfold ParserError_init; cbn [length Z.of_nat].
      rewrite (clamp_past_end index 0 message_type Hnonneg).
      cbn [Z.eqb AT GOT AFTER Pos.eqb]. rewrite index_of_nil. reflexivity.
    + destruct Hcase as [Hge | Hknown]; [ lia | ].
      destruct (empty_list_negative_index_raises message index Hneg)
        as (Hat & Hgot & Hafter).
      destruct Hknown as [-> | [-> | ->]]; assumption.
  - intros Hne [Hbig | Hknown].
    + destruct (exists_last Hne) as [front [t Heq]].
      eexists.
      apply (init_after_inside message index tokens message_type t);
        rewrite (clamp_past_end index _ message_type Hbig); cbn [fst snd];
        [ reflexivity | ].
      rewrite Heq. apply index_final.
    + exact (parser_error_init_total message index tokens message_type
               Hne Hknown).
Qed.

End ParserErrorInside.

(** ** [Lexer.__init__]: what the sort does to the kind lists *)

Section SortedMore.
Variable A : Type.
Variable key : A -> Z.

Lemma insert_permutation (x : A) (l : list A) :
  Permutation (insert key x l) (x :: l).
Proof.
  induction l as [| y l IH]; cbn; [ apply Permutation_refl | ].
  destruct (key y <? key x); [ | apply Permutation_refl ].
  apply (perm_trans (perm_skip y IH)). apply perm_swap.
Qed.

Lemma sorted_permutation (l : list A) : Permutation (sorted key l) l.
Proof.
  induction l as [| x l IH]; [ apply perm_nil | ].
  rewrite sorted_cons.
  apply (perm_trans (insert_permutation x (sorted key l))).
  apply perm_skip. exact IH.
Qed.

Lemma ascending_strongly_sorted (l : list A) :
  ascending key l -> StronglySorted (fun a b => key a <= key b) l.
Proof.
  induction l as [| x l IH]; cbn; [ intros _; apply SSorted_nil | ].
  intros [Hx Hl]. apply SSorted_cons; [ exact (IH Hl) | ].
  apply Forall_forall. exact Hx.
Qed.

(** The elements of one key keep their order. *)
Lemma filter_insert (c : Z) (x : A) (l : list A) :
  filter (fun a => key a =? c) (insert key x l)
  = if key x =? c then x :: filter (fun a => key a =? c) l
    else filter (fun a => key a =? c) l.
Proof.
  induction l as [| y l IH]; cbn [insert filter]; [ reflexivity | ].
  destruct (Z.ltb_spec (key y) (key x)) as [Hlt | Hge]; cbn [filter].
  - rewrite IH.
    destruct (Z.eqb_spec (key y) c), (Z.eqb_spec (key x) c);
      try reflexivity. lia.
  - reflexivity.
Qed.

Lemma filter_sorted (c : Z) (l : list A) :
  filter (fun a => key a =? c) (sorted key l) = filter (fun a => key a =? c) l.
Proof.
  induction l as [| x l IH]; [ reflexivity | ].
  rewrite sorted_cons, filter_insert, IH. reflexivity.
Qed.
End SortedMore.

Section LexerInit.
Context {TokenKind : Type} `{TokenKinds TokenKind}.

Lemma stored_kinds_sorted (l : list TokenKind) :
  Permutation (sorted neg_len l) l
  /\ StronglySorted
       (fun a b => (String.length (text_repr b) <= String.length (text_repr a))%nat)
       (sorted neg_len l)
  /\ forall n,
       filter (fun k => (String.length (text_repr k) =? n)%nat) (sorted neg_len l)
       = filter (fun k => (String.length (text_repr k) =? n)%nat) l.
Proof.
  split; [ apply sorted_permutation | split ].
  - pose proof (ascending_strongly_sorted _ neg_len _
                  (sorted_ascending _ neg_len l)) as Hs.
    induction Hs as [| a l' Hs IH Hall]; [ apply SSorted_nil | ].
    apply SSorted_cons; [ exact IH | ].
    rewrite Forall_forall in Hall |- *. intros b Hb.
    specialize (Hall b Hb). unfold neg_len in Hall. lia.
  - intros n.
    assert (Hext : forall k : TokenKind,
               (String.length (text_repr k) =? n)%nat
               = (neg_len k =? - Z.of_nat n)).
    { intros k. unfold neg_len.
      destruct (Nat.eqb_spec (String.length (text_repr k)) n),
               (Z.eqb_spec (- Z.of_nat (String.length (text_repr k)))
                  (- Z.of_nat n)); try reflexivity; lia. }
    rewrite !(filter_ext _ _ Hext). apply filter_sorted.
Qed.

(** X3. The constructor stores each kind list rearranged, with nothing
    added or lost, from the longest spelling to the shortest, and kinds
    whose spellings are equally long stay in the order they were given
    in. *)
Theorem lexer_init_sorts (symbols keywords : list TokenKind) :
  let self := Lexer_init symbols keywords in
  (Permutation (symbol_kinds self) symbols
   /\ StronglySorted
        (fun a b => (String.length (text_repr b) <= String.length (text_repr a))%nat)
        (symbol_kinds self)
   /\ forall n,
        filter (fun k => (String.length (text_repr k) =? n)%nat) (symbol_kinds self)
        = filter (fun k => (String.length (text_repr k) =? n)%nat) symbols)
  /\ (Permutation (keyword_kinds self) keywords
      /\ StronglySorted
           (fun a b => (String.length (text_repr b) <= String.length (text_repr a))%nat)
           (keyword_kinds self)
      /\ forall n,
           filter (fun k => (String.length (text_repr k) =? n)%nat) (keyword_kinds self)
           = filter (fun k => (String.length (text_repr k) =? n)%nat) keywords).
Proof.
  cbn [symbol_kinds keyword_kinds Lexer_init].
  split; apply stored_kinds_sorted.
Qed.

Lemma find_refined {B} (p q : B -> bool) (l : list B) (x : B) :
  (forall y, q y = true -> p y = true) ->
  find p l = Some x -> q x = true -> find q l = Some x.
Proof.
  intros Hqp. induction l as [| z l IH]; cbn; [ discriminate | ].
  destruct (p z) eqn:Ep.
  - intros [= ->] Hq. rewrite Hq. reflexivity.
  - intros Hf Hq. destruct (q z) eqn:Eq.
    + rewrite (Hqp z Eq) in Ep. discriminate.
    + exact (IH Hf Hq).
Qed.

(** X4. Ties between symbol kinds go to the one registered first: the
    kind matched at a position is the first kind of the list given to
    the constructor that has its spelling. No kind is matched exactly
    when no registered spelling starts at the position. *)
Theorem match_symbol_tie_break (symbols keywords : list TokenKind)
    (content : string) (start : nat) :
  (forall k',
      match_symbol_kind_at (Lexer_init symbols keywords) content start = Some k' ->
      find (fun k => String.eqb (text_repr k) (text_repr k')) symbols = Some k')
  /\ (match_symbol_kind_at (Lexer_init symbols keywords) content start = None
      <-> forall k, In k symbols ->
            startswith content (text_repr k) start = false).
Proof.
  split.
  - intros k' Hm. rewrite <- find_spelling_stable.
    unfold match_symbol_kind_at in Hm; cbn [symbol_kinds Lexer_init] in Hm.
    pose proof (find_some_in _ _ _ Hm) as [_ Hp].
    apply (find_refined
             (fun k => startswith content (text_repr k) start)
             (fun k => String.eqb (text_repr k) (text_repr k'))
             (sorted neg_len symbols) k');
      [ | exact Hm | apply String.eqb_refl ].
    intros y Hy. apply String.eqb_eq in Hy. rewrite Hy. exact Hp.
  - unfold match_symbol_kind_at; cbn [symbol_kinds Lexer_init].
    rewrite find_none_iff. split.
    + intros Hall k Hk. apply Hall.
      exact (proj2 (sorted_in _ neg_len k symbols) Hk).
    + intros Hall k Hk. apply Hall.
      exact (proj1 (sorted_in _ neg_len k symbols) Hk).
Qed.

(** X5. Sorting the keywords changes no answer: for every chunk the
    keyword found is the first kind of the list given to the
    constructor that is spelled exactly like the chunk, and none is
    found exactly when no registered keyword is spelled so. *)
Theorem match_keyword_exact (symbols keywords : list TokenKind)
    (token_repr : string) :
  match_keyword_kind (Lexer_init symbols keywords) token_repr
  = find (fun k => String.eqb (text_repr k) token_repr) keywords
  /\ (forall k,
      match_keyword_kind (Lexer_init symbols keywords) token_repr = Some k ->
      In k keywords /\ text_repr k = token_repr)
  /\ (match_keyword_kind (Lexer_init symbols keywords) token_repr = None
      <-> ~ In token_repr (map text_repr keywords)).
Proof.
  pose proof (match_keyword_registered symbols keywords token_repr) as Heq.
  split; [ exact Heq | split ].
  - rewrite Heq. intros k Hk. apply find_some_in in Hk as [Hin Hs].
    apply String.eqb_eq in Hs. auto.
  - rewrite Heq, find_none_iff. split.
    + intros Hall Hin. apply in_map_iff in Hin as (k & Hs & Hk).
      specialize (Hall k Hk). rewrite Hs, String.eqb_refl in Hall. discriminate.
    + intros Hnot k Hk.
      destruct (String.eqb_spec (text_repr k) token_repr) as [Hs |];
        [ | reflexivity ].
      exfalso. apply Hnot. rewrite <- Hs. apply in_map. exact Hk.
Qed.

End LexerInit.

(** ** [tokenize] over several lines *)

Section TokenizeLines.
Context {TokenKind : Type} `{TokenKinds TokenKind}.

Implicit Types (tokens : list (Token TokenKind)).

Lemma tokenize_from_accumulates (self : Lexer) code_lines :
  forall all_tokens,
    tokenize_from self code_lines all_tokens
    = (r <- tokenize_from self code_lines [] ;; OK (all_tokens ++ r)%list).
Proof.
  induction code_lines as [| [[line f] n] rest IH]; intros all_tokens;
    cbn [tokenize_from].
  - cbn [Py.bind]. rewrite app_nil_r. reflexivity.
  - destruct (tokenize_line self line) as [line_tokens | x |];
      [ | destruct x; reflexivity | reflexivity ].
    rewrite IH. rewrite (IH ([] ++ _)%list). cbn [app].
    destruct (tokenize_from self rest []) as [r | x |]; cbn [Py.bind];
      try reflexivity.
    rewrite app_assoc. reflexivity.
Qed.

Lemma tokenize_from_app (self : Lexer) lines1 lines2 :
  forall all_tokens,
    tokenize_from self (lines1 ++ lines2) all_tokens
    = (t1 <- tokenize_from self lines1 all_tokens ;;
       tokenize_from self lines2 t1).
Proof.
  induction lines1 as [| [[line f] n] rest IH]; intros all_tokens;
    cbn [tokenize_from app].
  - reflexivity.
  - destruct (tokenize_line self line) as [line_tokens | x |];
      [ apply IH | destruct x; reflexivity | reflexivity ].
Qed.

(** X6. Tokenizing two runs of lines one after the other is tokenizing
    each and joining the tokens in that order; when the first run
    fails its error is the outcome and the second run is not looked
    at, and when only the second fails its error is the outcome. *)
Theorem tokenize_app (self : Lexer) (lines1 lines2 : list (string * string * Z)) :
  tokenize self (lines1 ++ lines2)
  = (t1 <- tokenize self lines1 ;;
     t2 <- tokenize self lines2 ;;
     OK (t1 ++ t2)%list).
Proof.
  unfold tokenize. rewrite tokenize_from_app.
  destruct (tokenize_from self lines1 []) as [t1 | x |]; cbn [Py.bind];
    try reflexivity.
  apply tokenize_from_accumulates.
Qed.

(** Every token returned carries the file and line of one of the
    lines. *)
Lemma tokenize_from_positions (self : Lexer) (all_lines : list (string * string * Z))
    code_lines :
  forall all_tokens tokens,
    incl code_lines all_lines ->
    Forall (fun t => exists line f n,
                In (line, f, n) all_lines
                /\ Tokens.file_name t = Some f /\ Tokens.line_num t = Some n)
           all_tokens ->
    tokenize_from self code_lines all_tokens = OK tokens ->
    Forall (fun t => exists line f n,
                In (line, f, n) all_lines
                /\ Tokens.file_name t = Some f /\ Tokens.line_num t = Some n)
           tokens.
Proof.
  induction code_lines as [| [[line f] n] rest IH];
    intros all_tokens tokens Hincl Hacc; cbn [tokenize_from].
  - intros [= <-]. exact Hacc.
  - destruct (tokenize_line self line) as [line_tokens | x |];
      [ | destruct x; discriminate | discriminate ].
    apply IH.
    + intros l Hl. apply Hincl. right. exact Hl.
    + apply Forall_app. split; [ exact Hacc | ].
      apply Forall_forall. intros t Ht.
      apply in_map_iff in Ht as (t0 & <- & _).
      exists line, f, n. split; [ apply Hincl; left; reflexivity | ].
      split; reflexivity.
Qed.

Lemma str_with_file_and_line (d f : string) (n : Z) :
  f <> "" -> n <> 0 ->
  CompilerError_str (CompilerError_init d (Some f) (Some n))
  = f ++ ":" ++ str_of_int n ++ ": error: " ++ d.
Proof.
  intros Hf Hn. unfold CompilerError_str; cbn.
  destruct f as [| c f]; [ congruence | ].
  destruct (Z.eqb_spec n 0); [ congruence | reflexivity ].
Qed.

(** X7. When the lines are given with file names that are not empty and
    line numbers other than zero, a [ParserError] constructed over the
    tokens [tokenize] returned carries the file and line of one of the
    lines and prints in the full form [<file>:<line>: error: ...]. *)
Theorem parser_error_located (self : Lexer)
    (code_lines : list (string * string * Z)) tokens
    (message : string) (index message_type : Z) (e : ParserError) :
  (forall line f n, In (line, f, n) code_lines -> f <> "" /\ n <> 0) ->
  tokenize self code_lines = OK tokens ->
  ParserError_init message index tokens message_type = OK e ->
  exists line f n,
    In (line, f, n) code_lines
    /\ Errors.file_name (base e) = Some f
    /\ Errors.line_num (base e) = Some n
    /\ CompilerError_str (base e)
       = f ++ ":" ++ str_of_int n ++ ": error: " ++ descrip (base e).
Proof.
  intros Hgood Htok He.
  pose proof (tokenize_from_positions self code_lines code_lines [] tokens
                (incl_refl _) (Forall_nil _) Htok) as Hpos.
  rewrite Forall_forall in Hpos.
  destruct (parser_error_context _ _ _ _ _ He) as (t & Ht & Hf & Hl).
  destruct (Hpos t Ht) as (line & f & n & Hin & Hft & Hlt).
  rewrite Hft in Hf. rewrite Hlt in Hl.
  exists line, f, n. split; [ exact Hin | ].
  split; [ exact Hf | split; [ exact Hl | ] ].
  destruct (Hgood line f n Hin) as [Hfne Hnne].
  destruct (base e) as [d fo lo].
  cbn [Errors.file_name Errors.line_num descrip] in Hf, Hl |- *.
  subst fo lo. exact (str_with_file_and_line d f n Hfne Hnne).
Qed.

Lemma add_chunk_names_chunk (self : Lexer) chunk tokens x :
  add_chunk self chunk tokens = Raise x ->
  chunk <> ""
  /\ x = CompilerErr (CompilerError_init
                        ("unrecognized token at '" ++ chunk ++ "'") None None).
Proof.
  unfold add_chunk. destruct chunk as [| c s]; [ discriminate | ].
  destruct (match_keyword_kind self (String c s)); [ discriminate | ].
  destruct (truthy_str (match_number_string (String c s))); [ discriminate | ].
  destruct (truthy_str (match_identifier_name (String c s))); [ discriminate | ].
  intros [= <-]. split; [ discriminate | reflexivity ].
Qed.

(** The chunk a failing line is blamed for is a piece of that line. *)
Lemma tokenize_loop_names_chunk (self : Lexer) line fuel :
  forall chunk_start chunk_end tokens x,
    tokenize_loop self fuel line chunk_start chunk_end tokens = Raise x ->
    exists a b,
      slice line a b <> ""
      /\ x = CompilerErr (CompilerError_init
                            ("unrecognized token at '" ++ slice line a b ++ "'")
                            None None).
Proof.
  induction fuel as [| fuel IH]; intros chunk_start chunk_end tokens x;
    rewrite tokenize_loop_unfold;
    destruct (Nat.ltb_spec chunk_end (String.length line)) as [Hlt | Hge];
    try discriminate;
    try (intros Hx; exists chunk_start, chunk_end;
         exact (add_chunk_names_chunk _ _ _ _ Hx)).
  destruct (match_symbol_kind_at self line chunk_end) as [k |].
  - destruct (add_chunk self (slice line chunk_start chunk_end) tokens)
      as [tokens' | y |] eqn:Eadd; cbn [Py.bind]; try discriminate.
    + apply IH.
    + intros [= <-]. exists chunk_start, chunk_end.
      exact (add_chunk_names_chunk _ _ _ _ Eadd).
  - destruct (get_defined line chunk_end Hlt) as [c ->].
    destruct (isspace c); [ | apply IH ].
    destruct (add_chunk self (slice line chunk_start chunk_end) tokens)
      as [tokens' | y |] eqn:Eadd; cbn [Py.bind]; try discriminate.
    + apply IH.
    + intros [= <-]. exists chunk_start, chunk_end.
      exact (add_chunk_names_chunk _ _ _ _ Eadd).
Qed.

(** X8. When [tokenize] fails, it fails on the first line that
    [tokenize_line] rejects: the lines before it tokenize, the error
    names a piece of that line that is not empty, carries the file and
    line given with it, and prints as
    [<file>:<line>: error: unrecognized token at '<chunk>'] when the
    file name is not empty and the line number is not zero. *)
Theorem tokenize_failure_located (self : Lexer)
    (code_lines : list (string * string * Z)) (x : exn) :
  tokenize self code_lines = Raise x ->
  exists before line f n rest a b,
    code_lines = (before ++ (line, f, n) :: rest)%list
    /\ (exists tokens, tokenize self before = OK tokens)
    /\ slice line a b <> ""
    /\ tokenize_line self line
       = Raise (CompilerErr
                  (CompilerError_init
                     ("unrecognized token at '" ++ slice line a b ++ "'")
                     None None))
    /\ x = CompilerErr
             (CompilerError_init
                ("unrecognized token at '" ++ slice line a b ++ "'")
                (Some f) (Some n))
    /\ (f <> "" -> n <> 0 ->
        CompilerError_str
          (CompilerError_init
             ("unrecognized token at '" ++ slice line a b ++ "'")
             (Some f) (Some n))
        = f ++ ":" ++ str_of_int n ++ ": error: "
          ++ "unrecognized token at '" ++ slice line a b ++ "'").
Proof.
  unfold tokenize. revert x. generalize (@nil (Token TokenKind)) as all_tokens.
  induction code_lines as [| [[line f] n] rest IH]; intros all_tokens x;
    cbn [tokenize_from]; [ discriminate | ].
  destruct (tokenize_line self line) as [line_tokens | y |] eqn:Eline.
  - intros Hx. destruct (IH _ _ Hx)
      as (before & line' & f' & n' & rest' & a & b & -> & [toks Hb] & Hne
          & Hline & -> & Hstr).
    exists ((line, f, n) :: before), line', f', n', rest', a, b.
    split; [ reflexivity | ]. split.
    + cbn [tokenize_from]. rewrite Eline. eauto.
    + auto.
  - destruct (tokenize_loop_names_chunk _ _ _ _ _ _ _ Eline)
      as (a & b & Hne & ->).
    intros [= <-].
    exists [], line, f, n, rest, a, b.
    split; [ reflexivity | ]. split; [ eexists; reflexivity | ].
    split; [ exact Hne | ]. split; [ exact Eline | ].
    split; [ reflexivity | ].
    intros Hf Hn. apply str_with_file_and_line; assumption.
  - discriminate.
Qed.

End TokenizeLines.

(** ** More on strings *)

Lemma append_empty_r (s : string) : s ++ "" = s.
Proof.
  induction s as [| c s IH]; cbn; [ reflexivity | now rewrite IH ].
Qed.

Lemma append_associative (a b c : string) : (a ++ b) ++ c = a ++ b ++ c.
Proof.
  induction a as [| x a IH]; cbn; [ reflexivity | now rewrite IH ].
Qed.

Lemma length_append (a b : string) :
  String.length (a ++ b) = (String.length a + String.length b)%nat.
Proof.
  induction a as [| x a IH]; cbn; [ reflexivity | now rewrite IH ].
Qed.

Lemma skip_add (a b : nat) (s : string) : skip (a + b) s = skip b (skip a s).
Proof.
  revert s. induction a as [| a IH]; intros s; cbn [Nat.add skip];
    [ reflexivity | ].
  destruct s as [| c s]; [ destruct b; reflexivity | apply IH ].
Qed.

Lemma skip_past_end (n : nat) (s : string) :
  (String.length s <= n)%nat -> skip n s = "".
Proof.
  revert s. induction n as [| n IH]; intros [| c s] Hlen; cbn in *;
    try reflexivity; try lia.
  apply IH. lia.
Qed.

Lemma skip_append (p s : string) : skip (String.length p) (p ++ s) = s.
Proof.
  induction p as [| c p IH]; cbn; [ reflexivity | exact IH ].
Qed.

Lemma take_then_skip (m : nat) (s : string) : substring 0 m s ++ skip m s = s.
Proof.
  revert s. induction m as [| m IH]; intros [| c s]; cbn; try reflexivity.
  now rewrite IH.
Qed.

Lemma substring_of_skip (n m : nat) (s : string) :
  substring n m s = substring 0 m (skip n s).
Proof.
  revert s. induction n as [| n IH]; intros s; [ reflexivity | ].
  destruct s as [| c s]; cbn [substring skip].
  - destruct m; reflexivity.
  - apply IH.
Qed.

(** A line from [chunk_start] on is the chunk and then the line from
    [chunk_end] on. *)
Lemma skip_slice (line : string) (a b : nat) :
  (a <= b)%nat -> skip a line = slice line a b ++ skip b line.
Proof.
  intros Hab. unfold slice. rewrite substring_of_skip.
  replace b with (a + (b - a))%nat at 2 by lia.
  rewrite skip_add. symmetry. apply take_then_skip.
Qed.

Lemma skip_next (line : string) (i : nat) (c : ascii) :
  String.get i line = Some c -> skip i line = String c (skip (S i) line).
Proof.
  revert i. induction line as [| c' line IH]; intros i Hget.
  - destruct i; discriminate.
  - destruct i as [| i]; cbn in *.
    + injection Hget as ->. reflexivity.
    + apply IH. exact Hget.
Qed.

Lemma take_one_more (m : nat) (s : string) (c : ascii) :
  String.get m s = Some c ->
  substring 0 (S m) s = substring 0 m s ++ String c "".
Proof.
  revert s. induction m as [| m IH]; intros [| c' s] Hget; cbn in Hget;
    try discriminate.
  - injection Hget as ->. cbn. destruct s; reflexivity.
  - cbn [substring append]. f_equal. apply IH. exact Hget.
Qed.

Lemma get_of_skip (a b : nat) (s : string) :
  String.get b (skip a s) = String.get (a + b) s.
Proof.
  revert s. induction a as [| a IH]; intros s; [ reflexivity | ].
  destruct s as [| c s]; cbn [skip Nat.add String.get].
  - destruct b; reflexivity.
  - apply IH.
Qed.

(** The chunk grows by the character at [chunk_end]. *)
Lemma slice_one_more (line : string) (a b : nat) (c : ascii) :
  (a <= b)%nat -> String.get b line = Some c ->
  slice line a (S b) = slice line a b ++ String c "".
Proof.
  intros Hab Hget. unfold slice.
  rewrite (substring_of_skip a (S b - a)), (substring_of_skip a (b - a)).
  replace (S b - a)%nat with (S (b - a)) by lia.
  apply take_one_more. rewrite get_of_skip.
  replace (a + (b - a))%nat with b by lia. exact Hget.
Qed.

Lemma prefix_splits (p s : string) :
  String.prefix p s = true -> s = p ++ skip (String.length p) s.
Proof.
  revert s. induction p as [| c p IH]; intros s Hp; [ reflexivity | ].
  destruct s as [| c' s]; cbn in Hp; [ discriminate | ].
  destruct (ascii_dec c c') as [-> |]; [ | discriminate ].
  cbn. f_equal. apply IH. exact Hp.
Qed.

Lemma startswith_splits (content p : string) (start : nat) :
  startswith content p start = true ->
  skip start content = p ++ skip (start + String.length p) content.
Proof.
  unfold startswith. intros Hs. apply andb_true_iff in Hs as [_ Hp].
  rewrite skip_add. apply prefix_splits. exact Hp.
Qed.

Import Rendering.

Lemma strip_space_append (a b : string) :
  strip_space (a ++ b) = strip_space a ++ strip_space b.
Proof.
  induction a as [| c a IH]; cbn; [ reflexivity | ].
  destruct (isspace c); cbn; now rewrite IH.
Qed.

Lemma strip_space_nothing (s : string) :
  all_chars (fun c => negb (isspace c)) s = true -> strip_space s = s.
Proof.
  induction s as [| c s IH]; cbn; [ reflexivity | ].
  intros Hall. apply andb_true_iff in Hall as [Hc Hs].
  apply negb_true_iff in Hc. rewrite Hc, (IH Hs). reflexivity.
Qed.

Lemma all_chars_append (p : ascii -> bool) (a b : string) :
  all_chars p (a ++ b) = all_chars p a && all_chars p b.
Proof.
  induction a as [| c a IH]; cbn; [ reflexivity | ].
  rewrite IH. apply andb_assoc.
Qed.

(** ** [tokenize_line]: what comes out *)

Section TokenizeLineMore.
Context {TokenKind : Type} `{TokenKinds TokenKind}.

Implicit Types (tokens : list (Token TokenKind)).

Lemma render_cons (t : Token TokenKind) tokens :
  render (t :: tokens) = Token_str t ++ render tokens.
Proof. reflexivity. Qed.

Lemma render_app tokens1 tokens2 :
  render (tokens1 ++ tokens2) = render tokens1 ++ render tokens2.
Proof.
  induction tokens1 as [| t l IH]; [ reflexivity | ].
  cbn [app]. rewrite !render_cons, IH, append_associative. reflexivity.
Qed.

Lemma truthy_number_string (chunk : string) :
  truthy_str (match_number_string chunk) = true ->
  match_number_string chunk = Some chunk /\ isdigit chunk = true.
Proof.
  unfold match_number_string. destruct (isdigit chunk); [ auto | discriminate ].
Qed.

Lemma truthy_identifier_name (chunk : string) :
  truthy_str (match_identifier_name chunk) = true ->
  match_identifier_name chunk = Some chunk /\ re_match_identifier chunk = true.
Proof.
  unfold match_identifier_name.
  destruct (re_match_identifier chunk); [ auto | discriminate ].
Qed.

(** What [add_chunk] returns: the list as it was for the empty chunk,
    else the list with one token more, which is spelled like the
    chunk. *)
Lemma add_chunk_appends (self : Lexer) chunk tokens tokens' :
  add_chunk self chunk tokens = OK tokens' ->
  (chunk = "" /\ tokens' = tokens)
  \/ (chunk <> ""
      /\ exists t, tokens' = (tokens ++ [t])%list
                   /\ Token_str t = chunk /\ lexed self t).
Proof.
  unfold add_chunk. destruct chunk as [| c s]; [ intros [= <-]; auto | ].
  intros Hadd. right. split; [ discriminate | ]. revert Hadd.
  destruct (match_keyword_kind self (String c s)) as [k |] eqn:Ekw.
  - intros [= <-]. exists (Token_init k None).
    unfold match_keyword_kind in Ekw. apply find_some_in in Ekw as [Hin Hs].
    apply String.eqb_eq in Hs.
    split; [ reflexivity | ]. split; [ exact Hs | ].
    split; [ reflexivity | ]. split; [ reflexivity | ].
    left. split; [ reflexivity | right; exact Hin ].
  - destruct (truthy_str (match_number_string (String c s))) eqn:Enum.
    + destruct (truthy_number_string _ Enum) as [-> Hdigit].
      intros [= <-]. exists (Token_init number (Some (String c s))).
      split; [ reflexivity | ]. split; [ reflexivity | ].
      split; [ reflexivity | ]. split; [ reflexivity | ].
      right; left. split; [ reflexivity | ].
      exists (String c s). split; [ reflexivity | split; assumption ].
    + destruct (truthy_str (match_identifier_name (String c s))) eqn:Eid;
        [ | discriminate ].
      destruct (truthy_identifier_name _ Eid) as [-> Hident].
      intros [= <-]. exists (Token_init identifier (Some (String c s))).
      split; [ reflexivity | ]. split; [ reflexivity | ].
      split; [ reflexivity | ]. split; [ reflexivity | ].
      right; right. split; [ reflexivity | ].
      exists (String c s). split; [ reflexivity | split; assumption ].
Qed.

Lemma add_chunk_render (self : Lexer) chunk tokens tokens' :
  add_chunk self chunk tokens = OK tokens' ->
  render tokens' = render tokens ++ chunk.
Proof.
  intros Hadd.
  destruct (add_chunk_appends _ _ _ _ Hadd)
    as [[-> ->] | (_ & t & -> & Hstr & _)].
  - now rewrite append_empty_r.
  - rewrite render_app. cbn [render fold_right].
    rewrite append_empty_r, Hstr. reflexivity.
Qed.

Lemma add_chunk_lexed (self : Lexer) chunk tokens tokens' :
  add_chunk self chunk tokens = OK tokens' ->
  Forall (lexed self) tokens -> Forall (lexed self) tokens'.
Proof.
  intros Hadd Hall.
  destruct (add_chunk_appends _ _ _ _ Hadd)
    as [[-> ->] | (_ & t & -> & _ & Ht)]; [ exact Hall | ].
  apply Forall_app. split; [ exact Hall | ]. constructor; [ exact Ht | constructor ].
Qed.

Lemma tokenize_loop_render (self : Lexer) (line : string) :
  (forall k, In k (symbol_kinds self) ->
     all_chars (fun c => negb (isspace c)) (text_repr k) = true) ->
  forall fuel chunk_start chunk_end tokens tokens',
    (chunk_start <= chunk_end)%nat ->
    all_chars (fun c => negb (isspace c)) (slice line chunk_start chunk_end) = true ->
    tokenize_loop self fuel line chunk_start chunk_end tokens = OK tokens' ->
    render tokens'
    = render tokens ++ slice line chunk_start chunk_end
      ++ strip_space (skip chunk_end line).
Proof.
  intros Hsym fuel. induction fuel as [| fuel IH];
    intros chunk_start chunk_end tokens tokens' Hle Hchunk;
    rewrite tokenize_loop_unfold;
    destruct (Nat.ltb_spec chunk_end (String.length line)) as [Hlt | Hge];
    try discriminate;
    try (intros Hadd; rewrite (add_chunk_render _ _ _ _ Hadd),
           (skip_past_end chunk_end line Hge); cbn [strip_space];
         now rewrite append_empty_r).
  destruct (match_symbol_kind_at self line chunk_end) as [k |] eqn:Ematch.
  - destruct (add_chunk self (slice line chunk_start chunk_end) tokens)
      as [tokens1 | y |] eqn:Eadd; cbn [Py.bind]; try discriminate.
    intros Hloop.
    unfold match_symbol_kind_at in Ematch.
    apply find_some_in in Ematch as [Hin Hstart].
    rewrite (IH _ _ _ _ (Nat.le_refl _)
               ltac:(rewrite slice_empty; reflexivity) Hloop).
    rewrite slice_empty, render_app, (add_chunk_render _ _ _ _ Eadd).
    cbn [render fold_right append].
    change (Token_str (Token_init k None)) with (text_repr k).
    rewrite (startswith_splits _ _ _ Hstart), strip_space_append,
      (strip_space_nothing _ (Hsym k Hin)).
    rewrite append_empty_r, !append_associative. reflexivity.
  - destruct (get_defined line chunk_end Hlt) as [c Hget]. rewrite Hget.
    destruct (isspace c) eqn:Espace.
    + destruct (add_chunk self (slice line chunk_start chunk_end) tokens)
        as [tokens1 | y |] eqn:Eadd; cbn [Py.bind]; try discriminate.
      intros Hloop.
      rewrite (IH _ _ _ _ (Nat.le_refl _)
                 ltac:(rewrite slice_empty; reflexivity) Hloop).
      rewrite slice_empty, (add_chunk_render _ _ _ _ Eadd).
      rewrite (skip_next _ _ _ Hget). cbn [strip_space append].
      rewrite Espace, Nat.add_1_r, append_associative. reflexivity.
    + intros Hloop.
      assert (Hgrow : slice line chunk_start (chunk_end + 1)
                      = slice line chunk_start chunk_end ++ String c "").
      { rewrite Nat.add_1_r. apply slice_one_more; assumption. }
      apply IH in Hloop;
        [ | lia
          | rewrite Hgrow, all_chars_append, Hchunk; cbn; rewrite Espace;
            reflexivity ].
      rewrite Hloop, Hgrow, (skip_next _ _ _ Hget). cbn [strip_space].
      rewrite Espace, Nat.add_1_r, !append_associative. reflexivity.
Qed.

(** X9. When no symbol spelling holds white space, the tokens of a line
    spell the line: their texts, one after the other, are the line
    without its white space. Nothing else is dropped, added or
    reordered. *)
Theorem tokens_spell_the_line (self : Lexer) (line : string) tokens :
  (forall k, In k (symbol_kinds self) ->
     all_chars (fun c => negb (isspace c)) (text_repr k) = true) ->
  tokenize_line self line = OK tokens ->
  render tokens = strip_space line.
Proof.
  intros Hsym Htok. unfold tokenize_line in Htok.
  rewrite (tokenize_loop_render self line Hsym _ _ _ _ _ (Nat.le_refl _)
             ltac:(rewrite slice_empty; reflexivity) Htok).
  rewrite slice_empty. reflexivity.
Qed.

Lemma tokenize_loop_lexed (self : Lexer) (line : string) :
  forall fuel chunk_start chunk_end tokens tokens',
    Forall (lexed self) tokens ->
    tokenize_loop self fuel line chunk_start chunk_end tokens = OK tokens' ->
    Forall (lexed self) tokens'.
Proof.
  intros fuel. induction fuel as [| fuel IH];
    intros chunk_start chunk_end tokens tokens' Hall;
    rewrite tokenize_loop_unfold;
    destruct (Nat.ltb_spec chunk_end (String.length line)) as [Hlt | Hge];
    try discriminate;
    try (intros Hadd; exact (add_chunk_lexed _ _ _ _ Hadd Hall)).
  destruct (match_symbol_kind_at self line chunk_end) as [k |] eqn:Ematch.
  - destruct (add_chunk self (slice line chunk_start chunk_end) tokens)
      as [tokens1 | y |] eqn:Eadd; cbn [Py.bind]; try discriminate.
    apply IH. apply Forall_app.
    split; [ exact (add_chunk_lexed _ _ _ _ Eadd Hall) | ].
    constructor; [ | constructor ].
    unfold match_symbol_kind_at in Ematch.
    apply find_some_in in Ematch as [Hin _].
    split; [ reflexivity | ]. split; [ reflexivity | ].
    left. split; [ reflexivity | left; exact Hin ].
  - destruct (String.get chunk_end line) as [c |]; [ | discriminate ].
    destruct (isspace c); [ | apply IH; exact Hall ].
    destruct (add_chunk self (slice line chunk_start chunk_end) tokens)
      as [tokens1 | y |] eqn:Eadd; cbn [Py.bind]; try discriminate.
    apply IH. exact (add_chunk_lexed _ _ _ _ Eadd Hall).
Qed.

(** X10. Every token [tokenize_line] returns has no file and no line
    yet, and is of one of three shapes: a stored symbol or keyword kind
    without content; the number kind with a content made of digits; the
    identifier kind with a content that matches the identifier pattern.
    The content of a number or an identifier is never the spelling of a
    keyword. *)
Theorem tokenize_line_lexed (self : Lexer) (line : string) tokens :
  tokenize_line self line = OK tokens -> Forall (lexed self) tokens.
Proof.
  apply tokenize_loop_lexed. constructor.
Qed.

End TokenizeLineMore.

(** ** [tokenize_line]: white space separates *)

Lemma find_agree {A} (p q : A -> bool) (l : list A) :
  (forall x, In x l -> p x = q x) -> find p l = find q l.
Proof.
  induction l as [| z l IH]; intros Hpq; cbn; [ reflexivity | ].
  rewrite <- (Hpq z (or_introl eq_refl)).
  destruct (p z); [ reflexivity | ].
  apply IH. intros x Hx. apply Hpq. right. exact Hx.
Qed.

Lemma skip_inside (n : nat) (a b : string) :
  (n <= String.length a)%nat -> skip n (a ++ b) = skip n a ++ b.
Proof.
  revert a. induction n as [| n IH]; intros a Hn; [ reflexivity | ].
  destruct a as [| c a]; cbn in Hn; [ lia | ].
  cbn [append skip]. apply IH. lia.
Qed.

Lemma substring_inside (n m : nat) (a b : string) :
  (n + m <= String.length a)%nat -> substring n m (a ++ b) = substring n m a.
Proof.
  revert n m. induction a as [| c a IH]; intros n m Hnm; cbn in Hnm.
  - assert (n = 0%nat) by lia. assert (m = 0%nat) by lia. subst.
    cbn. apply substring_none.
  - destruct n as [| n]; cbn [append substring].
    + destruct m as [| m]; [ reflexivity | ]. f_equal. apply IH. lia.
    + apply IH. lia.
Qed.

Lemma get_inside (n : nat) (a b : string) :
  (n < String.length a)%nat -> String.get n (a ++ b) = String.get n a.
Proof.
  revert n. induction a as [| c a IH]; intros n Hn; cbn in Hn; [ lia | ].
  destruct n as [| n]; [ reflexivity | ]. cbn [append String.get].
  apply IH. lia.
Qed.

Lemma get_after (a b : string) (n : nat) :
  String.get (String.length a + n) (a ++ b) = String.get n b.
Proof.
  induction a as [| c a IH]; [ reflexivity | exact IH ].
Qed.

(** A spelling without white space cannot reach across a white space
    character. *)
Lemma prefix_stops_at_space (t u rest : string) (c : ascii) :
  isspace c = true ->
  t <> "" -> all_chars (fun c => negb (isspace c)) t = true ->
  String.prefix t (u ++ String c rest) = String.prefix t u.
Proof.
  intros Hc. revert u. induction t as [| x t IH]; intros u Hne Hall;
    [ congruence | ].
  cbn in Hall. apply andb_true_iff in Hall as [Hx Hall].
  apply negb_true_iff in Hx.
  destruct u as [| y u]; cbn [append String.prefix].
  - destruct (ascii_dec x c) as [-> |]; [ congruence | reflexivity ].
  - destruct (ascii_dec x y); [ | reflexivity ].
    destruct t as [| x' t']; [ destruct u; reflexivity | ].
    apply IH; [ discriminate | exact Hall ].
Qed.

Lemma startswith_bound (content p : string) (start : nat) :
  startswith content p start = true ->
  (start + String.length p <= String.length content)%nat.
Proof.
  intros Hs. pose proof (startswith_splits _ _ _ Hs) as Hsplit.
  unfold startswith in Hs. apply andb_true_iff in Hs as [Hle Hp].
  apply Nat.leb_le in Hle. apply prefix_length in Hp.
  assert (Hlen : String.length (skip start content)
                 = (String.length content - start)%nat).
  { clear. revert content. induction start as [| n IH]; intros [| c s];
      cbn; try reflexivity. apply IH. }
  lia.
Qed.

Section WhiteSpace.
Context {TokenKind : Type} `{TokenKinds TokenKind}.
Variable self : @Lexer TokenKind.

Hypothesis Hspelled :
  forall k, In k (symbol_kinds self) ->
    text_repr k <> ""
    /\ all_chars (fun c => negb (isspace c)) (text_repr k) = true.

Implicit Types (tokens : list (Token TokenKind)).

Lemma spelled_not_empty (k : TokenKind) :
  In k (symbol_kinds self) -> text_repr k <> "".
Proof. intros Hk. exact (proj1 (Hspelled k Hk)). Qed.

(** Any fuel that covers the rest of the line gives the same
    outcome. *)
Lemma tokenize_loop_fuel (line : string) :
  forall fuel1 fuel2 chunk_start chunk_end tokens,
    (String.length line - chunk_end < fuel1)%nat ->
    (String.length line - chunk_end < fuel2)%nat ->
    tokenize_loop self fuel1 line chunk_start chunk_end tokens
    = tokenize_loop self fuel2 line chunk_start chunk_end tokens.
Proof.
  induction fuel1 as [| fuel1 IH];
    intros fuel2 chunk_start chunk_end tokens H1 H2; [ lia | ].
  destruct fuel2 as [| fuel2]; [ lia | ].
  rewrite (tokenize_loop_unfold self (S fuel1)),
          (tokenize_loop_unfold self (S fuel2)).
  destruct (Nat.ltb_spec chunk_end (String.length line)) as [Hlt | Hge];
    [ | reflexivity ].
  destruct (match_symbol_kind_at self line chunk_end) as [k |] eqn:Ematch.
  - apply find_some_in in Ematch as [Hin _].
    pose proof (spelled_not_empty k Hin) as Hk.
    destruct (add_chunk self (slice line chunk_start chunk_end) tokens)
      as [tokens1 | y |]; cbn [Py.bind]; try reflexivity.
    destruct (text_repr k); [ congruence | ].
    cbn [String.length]. apply IH; lia.
  - destruct (String.get chunk_end line) as [c |]; [ | reflexivity ].
    destruct (isspace c).
    + destruct (add_chunk self (slice line chunk_start chunk_end) tokens)
        as [tokens1 | y |]; cbn [Py.bind]; try reflexivity.
      apply IH; lia.
    + apply IH; lia.
Qed.

Lemma add_chunk_accumulates chunk tokens :
  add_chunk self chunk tokens
  = (r <- add_chunk self chunk [] ;; OK (tokens ++ r)%list).
Proof.
  unfold add_chunk. destruct chunk as [| c s]; cbn [Py.bind].
  - now rewrite app_nil_r.
  - destruct (match_keyword_kind self (String c s)); [ reflexivity | ].
    destruct (truthy_str (match_number_string (String c s))); [ reflexivity | ].
    destruct (truthy_str (match_identifier_name (String c s))); reflexivity.
Qed.

(** The tokens found so far are only ever added to. *)
Lemma tokenize_loop_accumulates (line : string) :
  forall fuel chunk_start chunk_end tokens,
    tokenize_loop self fuel line chunk_start chunk_end tokens
    = (r <- tokenize_loop self fuel line chunk_start chunk_end [] ;;
       OK (tokens ++ r)%list).
Proof.
  induction fuel as [| fuel IH]; intros chunk_start chunk_end tokens;
    rewrite (tokenize_loop_unfold self _ line chunk_start chunk_end tokens),
            (tokenize_loop_unfold self _ line chunk_start chunk_end []);
    destruct (Nat.ltb_spec chunk_end (String.length line)) as [Hlt | Hge];
    try reflexivity; try apply add_chunk_accumulates.
  destruct (match_symbol_kind_at self line chunk_end) as [k |].
  - rewrite add_chunk_accumulates.
    destruct (add_chunk self (slice line chunk_start chunk_end) [])
      as [r0 | y |]; cbn [Py.bind app]; try reflexivity.
    rewrite IH. rewrite (IH _ _ (r0 ++ _)%list).
    destruct (tokenize_loop self fuel line _ _ []) as [r | y |];
      cbn [Py.bind]; try reflexivity.
    rewrite <- !app_assoc. reflexivity.
  - destruct (String.get chunk_end line) as [c |]; [ | reflexivity ].
    destruct (isspace c); [ | apply IH ].
    rewrite add_chunk_accumulates.
    destruct (add_chunk self (slice line chunk_start chunk_end) [])
      as [r0 | y |]; cbn [Py.bind app]; try reflexivity.
    rewrite IH. rewrite (IH _ _ r0).
    destruct (tokenize_loop self fuel line _ _ []) as [r | y |];
      cbn [Py.bind]; try reflexivity.
    rewrite <- !app_assoc. reflexivity.
Qed.

(** Moving the line to the right by a prefix moves the scan with it. *)
Lemma tokenize_loop_shift (p line : string) :
  forall fuel chunk_start chunk_end tokens,
    tokenize_loop self fuel (p ++ line)
      (String.length p + chunk_start) (String.length p + chunk_end) tokens
    = tokenize_loop self fuel line chunk_start chunk_end tokens.
Proof.
  assert (Hmatch : forall i,
             match_symbol_kind_at self (p ++ line) (String.length p + i)
             = match_symbol_kind_at self line i).
  { intros i. unfold match_symbol_kind_at. apply find_agree. intros k _.
    unfold startswith. rewrite skip_add, skip_append, length_append.
    f_equal.
    destruct (Nat.leb_spec (String.length p + i)
                (String.length p + String.length line)),
             (Nat.leb_spec i (String.length line)); try reflexivity; lia. }
  assert (Hslice : forall a b,
             slice (p ++ line) (String.length p + a) (String.length p + b)
             = slice line a b).
  { intros a b. unfold slice.
    rewrite (substring_of_skip (String.length p + a)), skip_add, skip_append.
    replace (String.length p + b - (String.length p + a))%nat
      with (b - a)%nat by lia.
    symmetry. apply substring_of_skip. }
  induction fuel as [| fuel IH]; intros chunk_start chunk_end tokens;
    rewrite (tokenize_loop_unfold self _ (p ++ line)),
            (tokenize_loop_unfold self _ line);
    rewrite length_append, ?Hmatch, Hslice, ?get_after;
    destruct (Nat.ltb_spec (String.length p + chunk_end)
                (String.length p + String.length line)),
             (Nat.ltb_spec chunk_end (String.length line));
    try reflexivity; try lia.
  destruct (match_symbol_kind_at self line chunk_end) as [k |].
  - destruct (add_chunk self (slice line chunk_start chunk_end) tokens)
      as [tokens1 | y |]; cbn [Py.bind]; try reflexivity.
    rewrite <- Nat.add_assoc. apply IH.
  - destruct (String.get chunk_end line) as [c |]; [ | reflexivity ].
    destruct (isspace c).
    + destruct (add_chunk self (slice line chunk_start chunk_end) tokens)
        as [tokens1 | y |]; cbn [Py.bind]; try reflexivity.
      rewrite <- Nat.add_assoc. apply IH.
    + rewrite <- Nat.add_assoc. apply IH.
Qed.

(** Up to a white space character the scan of a line is the scan of
    what stands before that character. *)
Lemma tokenize_loop_before_space (s1 s2 : string) (c : ascii) :
  isspace c = true ->
  forall fuel chunk_start chunk_end tokens,
    (chunk_start <= chunk_end)%nat ->
    (chunk_end <= String.length s1)%nat ->
    (String.length (s1 ++ String c s2) - chunk_end < fuel)%nat ->
    tokenize_loop self fuel (s1 ++ String c s2) chunk_start chunk_end tokens
    = (tokens' <- tokenize_loop self fuel s1 chunk_start chunk_end tokens ;;
       tokenize_loop self fuel (s1 ++ String c s2)
         (String.length s1 + 1) (String.length s1 + 1) tokens').
Proof.
  intros Hc.
  assert (Hlen : String.length (s1 ++ String c s2)
                 = (String.length s1 + S (String.length s2))%nat).
  { rewrite length_append. reflexivity. }
  assert (Hslice : forall a b, (a <= b)%nat -> (b <= String.length s1)%nat ->
             slice (s1 ++ String c s2) a b = slice s1 a b).
  { intros a b Hab Hb. unfold slice. apply substring_inside. lia. }
  assert (Hmatch : forall i, (i <= String.length s1)%nat ->
             match_symbol_kind_at self (s1 ++ String c s2) i
             = match_symbol_kind_at self s1 i).
  { intros i Hi. unfold match_symbol_kind_at. apply find_agree. intros k Hk.
    destruct (Hspelled k Hk) as [Hne Hns].
    unfold startswith. rewrite (skip_inside i s1 _ Hi).
    rewrite (prefix_stops_at_space _ _ _ _ Hc Hne Hns), Hlen.
    f_equal.
    destruct (Nat.leb_spec i (String.length s1 + S (String.length s2))),
             (Nat.leb_spec i (String.length s1)); try reflexivity; lia. }
  induction fuel as [| fuel IH];
    intros chunk_start chunk_end tokens Hle Hin Hfuel; [ lia | ].
  rewrite (tokenize_loop_unfold self (S fuel) (s1 ++ String c s2)),
          (tokenize_loop_unfold self (S fuel) s1).
  rewrite (Hmatch chunk_end Hin), (Hslice _ _ Hle Hin), Hlen.
  destruct (Nat.ltb_spec chunk_end (String.length s1 + S (String.length s2)));
    [ | lia ].
  destruct (Nat.ltb_spec chunk_end (String.length s1)) as [Hlt | Hge].
  - (* inside [s1] *)
    rewrite (get_inside chunk_end s1 _ Hlt).
    destruct (match_symbol_kind_at self s1 chunk_end) as [k |] eqn:Ematch.
    + unfold match_symbol_kind_at in Ematch.
      apply find_some_in in Ematch as [Hk Hstart].
      pose proof (startswith_bound _ _ _ Hstart) as Hbound.
      pose proof (spelled_not_empty k Hk) as Hne.
      assert (Hpos : (0 < String.length (text_repr k))%nat)
        by (destruct (text_repr k); [ congruence | cbn; lia ]).
      destruct (add_chunk self (slice s1 chunk_start chunk_end) tokens)
        as [tokens1 | y |]; cbn [Py.bind]; try reflexivity.
      rewrite IH by (rewrite ?Hlen; lia).
      destruct (tokenize_loop self fuel s1 _ _ _) as [t' | y |];
        cbn [Py.bind]; try reflexivity.
      symmetry. apply tokenize_loop_fuel; rewrite Hlen; lia.
    + destruct (String.get chunk_end s1) as [c' |]; [ | reflexivity ].
      destruct (isspace c').
      * destruct (add_chunk self (slice s1 chunk_start chunk_end) tokens)
          as [tokens1 | y |]; cbn [Py.bind]; try reflexivity.
        rewrite IH by (rewrite ?Hlen; lia).
        destruct (tokenize_loop self fuel s1 _ _ _) as [t' | y |];
          cbn [Py.bind]; try reflexivity.
        symmetry. apply tokenize_loop_fuel; rewrite Hlen; lia.
      * rewrite IH by (rewrite ?Hlen; lia).
        destruct (tokenize_loop self fuel s1 _ _ _) as [t' | y |];
          cbn [Py.bind]; try reflexivity.
        symmetry. apply tokenize_loop_fuel; rewrite Hlen; lia.
  - (* at the white space character *)
    assert (chunk_end = String.length s1) by lia. subst chunk_end.
    assert (Hnone : match_symbol_kind_at self s1 (String.length s1) = None).
    { unfold match_symbol_kind_at. apply find_none_iff. intros k Hk.
      destruct (startswith s1 (text_repr k) (String.length s1)) eqn:Es;
        [ | reflexivity ].
      apply startswith_bound in Es.
      pose proof (spelled_not_empty k Hk) as Hne.
      destruct (text_repr k); [ congruence | cbn in Es; lia ]. }
    rewrite Hnone.
    replace (String.get (String.length s1) (s1 ++ String c s2)) with (Some c)
      by (rewrite <- (Nat.add_0_r (String.length s1)), get_after; reflexivity).
    rewrite Hc.
    destruct (add_chunk self (slice s1 chunk_start (String.length s1)) tokens)
      as [tokens1 | y |]; cbn [Py.bind]; try reflexivity.
    symmetry. apply tokenize_loop_fuel; rewrite Hlen; lia.
Qed.

(** X11. White space separates. When no stored symbol spelling is empty
    or holds white space, a line with a white space character in it
    gives the tokens of what stands before the character followed by
    the tokens of what stands after it; if the part before fails, the
    line fails the same way, and otherwise it fails the way the part
    after does. *)
Theorem white_space_separates (s1 s2 : string) (c : ascii) :
  isspace c = true ->
  tokenize_line self (s1 ++ String c s2)
  = (t1 <- tokenize_line self s1 ;;
     t2 <- tokenize_line self s2 ;;
     OK (t1 ++ t2)%list).
Proof.
  intros Hc. unfold tokenize_line.
  assert (Hlen : String.length (s1 ++ String c s2)
                 = (String.length s1 + S (String.length s2))%nat).
  { rewrite length_append. reflexivity. }
  rewrite (tokenize_loop_before_space s1 s2 c Hc) by lia.
  rewrite (tokenize_loop_fuel s1 _ (S (String.length s1))) by (rewrite ?Hlen; lia).
  destruct (tokenize_loop self (S (String.length s1)) s1 0 0 [])
    as [t1 | y |]; cbn [Py.bind]; try reflexivity.
  replace (s1 ++ String c s2) with ((s1 ++ String c "") ++ s2)
    by (rewrite append_associative; reflexivity).
  replace (String.length s1 + 1)%nat
    with (String.length (s1 ++ String c "") + 0)%nat
    by (rewrite length_append; cbn; lia).
  rewrite tokenize_loop_shift, tokenize_loop_accumulates.
  rewrite (tokenize_loop_fuel s2 _ (S (String.length s2)))
    by (rewrite ?length_append; cbn; lia).
  reflexivity.
Qed.

End WhiteSpace.

(** ** [tokenize_line]: blank lines, ending and not ending *)

Section TokenizeLineEnds.
Context {TokenKind : Type} `{TokenKinds TokenKind}.
Variable self : @Lexer TokenKind.

Implicit Types (tokens : list (Token TokenKind)).

(** X12. When no stored symbol spelling is empty or holds white space,
    a white space character at the start or at the end of a line
    changes nothing, and a line of white space only (the empty line
    too) gives no token. *)
Theorem white_space_around (line : string) (c : ascii) :
  (forall k, In k (symbol_kinds self) ->
     text_repr k <> ""
     /\ all_chars (fun c => negb (isspace c)) (text_repr k) = true) ->
  (isspace c = true ->
   tokenize_line self (String c line) = tokenize_line self line
   /\ tokenize_line self (line ++ String c "") = tokenize_line self line)
  /\ (all_chars isspace line = true -> tokenize_line self line = OK []).
Proof.
  intros Hspelled.
  assert (Hlead : forall c' s, isspace c' = true ->
             tokenize_line self (String c' s) = tokenize_line self s).
  { intros c' s Hc'. unfold tokenize_line.
    rewrite tokenize_loop_unfold. cbn [String.length Nat.ltb Nat.leb].
    assert (Hnone : match_symbol_kind_at self (String c' s) 0 = None).
    { unfold match_symbol_kind_at. apply find_none_iff. intros k Hk.
      destruct (Hspelled k Hk) as [Hne Hns].
      unfold startswith. cbn [skip Nat.leb andb].
      destruct (text_repr k) as [| x t]; [ congruence | ].
      cbn [all_chars] in Hns. apply andb_true_iff in Hns as [Hx _].
      apply negb_true_iff in Hx.
      destruct (String.prefix (String x t) (String c' s)) eqn:Ep;
        [ | reflexivity ].
      apply prefix_first_char in Ep. congruence. }
    rewrite Hnone. cbn [String.get]. rewrite Hc', slice_empty.
    cbn [add_chunk Py.bind Nat.add].
    exact (tokenize_loop_shift self (String c' "") s
             (S (String.length s)) 0%nat 0%nat []). }
  split.
  - intros Hc. split; [ exact (Hlead c line Hc) | ].
    unfold tokenize_line.
    assert (Hlen : String.length (line ++ String c "")
                   = (String.length line + 1)%nat)
      by (rewrite length_append; reflexivity).
    rewrite (tokenize_loop_before_space self Hspelled line "" c Hc) by lia.
    rewrite (tokenize_loop_fuel self Hspelled line _ (S (String.length line)))
      by (rewrite ?Hlen; lia).
    destruct (tokenize_loop self (S (String.length line)) line 0 0 [])
      as [t1 | y |]; cbn [Py.bind]; try reflexivity.
    rewrite tokenize_loop_unfold, Hlen, Nat.ltb_irrefl, slice_empty.
    reflexivity.
  - induction line as [| c' s IH]; [ reflexivity | ].
    cbn [all_chars]. intros Hall. apply andb_true_iff in Hall as [Hc' Hs].
    rewrite (Hlead c' s Hc'). exact (IH Hs).
Qed.

(** X13. When no stored symbol spelling is empty, [tokenize_line] comes
    to an end on every line, and in one of two ways: it returns tokens,
    or it raises the error for an unrecognized token, which names a
    piece of the line that is not empty and has no file and no line. *)
Theorem tokenize_line_outcome (line : string) :
  (forall k, In k (symbol_kinds self) -> text_repr k <> "") ->
  (exists tokens, tokenize_line self line = OK tokens)
  \/ (exists a b,
        slice line a b <> ""
        /\ tokenize_line self line
           = Raise (CompilerErr
                      (CompilerError_init
                         ("unrecognized token at '" ++ slice line a b ++ "'")
                         None None))).
Proof.
  intros Hspell.
  pose proof (tokenize_loop_ends self line Hspell (S (String.length line))
                0%nat 0%nat [] ltac:(lia)) as Hends.
  fold (tokenize_line self line) in Hends.
  destruct (tokenize_line self line) as [tokens | x |] eqn:Eline;
    [ left; eauto | right | congruence ].
  destruct (tokenize_loop_names_chunk _ _ _ _ _ _ _ Eline) as (a & b & Hne & ->).
  exists a, b. auto.
Qed.

(** X14. A symbol kind with the empty spelling makes the loop of
    [tokenize_line] stand still: on a line that is not empty and at
    whose start no other stored spelling matches, the empty spelling is
    matched again and again at position 0 and the call never
    returns. *)
Theorem empty_spelling_hangs (line : string) :
  line <> "" ->
  (exists k, In k (symbol_kinds self) /\ text_repr k = "") ->
  (forall k, In k (symbol_kinds self) ->
     startswith line (text_repr k) 0 = true -> text_repr k = "") ->
  tokenize_line self line = Diverge.
Proof.
  intros Hline [k0 [Hk0 Hempty]] Honly. unfold tokenize_line.
  generalize (S (String.length line)) as fuel.
  generalize (@nil (Token TokenKind)) as tokens.
  intros tokens fuel. revert tokens.
  induction fuel as [| fuel IH]; intros tokens; rewrite tokenize_loop_unfold;
    destruct (Nat.ltb_spec 0 (String.length line)) as [Hlt | Hge];
    try reflexivity;
    try (destruct line; [ congruence | cbn in Hge; lia ]).
  destruct (match_symbol_kind_at self line 0) as [k |] eqn:Ematch.
  - unfold match_symbol_kind_at in Ematch.
    apply find_some_in in Ematch as [Hk Hstart].
    rewrite (Honly k Hk Hstart), slice_empty. cbn [add_chunk Py.bind].
    cbn [String.length Nat.add]. apply IH.
  - exfalso. unfold match_symbol_kind_at in Ematch.
    rewrite find_none_iff in Ematch. specialize (Ematch k0 Hk0).
    rewrite Hempty in Ematch. unfold startswith in Ematch.
    cbn [Nat.leb skip andb] in Ematch.
    destruct line; discriminate.
Qed.

End TokenizeLineEnds.

(** ** One word over the standard kind sets *)

Lemma ident_chars_tail (s : string) :
  all_chars is_ident_char s = true -> ident_tail s = true.
Proof.
  induction s as [| c s IH]; [ reflexivity | ].
  cbn [all_chars]. intros Hall. apply andb_true_iff in Hall as [Hc Hs].
  cbn [ident_tail]. destruct s as [| c' s'].
  - rewrite Hc. reflexivity.
  - rewrite Hc. exact (IH Hs).
Qed.

Lemma ident_char_digit (c : ascii) :
  is_ident_char c = true -> isdigit_char c = is_decimal_digit c.
Proof.
  destruct c as [[] [] [] [] [] [] [] []]; vm_compute; congruence.
Qed.

Lemma ident_chars_digits (s : string) :
  all_chars is_ident_char s = true ->
  all_chars isdigit_char s = all_chars is_decimal_digit s.
Proof.
  induction s as [| c s IH]; [ reflexivity | ].
  cbn [all_chars]. intros Hall. apply andb_true_iff in Hall as [Hc Hs].
  rewrite (ident_char_digit c Hc), (IH Hs). reflexivity.
Qed.

Section OneWord.
Context {TokenKind : Type} `{TokenKinds TokenKind}.
Variables symbols keywords : list TokenKind.
Hypothesis Hstd : standard_kinds symbols keywords.

(** X15. Over standard kind sets a line that is one word (letters,
    digits and underscores only) gives: the keyword token when the word
    is a registered keyword; else a number token holding the word when
    it is all decimal digits; else an identifier token holding the word
    when it starts with a letter or an underscore; else, for a word
    that starts with a digit and goes on with something else, the
    unrecognized-token error. *)
Theorem one_word_line (c : ascii) (s : string) :
  all_chars is_ident_char (String c s) = true ->
  tokenize_line (Lexer_init symbols keywords) (String c s)
  = match find (fun k => String.eqb (text_repr k) (String c s)) keywords with
    | Some k => OK [Token_init k None]
    | None =>
        if all_chars is_decimal_digit (String c s) then
          OK [Token_init number (Some (String c s))]
        else if is_ident_start c then
          OK [Token_init identifier (Some (String c s))]
        else
          Raise (CompilerErr
                   (CompilerError_init
                      ("unrecognized token at '" ++ String c s ++ "'")
                      None None))
    end.
Proof.
  intros Hword. unfold tokenize_line.
  rewrite (scan_word symbols keywords Hstd _ Hword) by lia.
  rewrite slice_whole. cbn [add_chunk].
  rewrite match_keyword_registered.
  destruct (find _ keywords) as [k |]; [ reflexivity | ].
  unfold match_number_string, match_identifier_name, isdigit,
    re_match_identifier.
  rewrite (ident_chars_digits _ Hword).
  destruct (all_chars is_decimal_digit (String c s)); [ reflexivity | ].
  cbn [all_chars] in Hword. apply andb_true_iff in Hword as [_ Hs].
  rewrite (ident_chars_tail s Hs), andb_true_r.
  destruct (is_ident_start c); reflexivity.
Qed.

End OneWord.

(** ** The statement forms *)

Section StatementForms.
Import Statement.
Context {TokenKind : Type}.
Variables State ExprNode DeclNode : Type.
Variable log_error : ParserError -> State -> State.
Variable match_token : Z -> TokenKind -> Z -> M State Z.
Variable token_is : Z -> TokenKind -> State -> bool.
Variable parse_expression : Z -> M State (ExprNode * Z).
Variable parse_declaration : parser State ExprNode DeclNode.
Variables open_brack close_brack return_kw semicolon : TokenKind.
Variables if_kw else_kw while_kw open_paren close_paren : TokenKind.

Local Abbreviation statement :=
  (parse_statement log_error match_token token_is parse_expression
     parse_declaration open_brack close_brack return_kw semicolon
     if_kw else_kw while_kw open_paren close_paren).
Local Abbreviation compound :=
  (parse_compound_statement log_error match_token token_is parse_expression
     parse_declaration open_brack close_brack return_kw semicolon
     if_kw else_kw while_kw open_paren close_paren).
Local Abbreviation if_statement :=
  (parse_if_statement log_error match_token token_is parse_expression
     parse_declaration open_brack close_brack return_kw semicolon
     if_kw else_kw while_kw open_paren close_paren).
Local Abbreviation while_statement :=
  (parse_while_statement log_error match_token token_is parse_expression
     parse_declaration open_brack close_brack return_kw semicolon
     if_kw else_kw while_kw open_paren close_paren).
Local Abbreviation return_statement :=
  (parse_return DeclNode match_token parse_expression return_kw semicolon).
Local Abbreviation expr_statement :=
  (parse_expr_statement DeclNode match_token parse_expression semicolon).
Local Abbreviation items :=
  (block_items log_error parse_declaration).

Lemma bindM_returns {A B} (m : M State A) (k : A -> M State B) st b st' :
  bindM m k st = (OK b, st') ->
  exists a st1, m st = (OK a, st1) /\ k a st1 = (OK b, st').
Proof.
  unfold bindM. destruct (m st) as [[a | x |] st1]; try discriminate. eauto.
Qed.


Lemma add_range_returns (f : parser State ExprNode DeclNode) index st sh r e st' :
  add_range f index st = (OK (mkNode sh r, e), st') ->
  r = Some (index, e - 1)
  /\ exists r0, f index st = (OK (mkNode sh r0, e), st').
Proof.
  unfold add_range.
  destruct (f index st) as [[[[sh0 r0] e0] | x |] st1]; try discriminate.
  intros [= <- <- <- <-]. eauto.
Qed.


Lemma or_else_returns {A} (p q : M State A) st v st' :
  or_else log_error p q st = (OK v, st') ->
  p st = (OK v, st')
  \/ exists e st1, p st = (Raise (ParserErr e), st1)
                   /\ q (log_error e st1) = (OK v, st').
Proof.
  unfold or_else. destruct (p st) as [[a | x |] st1]; try discriminate.
  - auto.
  - destruct x; try discriminate. eauto.
Qed.

Lemma or_else_raises_parser_error {A} (p q : M State A) st e st' :
  or_else log_error p q st = (Raise (ParserErr e), st') ->
  exists e1 st1, p st = (Raise (ParserErr e1), st1)
                 /\ q (log_error e1 st1) = (Raise (ParserErr e), st').
Proof.
  unfold or_else. destruct (p st) as [[a | x |] st1]; try discriminate.
  destruct x; try discriminate. eauto.
Qed.


(** X17. A [ParserError] that comes out of [parse_statement] is never
    the one of the compound, return, if or while alternative: each of
    the four has raised a [ParserError] of its own, which was logged,
    and the error that comes out is the one [parse_expr_statement]
    raised at the same index after them. *)
Theorem statement_error_is_expression_error (fuel : nat) (index : Z)
    (st : State) (e : ParserError) (st' : State) :
  statement (S fuel) index st = (Raise (ParserErr e), st') ->
  exists e1 st1 e2 st2 e3 st3 e4 st4,
    compound fuel index st = (Raise (ParserErr e1), st1)
    /\ return_statement index (log_error e1 st1) = (Raise (ParserErr e2), st2)
    /\ if_statement fuel index (log_error e2 st2) = (Raise (ParserErr e3), st3)
    /\ while_statement fuel index (log_error e3 st3)
       = (Raise (ParserErr e4), st4)
    /\ expr_statement index (log_error e4 st4) = (Raise (ParserErr e), st').
Proof.
  rewrite parse_statement_chain. intros Hfail.
  apply or_else_raises_parser_error in Hfail as (e1 & st1 & H1 & Hfail).
  apply or_else_raises_parser_error in Hfail as (e2 & st2 & H2 & Hfail).
  apply or_else_raises_parser_error in Hfail as (e3 & st3 & H3 & Hfail).
  apply or_else_raises_parser_error in Hfail as (e4 & st4 & H4 & Hfail).
  exists e1, st1, e2, st2, e3, st3, e4, st4. auto.
Qed.

Ltac bind_returns H :=
  let a := fresh "a" in
  let st1 := fresh "st" in
  let Hm := fresh "Hm" in
  apply bindM_returns in H as (a & st1 & Hm & H);
  try (destruct a as [? ?]); cbv beta iota zeta in H.

(** X18. The node [parse_statement] returns is of one of the five
    statement forms, never a declaration, and its range runs from the
    index the call started at to the token before the index it
    returns. *)
Theorem statement_node_forms (fuel : nat) (index : Z) (st : State)
    (sh : Shape ExprNode DeclNode) (r : option (Z * Z)) (index' : Z)
    (st' : State) :
  statement (S fuel) index st = (OK (mkNode sh r, index'), st') ->
  r = Some (index, index' - 1)
  /\ ((exists nodes, sh = Compound nodes)
      \/ (exists e, sh = Return DeclNode e)
      \/ (exists c s else_s, sh = IfStatement c s else_s)
      \/ (exists c s, sh = WhileStatement c s)
      \/ (exists e, sh = ExprStatement DeclNode e)).
Proof.
  rewrite parse_statement_chain. intros Hok.
  apply or_else_returns in Hok as [Hok | (e1 & st1 & _ & Hok)].
  { unfold parse_compound_statement, parse_compound_statement_with in Hok.
    apply add_range_returns in Hok as [Hr [r0 Hok]]. split; [ exact Hr | ].
    do 3 bind_returns Hok. injection Hok as <- _ _ _. left. eauto. }
  apply or_else_returns in Hok as [Hok | (e2 & st2 & _ & Hok)].
  { unfold parse_return in Hok.
    apply add_range_returns in Hok as [Hr [r0 Hok]]. split; [ exact Hr | ].
    do 3 bind_returns Hok. injection Hok as <- _ _ _. right; left. eauto. }
  apply or_else_returns in Hok as [Hok | (e3 & st3 & _ & Hok)].
  { unfold parse_if_statement, parse_if_statement_with in Hok.
    apply add_range_returns in Hok as [Hr [r0 Hok]]. split; [ exact Hr | ].
    do 5 bind_returns Hok.
    match type of Hok with
    | (if ?b then _ else _) = _ => destruct b
    end.
    - injection Hok as <- _ _ _. right; right; left. eauto.
    - do 2 bind_returns Hok.
      injection Hok as <- _ _ _. right; right; left. eauto. }
  apply or_else_returns in Hok as [Hok | (e4 & st4 & _ & Hok)].
  { unfold parse_while_statement, parse_while_statement_with in Hok.
    apply add_range_returns in Hok as [Hr [r0 Hok]]. split; [ exact Hr | ].
    do 5 bind_returns Hok.
    injection Hok as <- _ _ _. right; right; right; left. eauto. }
  unfold parse_expr_statement in Hok.
  apply add_range_returns in Hok as [Hr [r0 Hok]]. split; [ exact Hr | ].
  do 2 bind_returns Hok.
  injection Hok as <- _ _ _. right; right; right; right. eauto.
Qed.

End StatementForms.

(** ** Where the tokens of [tokenize] come from *)

Section TokenizeStamps.
Context {TokenKind : Type} `{TokenKinds TokenKind}.

Lemma tokenize_from_stamps (self : Lexer) (all_lines : list (string * string * Z))
    code_lines :
  forall all_tokens tokens,
    incl code_lines all_lines ->
    Forall (fun t => exists line f n line_tokens t0,
                In (line, f, n) all_lines
                /\ tokenize_line self line = OK line_tokens
                /\ In t0 line_tokens
                /\ t = set_position f n t0)
           all_tokens ->
    tokenize_from self code_lines all_tokens = OK tokens ->
    Forall (fun t => exists line f n line_tokens t0,
                In (line, f, n) all_lines
                /\ tokenize_line self line = OK line_tokens
                /\ In t0 line_tokens
                /\ t = set_position f n t0)
           tokens.
Proof.
  induction code_lines as [| [[line f] n] rest IH];
    intros all_tokens tokens Hincl Hacc; cbn [tokenize_from].
  - intros [= <-]. exact Hacc.
  - destruct (tokenize_line self line) as [line_tokens | x |] eqn:Eline;
      [ | destruct x; discriminate | discriminate ].
    apply IH.
    + intros l Hl. apply Hincl. right. exact Hl.
    + apply Forall_app. split; [ exact Hacc | ].
      apply Forall_forall. intros t Ht.
      apply in_map_iff in Ht as (t0 & <- & Ht0).
      exists line, f, n, line_tokens, t0.
      split; [ apply Hincl; left; reflexivity | ]. auto.
Qed.

(** X19. Every token [tokenize] returns is a token [tokenize_line] found
    on one of the lines, with the same kind and content, stamped with
    the file name and line number given with that line. *)
Theorem tokenize_stamps (self : Lexer) (code_lines : list (string * string * Z))
    (tokens : list (Token TokenKind)) :
  tokenize self code_lines = OK tokens ->
  Forall (fun t => exists line f n line_tokens t0,
              In (line, f, n) code_lines
              /\ tokenize_line self line = OK line_tokens
              /\ In t0 line_tokens
              /\ lexed self t0
              /\ kind t = kind t0 /\ content t = content t0
              /\ Tokens.file_name t = Some f /\ Tokens.line_num t = Some n)
         tokens.
Proof.
  intros Htok.
  pose proof (tokenize_from_stamps self code_lines code_lines [] tokens
                (incl_refl _) (Forall_nil _) Htok) as Hall.
  rewrite Forall_forall in Hall |- *. intros t Ht.
  destruct (Hall t Ht) as (line & f & n & line_tokens & t0 & Hin & Hline & Ht0 & ->).
  exists line, f, n, line_tokens, t0.
  pose proof (tokenize_loop_lexed self line _ _ _ [] line_tokens
                (Forall_nil _) Hline) as Hlexed.
  rewrite Forall_forall in Hlexed.
  split; [ exact Hin | ]. split; [ exact Hline | ]. split; [ exact Ht0 | ].
  split; [ exact (Hlexed t0 Ht0) | ].
  repeat split; reflexivity.
Qed.

End TokenizeStamps.

(** ** The further properties on the sample kinds *)

Lemma sample_spelled (k : Sample.CKind) :
  In k (symbol_kinds Sample.lexer) ->
  text_repr k <> ""
  /\ all_chars (fun c => negb (isspace c)) (text_repr k) = true.
Proof.
  revert k. apply Forall_forall.
  repeat (apply Forall_cons; [ split; [ discriminate | reflexivity ] | ]).
  apply Forall_nil.
Qed.

Lemma sample_not_empty (k : Sample.CKind) :
  In k (symbol_kinds Sample.lexer) -> text_repr k <> "".
Proof. intros Hk. exact (proj1 (sample_spelled k Hk)). Qed.

Lemma sample_no_space (k : Sample.CKind) :
  In k (symbol_kinds Sample.lexer) ->
  all_chars (fun c => negb (isspace c)) (text_repr k) = true.
Proof. intros Hk. exact (proj2 (sample_spelled k Hk)). Qed.

Lemma parser_error_outcome_witness :
  ParserError_init "expected semicolon" 0 Sample.return_15 7
  = Raise (ValueError "Unknown error message type")
  /\ ParserError_init "expected semicolon" 5 (@nil (Token Sample.CKind)) 7
     = Raise IndexError
  /\ exists e, ParserError_init "expected semicolon" 5 Sample.return_15 7 = OK e.
Proof.
  assert (Hunknown : ~ (7 = AT \/ 7 = GOT \/ 7 = AFTER)).
  { intros [Heq | [Heq | Heq]]; discriminate Heq. }
  split; [ | split ].
  - apply (proj1 (parser_error_outcome "expected semicolon" 0
                    Sample.return_15 7)); [ reflexivity | exact Hunknown ].
  - apply (proj1 (proj2 (parser_error_outcome "expected semicolon" 5 [] 7)));
      [ reflexivity | left; discriminate ].
  - apply (proj2 (proj2 (parser_error_outcome "expected semicolon" 5
                           Sample.return_15 7)));
      [ discriminate | left; discriminate ].
Defined.

Lemma match_symbol_tie_break_witness :
  find (fun k => String.eqb (text_repr k) (text_repr Sample.shl_assign))
       Sample.symbol_kinds = Some Sample.shl_assign
  /\ forall k, In k Sample.symbol_kinds ->
       startswith "a<<=b" (text_repr k) 0 = false.
Proof.
  split.
  - apply (proj1 (match_symbol_tie_break Sample.symbol_kinds
                    Sample.keyword_kinds "a<<=b" 1)).
    reflexivity.
  - apply (proj1 (proj2 (match_symbol_tie_break Sample.symbol_kinds
                           Sample.keyword_kinds "a<<=b" 0))).
    reflexivity.
Defined.

Lemma match_keyword_exact_witness :
  (In Sample.while_kw Sample.keyword_kinds
   /\ text_repr Sample.while_kw = "while")
  /\ ~ In "whilst" (map text_repr Sample.keyword_kinds).
Proof.
  split.
  - apply (proj1 (proj2 (match_keyword_exact Sample.symbol_kinds
                           Sample.keyword_kinds "while"))).
    reflexivity.
  - apply (proj1 (proj2 (proj2 (match_keyword_exact Sample.symbol_kinds
                                  Sample.keyword_kinds "whilst")))).
    reflexivity.
Defined.

Lemma parser_error_located_witness :
  exists line f n,
    In (line, f, n) [("return 15", "main.c", 3)]
    /\ Errors.file_name
         (CompilerError_init "expected semicolon after '15'"
            (Some "main.c") (Some 3)) = Some f
    /\ Errors.line_num
         (CompilerError_init "expected semicolon after '15'"
            (Some "main.c") (Some 3)) = Some n
    /\ CompilerError_str
         (CompilerError_init "expected semicolon after '15'"
            (Some "main.c") (Some 3))
       = f ++ ":" ++ str_of_int n ++ ": error: "
         ++ "expected semicolon after '15'".
Proof.
  assert (Hgood : forall line f n,
             In (line, f, n) [("return 15", "main.c", 3)] -> f <> "" /\ n <> 0).
  { intros line f n [Heq | []]. injection Heq as <- <- <-.
    split; discriminate. }
  assert (Htokens : tokenize Sample.lexer [("return 15", "main.c", 3)]
                    = OK Sample.return_15)
    by (vm_compute; reflexivity).
  assert (Herror : ParserError_init "expected semicolon" 2 Sample.return_15 AFTER
                   = OK {| base := CompilerError_init
                                     "expected semicolon after '15'"
                                     (Some "main.c") (Some 3);
                           amount_parsed := 2 |})
    by (vm_compute; reflexivity).
  exact (parser_error_located Sample.lexer _ _ _ _ _ _ Hgood Htokens Herror).
Defined.

Lemma tokenize_failure_located_witness :
  exists before line f n rest a b,
    [("int x;", "main.c", 3); ("1a", "main.c", 4)]
    = (before ++ (line, f, n) :: rest)%list
    /\ (exists tokens, tokenize Sample.lexer before = OK tokens)
    /\ slice line a b <> ""
    /\ tokenize_line Sample.lexer line
       = Raise (CompilerErr
                  (CompilerError_init
                     ("unrecognized token at '" ++ slice line a b ++ "'")
                     None None))
    /\ CompilerErr (CompilerError_init "unrecognized token at '1a'"
                      (Some "main.c") (Some 4))
       = CompilerErr
           (CompilerError_init
              ("unrecognized token at '" ++ slice line a b ++ "'")
              (Some f) (Some n))
    /\ (f <> "" -> n <> 0 ->
        CompilerError_str
          (CompilerError_init
             ("unrecognized token at '" ++ slice line a b ++ "'")
             (Some f) (Some n))
        = f ++ ":" ++ str_of_int n ++ ": error: "
          ++ "unrecognized token at '" ++ slice line a b ++ "'").
Proof.
  assert (Hfail : tokenize Sample.lexer
                    [("int x;", "main.c", 3); ("1a", "main.c", 4)]
                  = Raise (CompilerErr
                             (CompilerError_init "unrecognized token at '1a'"
                                (Some "main.c") (Some 4))))
    by (vm_compute; reflexivity).
  exact (tokenize_failure_located Sample.lexer _ _ Hfail).
Defined.

Lemma tokens_spell_the_line_witness :
  render [Token_init Sample.int_kw None;
          Token_init Sample.identifier_kind (Some "x");
          Token_init Sample.equals None;
          Token_init Sample.identifier_kind (Some "y");
          Token_init Sample.shl None;
          Token_init Sample.number_kind (Some "2");
          Token_init Sample.semicolon None]
  = strip_space "int x = y<<2;".
Proof.
  apply (tokens_spell_the_line Sample.lexer "int x = y<<2;").
  - exact sample_no_space.
  - vm_compute. reflexivity.
Defined.

Lemma tokenize_line_lexed_witness :
  Forall (lexed Sample.lexer)
    [Token_init Sample.identifier_kind (Some "a");
     Token_init Sample.plus None;
     Token_init Sample.number_kind (Some "42")].
Proof.
  apply (tokenize_line_lexed Sample.lexer "a+42").
  vm_compute. reflexivity.
Defined.

Lemma tokenize_stamps_witness :
  Forall (fun t => exists line f n line_tokens t0,
              In (line, f, n) [("return 15", "main.c", 3)]
              /\ tokenize_line Sample.lexer line = OK line_tokens
              /\ In t0 line_tokens
              /\ lexed Sample.lexer t0
              /\ kind t = kind t0 /\ content t = content t0
              /\ Tokens.file_name t = Some f /\ Tokens.line_num t = Some n)
         Sample.return_15.
Proof.
  apply (tokenize_stamps Sample.lexer [("return 15", "main.c", 3)]).
  vm_compute. reflexivity.
Defined.

Lemma white_space_separates_witness :
  tokenize_line Sample.lexer ("return" ++ String " " "15")
  = (t1 <- tokenize_line Sample.lexer "return" ;;
     t2 <- tokenize_line Sample.lexer "15" ;;
     OK (t1 ++ t2)%list).
Proof.
  apply (white_space_separates Sample.lexer sample_spelled "return" "15" " ").
  reflexivity.
Defined.

Lemma white_space_around_witness :
  (tokenize_line Sample.lexer (String " " "x;") = tokenize_line Sample.lexer "x;"
   /\ tokenize_line Sample.lexer ("x;" ++ String " " "")
      = tokenize_line Sample.lexer "x;")
  /\ tokenize_line Sample.lexer "   " = OK [].
Proof.
  split.
  - apply (proj1 (white_space_around Sample.lexer "x;" " " sample_spelled)).
    reflexivity.
  - apply (proj2 (white_space_around Sample.lexer "   " " " sample_spelled)).
    reflexivity.
Defined.

Lemma tokenize_line_outcome_witness :
  (exists tokens, tokenize_line Sample.lexer "1a" = OK tokens)
  \/ (exists a b,
        slice "1a" a b <> ""
        /\ tokenize_line Sample.lexer "1a"
           = Raise (CompilerErr
                      (CompilerError_init
                         ("unrecognized token at '" ++ slice "1a" a b ++ "'")
                         None None))).
Proof.
  apply (tokenize_line_outcome Sample.lexer "1a"). exact sample_not_empty.
Defined.

Lemma empty_spelling_hangs_witness :
  tokenize_line (Lexer_init [Sample.identifier_kind; Sample.plus] []) "a"
  = Diverge.
Proof.
  apply (empty_spelling_hangs
           (Lexer_init [Sample.identifier_kind; Sample.plus] []) "a").
  - discriminate.
  - exists Sample.identifier_kind. split; [ right; left; reflexivity | reflexivity ].
  - intros k [<- | [<- | []]]; [ discriminate | reflexivity ].
Defined.

Lemma one_word_line_witness :
  tokenize_line Sample.lexer "int1"
  = OK [Token_init Sample.identifier_kind (Some "int1")]
  /\ tokenize_line Sample.lexer "int" = OK [Token_init Sample.int_kw None]
  /\ tokenize_line Sample.lexer "007"
     = OK [Token_init Sample.number_kind (Some "007")]
  /\ tokenize_line Sample.lexer "1int"
     = Raise (CompilerErr
                (CompilerError_init "unrecognized token at '1int'" None None)).
Proof.
  split; [ | split; [ | split ] ].
  - exact (one_word_line Sample.symbol_kinds Sample.keyword_kinds
             sample_is_standard "i" "nt1" eq_refl).
  - exact (one_word_line Sample.symbol_kinds Sample.keyword_kinds
             sample_is_standard "i" "nt" eq_refl).
  - exact (one_word_line Sample.symbol_kinds Sample.keyword_kinds
             sample_is_standard "0" "07" eq_refl).
  - exact (one_word_line Sample.symbol_kinds Sample.keyword_kinds
             sample_is_standard "1" "int" eq_refl).
Defined.


Lemma statement_error_is_expression_error_witness :
  exists e1 st1 e2 st2 e3 st3 e4 st4,
    Statement.parse_compound_statement Sample.log_error Sample.match_token
      Sample.token_is Sample.parse_expression Sample.parse_declaration
      Sample.open_brack Sample.close_brack Sample.return_kw Sample.semicolon
      Sample.if_kw Sample.else_kw Sample.while_kw Sample.open_paren
      Sample.close_paren 0 0 (Sample.lone_semicolon, [])
    = (Raise (ParserErr e1), st1)
    /\ Statement.parse_return string Sample.match_token Sample.parse_expression
         Sample.return_kw Sample.semicolon 0 (Sample.log_error e1 st1)
       = (Raise (ParserErr e2), st2)
    /\ Statement.parse_if_statement Sample.log_error Sample.match_token
         Sample.token_is Sample.parse_expression Sample.parse_declaration
         Sample.open_brack Sample.close_brack Sample.return_kw Sample.semicolon
         Sample.if_kw Sample.else_kw Sample.while_kw Sample.open_paren
         Sample.close_paren 0 0 (Sample.log_error e2 st2)
       = (Raise (ParserErr e3), st3)
    /\ Statement.parse_while_statement Sample.log_error Sample.match_token
         Sample.token_is Sample.parse_expression Sample.parse_declaration
         Sample.open_brack Sample.close_brack Sample.return_kw Sample.semicolon
         Sample.if_kw Sample.else_kw Sample.while_kw Sample.open_paren
         Sample.close_paren 0 0 (Sample.log_error e3 st3)
       = (Raise (ParserErr e4), st4)
    /\ Statement.parse_expr_statement string Sample.match_token
         Sample.parse_expression Sample.semicolon 0 (Sample.log_error e4 st4)
       = (Raise (ParserErr (Sample.mismatch "expected expression, got ';'")),
          (Sample.lone_semicolon,
           [Sample.mismatch "expected '{', got ';'";
            Sample.mismatch "expected 'return', got ';'";
            Sample.mismatch "expected 'if', got ';'";
            Sample.mismatch "expected 'while', got ';'"])).
Proof.
  apply (statement_error_is_expression_error Sample.State string string
           Sample.log_error Sample.match_token Sample.token_is
           Sample.parse_expression Sample.parse_declaration
           Sample.open_brack Sample.close_brack Sample.return_kw
           Sample.semicolon Sample.if_kw Sample.else_kw Sample.while_kw
           Sample.open_paren Sample.close_paren
           0%nat 0 (Sample.lone_semicolon, [])).
  reflexivity.
Defined.

Lemma statement_node_forms_witness :
  Some (0, 2) = Some (0, 3 - 1)
  /\ ((exists nodes, Statement.Return string "5" = Statement.Compound nodes)
      \/ (exists e, Statement.Return string "5" = Statement.Return string e)
      \/ (exists c s else_s,
            Statement.Return string "5" = Statement.IfStatement c s else_s)
      \/ (exists c s, Statement.Return string "5" = Statement.WhileStatement c s)
      \/ (exists e, Statement.Return string "5" = Statement.ExprStatement string e)).
Proof.
  assert (Hrun : Sample.parse_statement 1 0
                   ([Sample.tok_at Sample.return_kw None 1;
                     Sample.tok_at Sample.number_kind (Some "5") 1;
                     Sample.tok_at Sample.semicolon None 1], [])
                 = (OK (Statement.mkNode (Statement.Return string "5")
                          (Some (0, 2)), 3),
                    ([Sample.tok_at Sample.return_kw None 1;
                      Sample.tok_at Sample.number_kind (Some "5") 1;
                      Sample.tok_at Sample.semicolon None 1],
                     [Sample.mismatch "expected '{', got 'return'"])))
    by (vm_compute; reflexivity).
  exact (statement_node_forms Sample.State string string
           Sample.log_error Sample.match_token Sample.token_is
           Sample.parse_expression Sample.parse_declaration
           Sample.open_brack Sample.close_brack Sample.return_kw
           Sample.semicolon Sample.if_kw Sample.else_kw Sample.while_kw
           Sample.open_paren Sample.close_paren
           0%nat 0 _ _ _ _ _ Hrun).
Defined.
